(** * bathygrid: the tile lattice of [bathygrid/bgrid.py]

    A shallow embedding of [BathyGrid], [SRGrid] and [VRGridTile].

    Conventions.
    - Python floats (depths, resolutions, coordinates) are rationals [Q];
      rounding, infinities and NaN are not modelled.
    - A method that mutates [self] and may raise is a function from the
      object to the mutated object and an [outcome]; a raised exception
      keeps every mutation made before it.
    - [bathygrid.grids.BaseGrid], [bathygrid.tile.SRTile],
      [bathygrid.utilities], numpy's raster operations and the dask client
      are not part of the sources: they are the fields of type classes.
      The lemmas on the methods hold for all of their implementations;
      the runs on concrete data use the implementation of module
      [Reference]. *)

From Stdlib Require Import ZArith QArith Qround List String Bool Lia Sorted.
From stdpp Require Import base option list gmap strings.

Open Scope string_scope.
Open Scope Q_scope.
Open Scope list_scope.

(** ** Exceptions *)

(** The exceptions of [bgrid.py].  The first six are all [ValueError] in
    the source, told apart by their message; they carry the names of the
    specification's fault taxonomy. *)
Inductive fault : Type :=
| EmptyGridFault            (* ValueError 'Grid is empty, ...' *)
| AmbiguousResolutionFault  (* ValueError 'you must specify a resolution ...' *)
| UndefinedDepthFault       (* ValueError 'Unable to calculate resolution when mean_depth is None' *)
| MetadataConflictFault     (* ValueError 'Found existing ..., new ... must match' *)
| InvalidInputFault         (* ValueError raised by _validate_input_data *)
| ShapeFault                (* AssertionError of the is_integer asserts; numpy shape mismatch *)
| TypeError
| AttributeError
| NoFieldFault              (* numpy ValueError 'no field of name ...' *)
| KeyError
| IndexError
| EmptyReduction            (* numpy ValueError: min/max of an empty array *)
| ZeroDivisionError
| ExternalFault (msg : string).

Inductive outcome (A : Type) : Type :=
| Ok (a : A)
| Raise (e : fault).
Arguments Ok {A} a.
Arguments Raise {A} e.

Definition is_ok {A} (o : outcome A) : bool :=
  match o with Ok _ => true | Raise _ => false end.

(** A method on an object of type [St]: the mutated object and the result. *)
Definition M (St A : Type) : Type := St -> St * outcome A.

Definition ret {St A} (a : A) : M St A := fun s => (s, Ok a).
Definition raise {St A} (e : fault) : M St A := fun s => (s, Raise e).
Definition bind {St A B} (m : M St A) (k : A -> M St B) : M St B :=
  fun s => match m s with
           | (s', Ok a) => k a s'
           | (s', Raise e) => (s', Raise e)
           end.
Definition get {St} : M St St := fun s => (s, Ok s).
Definition modify {St} (f : St -> St) : M St unit := fun s => (f s, Ok tt).
Definition lift {St A} (o : outcome A) : M St A := fun s => (s, o).

Global Instance M_ret {St} : MRet (M St) := fun A a => ret a.
Global Instance M_bind {St} : MBind (M St) := fun A B k m => bind m k.

(** ** Numbers *)

Definition Qgtb (a b : Q) : bool := negb (Qle_bool a b).
Definition Qeqb (a b : Q) : bool := Qeq_bool a b.

(** ** Resolution selector *)

(** [depth_resolution_lookup], a dict in insertion order: maximum depth
    and the resolution that applies. *)
Definition depth_resolution_lookup : list (Z * Q) :=
  [ (20%Z, 1 # 2); (40%Z, 1); (60%Z, 2); (80%Z, 4); (160%Z, 8);
    (320%Z, 16); (640%Z, 32); (1280%Z, 64); (2560%Z, 128);
    (5120%Z, 256); (10240%Z, 512); (20480%Z, 1024) ].

(** [dict[key]] on an insertion-ordered dict. *)
Fixpoint dict_get {V} (d : list (Z * V)) (k : Z) : outcome V :=
  match d with
  | [] => Raise KeyError
  | (k', v) :: d' => if Z.eqb k' k then Ok v else dict_get d' k
  end.

(** [np.argmax] of a boolean array: the index of the first [True], and 0
    when every entry is [False]. *)
Fixpoint np_argmax (l : list bool) : nat :=
  match l with
  | [] => 0
  | b :: l' => if b then 0 else
                 if existsb (fun x => x) l' then S (np_argmax l') else 0
  end.

(** [BathyGrid._calculate_resolution], from the [mean_depth] attribute. *)
Definition _calculate_resolution (mean_depth : option Q) : outcome Q :=
  match mean_depth with
  | None => Raise UndefinedDepthFault
  | Some d =>
      let dpth_keys := map fst depth_resolution_lookup in
      let range_index :=
        np_argmax (map (fun k => Qgtb (inject_Z k - d) 0) dpth_keys) in
      match dpth_keys !! range_index with
      | Some k => dict_get depth_resolution_lookup k
      | None => Raise IndexError
      end
  end.

(** ** Input data *)

(** A numpy array: structured (named columns of equal length, here column
    by column) or plain ([dtype.names] is [None]). *)
Inductive ndarray : Type :=
| Structured (fields : list (string * list Q))
| Unstructured (values : list Q).

(** What [add_points] may be handed as [data].  An xarray dataset has
    data variables, coordinates and named dimensions. *)
Inductive input : Type :=
| NumpyArray (a : ndarray)
| DaskArray (a : ndarray)
| XrDataset (data_vars coords : list (string * list Q)) (dims : list string)
| PyObject.

Fixpoint assoc {V} (l : list (string * V)) (k : string) : option V :=
  match l with
  | [] => None
  | (k', v) :: l' => if String.eqb k' k then Some v else assoc l' k
  end.

Definition has_field {V} (l : list (string * V)) (k : string) : bool :=
  match assoc l k with Some _ => true | None => false end.

(** Everything [name in dataset] and [dataset[name]] see: the data
    variables and the coordinates.  Iterating a dataset gives the names
    of its data variables only. *)
Definition ds_variables (data_vars coords : list (string * list Q))
  : list (string * list Q) := data_vars ++ coords.

(** [data[name]] *)
Definition get_field (d : input) (name : string) : outcome (list Q) :=
  match d with
  | NumpyArray (Structured fs) | DaskArray (Structured fs) =>
      match assoc fs name with Some c => Ok c | None => Raise NoFieldFault end
  | NumpyArray (Unstructured _) | DaskArray (Unstructured _) => Raise IndexError
  | XrDataset data_vars coords _ =>
      match assoc (ds_variables data_vars coords) name with
      | Some c => Ok c
      | None => Raise KeyError
      end
  | PyObject => Raise TypeError
  end.

Fixpoint mask_select {A} (mask : list bool) (l : list A) : list A :=
  match mask, l with
  | b :: mask', a :: l' =>
      if b then a :: mask_select mask' l' else mask_select mask' l'
  | _, _ => []
  end.

(** [data[point_mask]], a boolean mask over the rows. *)
Definition select_rows (d : input) (mask : list bool) : outcome input :=
  match d with
  | NumpyArray (Structured fs) =>
      Ok (NumpyArray (Structured (map (fun '(n, c) => (n, mask_select mask c)) fs)))
  | NumpyArray (Unstructured v) =>
      Ok (NumpyArray (Unstructured (mask_select mask v)))
  | DaskArray (Structured fs) =>
      Ok (DaskArray (Structured (map (fun '(n, c) => (n, mask_select mask c)) fs)))
  | DaskArray (Unstructured v) =>
      Ok (DaskArray (Unstructured (mask_select mask v)))
  | XrDataset _ _ _ => Raise KeyError
  | PyObject => Raise TypeError
  end.

Definition Qminimum (l : list Q) : outcome Q :=
  match l with
  | [] => Raise EmptyReduction
  | a :: l' => Ok (fold_left (fun m x => if Qgtb m x then x else m) l' a)
  end.

Definition Qmaximum (l : list Q) : outcome Q :=
  match l with
  | [] => Raise EmptyReduction
  | a :: l' => Ok (fold_left (fun m x => if Qgtb x m then x else m) l' a)
  end.

(** [column.any()]: some entry is non-zero. *)
Definition np_any (l : list Q) : bool := existsb (fun z => negb (Qeqb z 0)) l.

Definition Qsum (l : list Q) : Q := fold_right Qplus 0 l.

(** The mean of a column in exact arithmetic. *)
Definition exact_mean (l : list Q) : Q := Qsum l / inject_Z (Z.of_nat (length l)).

(** Truth value of an optional list or string argument. *)
Definition truthy_list {A} (o : option (list A)) : bool :=
  match o with Some (_ :: _) => true | _ => false end.
Definition truthy_int (o : option Z) : bool :=
  match o with Some z => negb (Z.eqb z 0) | None => false end.
Definition truthy_str (o : option string) : bool :=
  match o with Some s => negb (String.eqb s "") | None => false end.
Definition truthy_float (o : option Q) : bool :=
  match o with Some q => negb (Qeqb q 0) | None => false end.

(** [int(epsg)] for an argument annotated [int = None]. *)
Definition py_int (o : option Z) : outcome Z :=
  match o with Some z => Ok z | None => Raise TypeError end.

(** ** External collaborators *)

(** numpy's float arithmetic and its two-dimensional float arrays, as far
    as [bgrid.py] uses them. *)
Class Numpy : Type := {
  (** [column.mean()]: the mean of a column as numpy computes it, in the
      column's float type and rounded as numpy rounds it *)
  np_mean : list Q -> Q;
  raster : Type;
  (** [np.full((rows, cols), np.nan)] *)
  np_full_nan : Z -> Z -> outcome raster;
  (** [data[r:r + n, c:c + n] = block] *)
  np_assign_block : raster -> Z -> Z -> Z -> raster -> outcome raster;
  (** [np.any(~np.isnan(data), axis=1)] and [axis=0] *)
  np_any_notnan_rows : raster -> list bool;
  np_any_notnan_cols : raster -> list bool;
  (** [data[rmin:rmax, cmin:cmax]] *)
  np_crop : raster -> Z -> Z -> Z -> Z -> raster;
  (** [~np.isnan(surf)] *)
  np_notnan : raster -> list (list bool);
  (** [np.arange(start, stop, step)] *)
  np_arange : Q -> Q -> Q -> outcome (list Q)
}.

(** [bathygrid.tile.SRTile]: the leaf tile. [tile_cells] gives the keys of
    the [cells] dict. *)
Class TileIface `{Numpy} : Type := {
  tile : Type;
  SRTile : Q -> Q -> Q -> tile;
  tile_add_points : input -> string -> M tile unit;
  tile_remove_points : string -> M tile unit;
  tile_is_empty : tile -> bool;
  tile_grid : string -> Q -> bool -> M tile Q;
  tile_get_layer_by_name : string -> Q -> tile -> outcome raster;
  tile_cells : tile -> list string
}.

(** The attributes of [bathygrid.grids.BaseGrid] that [bgrid.py] reads or
    assigns; the two-dimensional arrays are flattened in row-major order. *)
Record lattice : Type := Lattice {
  min_x : Q;
  min_y : Q;
  max_x : Q;
  max_y : Q;
  tile_size : Q;
  can_grow : bool;
  height : Q;
  width : Q;
  tile_x_origin : list Q;
  tile_y_origin : list Q;
  tile_edges_x : list Q;
  tile_edges_y : list Q;
  existing_tile_mask : list bool
}.

Definition set_extents (mnx mny mxx mxy : Q) (b : lattice) : lattice :=
  Lattice mnx mny mxx mxy (tile_size b) (can_grow b) (height b) (width b)
          (tile_x_origin b) (tile_y_origin b) (tile_edges_x b)
          (tile_edges_y b) (existing_tile_mask b).

Definition set_can_grow (c : bool) (b : lattice) : lattice :=
  Lattice (min_x b) (min_y b) (max_x b) (max_y b) (tile_size b) c (height b)
          (width b) (tile_x_origin b) (tile_y_origin b) (tile_edges_x b)
          (tile_edges_y b) (existing_tile_mask b).

(** The methods of [BaseGrid] called by [bgrid.py]. *)
Class BaseGridOps : Type := {
  (** [BaseGrid.__init__(min_x, min_y, tile_size)] *)
  BaseGrid_init : Q -> Q -> Q -> lattice;
  (** [_init_from_extents(min_y, min_x, max_y, max_x)] *)
  _init_from_extents : Q -> Q -> Q -> Q -> M lattice unit;
  (** [_update_extents(min_y, min_x, max_y, max_x)] *)
  _update_extents : Q -> Q -> Q -> Q -> M lattice unit;
  _tile_idx_to_row_col : lattice -> nat -> outcome (Z * Z)
}.

(** The dask client: [n_workers] is [len(client.ncores())]. *)
Record dask_client : Type := DaskClient { n_workers : nat }.

(** [bathygrid.utilities] *)
Class Utilities : Type := {
  (** [bin2d_with_indices(x, y, x_edges, y_edges)]: the flat cell index of
      every point. *)
  bin2d_with_indices : list Q -> list Q -> list Q -> list Q -> outcome (list Z);
  dask_find_or_start_client : dask_client
}.

(** ** The grid object *)

Inductive grid_class : Type := BathyGridC | SRGridC | VRGridTileC.

(** A [BathyGrid] whose lattice slots hold objects of type [S]; an empty
    slot is [None].  [tiles] is the flattened lattice ([tiles.flat],
    [tiles.ravel()]), or [None] before any data was added. *)
Record BathyGrid (S : Type) : Type := Grid {
  cls : grid_class;
  base : lattice;
  data : option input;
  container : gmap string (list string);
  tiles : option (list (option S));
  mean_depth : option Q;
  epsg : option Z;
  vertical_reference : option string;
  resolutions : list Q;
  layernames : list string;
  subtile_size : Q;
  client : option dask_client
}.
Arguments Grid {S}.
Arguments cls {S}. Arguments base {S}. Arguments data {S}.
Arguments container {S}. Arguments tiles {S}. Arguments mean_depth {S}.
Arguments epsg {S}. Arguments vertical_reference {S}.
Arguments resolutions {S}. Arguments layernames {S}.
Arguments subtile_size {S}. Arguments client {S}.

Section Setters.
Context {S : Type}.
Implicit Type g : BathyGrid S.

Definition set_base (v : lattice) g : BathyGrid S :=
  Grid (cls g) v (data g) (container g) (tiles g) (mean_depth g) (epsg g)
       (vertical_reference g) (resolutions g) (layernames g)
       (subtile_size g) (client g).
Definition set_data (v : option input) g : BathyGrid S :=
  Grid (cls g) (base g) v (container g) (tiles g) (mean_depth g) (epsg g)
       (vertical_reference g) (resolutions g) (layernames g)
       (subtile_size g) (client g).
Definition set_container (v : gmap string (list string)) g : BathyGrid S :=
  Grid (cls g) (base g) (data g) v (tiles g) (mean_depth g) (epsg g)
       (vertical_reference g) (resolutions g) (layernames g)
       (subtile_size g) (client g).
Definition set_tiles (v : option (list (option S))) g : BathyGrid S :=
  Grid (cls g) (base g) (data g) (container g) v (mean_depth g) (epsg g)
       (vertical_reference g) (resolutions g) (layernames g)
       (subtile_size g) (client g).
Definition set_mean_depth (v : option Q) g : BathyGrid S :=
  Grid (cls g) (base g) (data g) (container g) (tiles g) v (epsg g)
       (vertical_reference g) (resolutions g) (layernames g)
       (subtile_size g) (client g).
Definition set_epsg (v : option Z) g : BathyGrid S :=
  Grid (cls g) (base g) (data g) (container g) (tiles g) (mean_depth g) v
       (vertical_reference g) (resolutions g) (layernames g)
       (subtile_size g) (client g).
Definition set_vertical_reference (v : option string) g : BathyGrid S :=
  Grid (cls g) (base g) (data g) (container g) (tiles g) (mean_depth g)
       (epsg g) v (resolutions g) (layernames g) (subtile_size g)
       (client g).
Definition set_resolutions (v : list Q) g : BathyGrid S :=
  Grid (cls g) (base g) (data g) (container g) (tiles g) (mean_depth g)
       (epsg g) (vertical_reference g) v (layernames g) (subtile_size g)
       (client g).
Definition set_layernames (v : list string) g : BathyGrid S :=
  Grid (cls g) (base g) (data g) (container g) (tiles g) (mean_depth g)
       (epsg g) (vertical_reference g) (resolutions g) v (subtile_size g)
       (client g).
Definition set_client (v : option dask_client) g : BathyGrid S :=
  Grid (cls g) (base g) (data g) (container g) (tiles g) (mean_depth g)
       (epsg g) (vertical_reference g) (resolutions g) (layernames g)
       (subtile_size g) v.
End Setters.

(** What a lattice slot's occupant must offer: the duck-typed interface
    shared by [SRTile] and by a nested [BathyGrid]. *)
Class SlotOps `{Numpy} (S : Type) : Type := {
  (** [self._build_tile(x_origin, y_origin)] of a grid of class [c] with
      the given [tile_size] and [subtile_size] *)
  slot_build : grid_class -> Q -> Q -> Q -> Q -> S;
  slot_add_points : input -> string -> M S unit;
  slot_remove_points : string -> M S unit;
  slot_is_empty : S -> bool;
  slot_grid : string -> Q -> bool -> M S Q;
  slot_get_layer_by_name : string -> Q -> S -> outcome raster;
  (** the truth value of [tile.cells] as [no_grid] reads it, after its
      descent into a nested grid *)
  slot_has_cells : S -> outcome bool;
  (** [list(tile.cells.keys)] *)
  slot_list_cells_keys : S -> outcome (list string)
}.

(** ** Small pieces of Python and numpy *)

Fixpoint for_each {St A} (l : list A) (body : A -> M St unit) : M St unit :=
  match l with
  | [] => ret tt
  | a :: l' => bind (body a) (fun _ => for_each l' body)
  end.

(** [a / b] on floats *)
Definition py_div (a b : Q) : outcome Q :=
  if Qeqb b 0 then Raise ZeroDivisionError else Ok (a / b).

(** [q.is_integer()] *)
Definition is_integer (q : Q) : bool := Pos.eqb (Qden (Qred q)) 1.

(** [assert c] *)
Definition py_assert (c : bool) : outcome unit :=
  if c then Ok tt else Raise ShapeFault.

(** [np.unique]: the sorted distinct values. *)
Fixpoint insert_unique (z : Z) (l : list Z) : list Z :=
  match l with
  | [] => [z]
  | a :: l' => if Z.ltb z a then z :: a :: l'
               else if Z.eqb z a then a :: l'
               else a :: insert_unique z l'
  end.
Definition np_unique (l : list Z) : list Z := fold_right insert_unique [] l.

Fixpoint Qinsert_unique (q : Q) (l : list Q) : list Q :=
  match l with
  | [] => [q]
  | a :: l' => if Qgtb a q then q :: a :: l'
               else if Qeqb q a then a :: l'
               else a :: Qinsert_unique q l'
  end.
(** [np.sort(np.unique(l))] on floats *)
Definition np_sort_unique (l : list Q) : list Q := fold_right Qinsert_unique [] l.

(** [x in l] on a list of floats *)
Definition Qmem (q : Q) (l : list Q) : bool := existsb (Qeqb q) l.

(** The position an index denotes in an array of length [n]: negative
    indices count from the end, anything else out of range raises. *)
Definition np_index (n : nat) (i : Z) : outcome nat :=
  if (0 <=? i)%Z && (i <? Z.of_nat n)%Z then Ok (Z.to_nat i)
  else if (- Z.of_nat n <=? i)%Z && (i <? 0)%Z then Ok (Z.to_nat (i + Z.of_nat n))
  else Raise IndexError.

Definition np_getitem {A} (l : list A) (i : Z) : outcome A :=
  match np_index (length l) i with
  | Ok k => match l !! k with Some a => Ok a | None => Raise IndexError end
  | Raise e => Raise e
  end.

Fixpoint fill_mask {A} (arr : list A) (mask : list bool) (vals : list A)
         (broadcast : bool) : list A :=
  match arr, mask with
  | a :: arr', b :: mask' =>
      if b then
        match vals with
        | v :: vals' =>
            v :: fill_mask arr' mask' (if broadcast then vals else vals') broadcast
        | [] => a :: fill_mask arr' mask' vals broadcast
        end
      else a :: fill_mask arr' mask' vals broadcast
  | _, _ => arr
  end.

Definition count_true (mask : list bool) : nat :=
  length (filter (fun b => b = true) mask).

(** [arr[mask] = vals] with a boolean mask: [vals] must supply one value
    per [True], or a single value that is broadcast. *)
Definition np_mask_assign {A} (arr : list A) (mask : list bool) (vals : list A)
  : outcome (list A) :=
  if negb (Nat.eqb (length mask) (length arr)) then Raise IndexError
  else if Nat.eqb (length vals) (count_true mask)
       then Ok (fill_mask arr mask vals false)
  else if Nat.eqb (length vals) 1 then Ok (fill_mask arr mask vals true)
  else Raise ShapeFault.

(** [np.where(mask)[0]] *)
Fixpoint np_where_from (i : Z) (mask : list bool) : list Z :=
  match mask with
  | [] => []
  | b :: mask' =>
      if b then i :: np_where_from (i + 1) mask' else np_where_from (i + 1) mask'
  end.
Definition np_where (mask : list bool) : list Z := np_where_from 0 mask.

(** [a[[0, -1]]] *)
Definition first_last (l : list Z) : outcome (Z * Z) :=
  match l with
  | [] => Raise IndexError
  | a :: _ => Ok (a, List.last l a)
  end.

(** [l[a:b]] for [0 <= a] *)
Definition py_slice {A} (l : list A) (a b : Z) : list A :=
  take (Z.to_nat (b - a)) (drop (Z.to_nat a) l).

Fixpoint first_occupied {A} (l : list (option A)) : option A :=
  match l with
  | [] => None
  | Some a :: _ => Some a
  | None :: l' => first_occupied l'
  end.

Fixpoint last_occupied {A} (l : list (option A)) : option A :=
  match l with
  | [] => None
  | o :: l' => match last_occupied l' with
               | Some a => Some a
               | None => o
               end
  end.

(** The truth value of what a property returned ([None] is false). *)
Definition py_truth (o : option bool) : bool :=
  match o with Some b => b | None => false end.

Definition layer_lookup : list (string * string) :=
  [("depth", "z"); ("vertical_uncertainty", "tvu");
   ("horizontal_uncertainty", "thu")].
Definition rev_layer_lookup : list (string * string) :=
  [("z", "depth"); ("tvu", "vertical_uncertainty");
   ("thu", "horizontal_uncertainty")].

(** ** The methods of [BathyGrid] and its subclasses *)

Section Methods.
Context `{TileIface} `{!BaseGridOps} `{!Utilities}.
Context {S : Type} `{!SlotOps S}.
Implicit Type g : BathyGrid S.

(** [BathyGrid.__init__].  The attributes [data], [container] and [tiles]
    are created by [BaseGrid.__init__]: a grid is created without staged
    data, with an empty registry and without lattice. *)
Definition BathyGrid_init (mnx mny mxx mxy ts : Q) (set_extents_manually : bool)
  : BathyGrid S :=
  let b := BaseGrid_init mnx mny ts in
  let b := if set_extents_manually then set_extents mnx mny mxx mxy b else b in
  Grid BathyGridC b None ∅ None None None None [] [] 0 None.

(** Run a [BaseGrid] method on the grid. *)
Definition on_base {A} (m : M lattice A) : M (BathyGrid S) A :=
  fun g => let '(b, r) := m (base g) in (set_base b g, r).

(** Modelled from the spec: [BaseGrid.is_empty], which is not in the
    sources; the grid is empty when its lattice has no occupant. *)
Definition is_empty g : bool :=
  match tiles g with
  | None => true
  | Some l => forallb (fun s => match s with None => true | Some _ => false end) l
  end.

(** The [no_grid] property: decided by the first occupied slot; [None]
    when the lattice has no occupied slot. *)
Definition no_grid g : outcome (option bool) :=
  match tiles g with
  | None => Ok (Some true)
  | Some l =>
      match first_occupied l with
      | Some t =>
          match slot_has_cells t with
          | Ok c => Ok (Some (negb c))
          | Raise e => Raise e
          end
      | None => Ok None
      end
  end.

Definition _update_mean_depth : M (BathyGrid S) unit := fun g =>
  match data g with
  | None => (set_mean_depth None g, Ok tt)
  | Some d =>
      match get_field d "z" with
      | Raise e => (g, Raise e)
      | Ok z =>
          if negb (np_any z) then (set_mean_depth None g, Ok tt)
          else (set_mean_depth (Some (np_mean z)) g, Ok tt)
      end
  end.

Definition _build_layer_grid g (resolution : Q) : outcome raster :=
  match py_div (height (base g)) resolution with
  | Raise e => Raise e
  | Ok y_size =>
  match py_div (width (base g)) resolution with
  | Raise e => Raise e
  | Ok x_size =>
      if negb (is_integer y_size) then Raise ShapeFault
      else if negb (is_integer x_size) then Raise ShapeFault
      else np_full_nan (Qfloor y_size) (Qfloor x_size)
  end end.

(** [[rev_layer_lookup[var] for var in names if var in ['z', 'tvu']]] *)
Definition layer_names_of (names : list string) : list string :=
  omap (fun var => if String.eqb var "z" || String.eqb var "tvu"
                   then assoc rev_layer_lookup var else None) names.

(** [SRGrid._convert_dataset] on [vars], everything the dataset holds
    (data variables and coordinates): its allowed variables, as the
    columns of a structured array as long as [x]. *)
Definition _convert_dataset (vars : list (string * list Q)) : outcome input :=
  match assoc vars "x" with
  | None => Raise KeyError
  | Some xs =>
      let n := length xs in
      let allowed_vars := ["x"; "y"; "z"; "tvu"; "thu"] in
      let dtyp := filter (fun v => has_field vars v = true) allowed_vars in
      let column (v : string) : outcome (string * list Q) :=
        match assoc vars v with
        | None => Raise KeyError
        | Some c => if Nat.eqb (length c) n then Ok (v, c)
                    else match c with
                         | [a] => Ok (v, replicate n a)
                         | _ => Raise ShapeFault
                         end
        end in
      let fix fill (vs : list string) : outcome (list (string * list Q)) :=
        match vs with
        | [] => Ok []
        | v :: vs' =>
            match column v with
            | Raise e => Raise e
            | Ok c => match fill vs' with
                      | Raise e => Raise e
                      | Ok cs => Ok (c :: cs)
                      end
            end
        end in
      match fill dtyp with
      | Raise e => Raise e
      | Ok cols => Ok (NumpyArray (Structured cols))
      end
  end.

(** [_validate_input_data]: a no-op in [BathyGrid], overridden in [SRGrid]. *)
Definition _validate_input_data : M (BathyGrid S) unit := fun g =>
  match cls g with
  | BathyGridC => (g, Ok tt)
  | SRGridC | VRGridTileC =>
      match data g with
      | Some (NumpyArray a) | Some (DaskArray a) =>
          match a with
          | Unstructured _ | Structured [] => (g, Raise InvalidInputFault)
          | Structured fs =>
              if negb (has_field fs "x") || negb (has_field fs "y")
              then (g, Raise InvalidInputFault)
              else (set_layernames (layer_names_of (map fst fs)) g, Ok tt)
          end
      | Some (XrDataset data_vars coords dims) =>
          let vars := ds_variables data_vars coords in
          if negb (has_field vars "x") then (g, Raise InvalidInputFault)
          else if Nat.ltb 1 (length dims) then (g, Raise InvalidInputFault)
          else
            let g := set_layernames (layer_names_of (map fst data_vars)) g in
            match _convert_dataset vars with
            | Raise e => (g, Raise e)
            | Ok d => (set_data (Some d) g, Ok tt)
            end
      | Some PyObject | None => (g, Raise InvalidInputFault)
      end
  end.

(** [_update_metadata]: a no-op in [BathyGrid], overridden in [SRGrid]. *)
Definition _update_metadata (container_name : string)
           (file_list : option (list string)) (epsg_arg : option Z)
           (vertical_reference_arg : option string) : M (BathyGrid S) unit := fun g =>
  match cls g with
  | BathyGridC => (g, Ok tt)
  | SRGridC | VRGridTileC =>
      let g :=
        match file_list with
        | Some (f :: fl) =>
            set_container (<[container_name := f :: fl]> (container g)) g
        | _ => set_container (<[container_name := ["Unknown"]]> (container g)) g
        end in
      let check_epsg : outcome unit :=
        if truthy_int (epsg g) then
          match py_int epsg_arg with
          | Raise e => Raise e
          | Ok e => if negb (bool_decide (epsg g = Some e))
                    then Raise MetadataConflictFault else Ok tt
          end
        else Ok tt in
      match check_epsg with
      | Raise e => (g, Raise e)
      | Ok _ =>
          if truthy_str (vertical_reference g)
             && negb (bool_decide (vertical_reference g = vertical_reference_arg))
          then (g, Raise MetadataConflictFault)
          else
            match py_int epsg_arg with
            | Raise e => (g, Raise e)
            | Ok e =>
                (set_vertical_reference vertical_reference_arg
                   (set_epsg (Some e) g), Ok tt)
            end
      end
  end.

(** The four arguments [data['y'].min(), data['x'].min(), data['y'].max(),
    data['x'].max()], evaluated in this order. *)
Definition data_bounds (d : input) : outcome (Q * Q * Q * Q) :=
  match get_field d "y" with Raise e => Raise e | Ok ys =>
  match Qminimum ys with Raise e => Raise e | Ok ymin =>
  match get_field d "x" with Raise e => Raise e | Ok xs =>
  match Qminimum xs with Raise e => Raise e | Ok xmin =>
  match Qmaximum ys with Raise e => Raise e | Ok ymax =>
  match Qmaximum xs with Raise e => Raise e | Ok xmax =>
    Ok (ymin, xmin, ymax, xmax)
  end end end end end end.

Definition _update_base_grid : M (BathyGrid S) unit := fun g =>
  match data g with
  | None => (g, Ok tt)
  | Some d =>
      if is_empty g then
        if can_grow (base g) then
          match data_bounds d with
          | Raise e => (g, Raise e)
          | Ok (ymin, xmin, ymax, xmax) =>
              on_base (_init_from_extents ymin xmin ymax xmax) g
          end
        else
          on_base (_init_from_extents (min_y (base g)) (min_x (base g))
                                      (max_y (base g)) (max_x (base g))) g
      else if can_grow (base g) then
        match data_bounds d with
        | Raise e => (g, Raise e)
        | Ok (ymin, xmin, ymax, xmax) =>
            on_base (_update_extents ymin xmin ymax xmax) g
        end
      else (g, Ok tt)
  end.

(** One round of the loop of [_add_points_to_tiles], on the flattened
    lattice [flat_tiles]. *)
Definition place_points g (d : input) (binnum : list Z)
           (container_name : string) (ul : Z)
  : M (list (option S)) unit := fun flat_tiles =>
  let point_mask := map (Z.eqb ul) binnum in
  match select_rows d point_mask with
  | Raise e => (flat_tiles, Raise e)
  | Ok pts =>
  match np_index (length flat_tiles) ul with
  | Raise e => (flat_tiles, Raise e)
  | Ok i =>
  let built : outcome S :=
    match flat_tiles !! i with
    | Some (Some t) => Ok t
    | _ =>
        match np_getitem (tile_x_origin (base g)) ul with
        | Raise e => Raise e
        | Ok xo =>
        match np_getitem (tile_y_origin (base g)) ul with
        | Raise e => Raise e
        | Ok yo =>
            Ok (slot_build (cls g) xo yo (tile_size (base g)) (subtile_size g))
        end end
    end in
  match built with
  | Raise e => (flat_tiles, Raise e)
  | Ok t =>
      match slot_add_points pts container_name t with
      | (t', Raise e) => (<[i := Some t']> flat_tiles, Raise e)
      | (t', Ok _) =>
          if slot_is_empty t' then (<[i := None]> flat_tiles, Ok tt)
          else (<[i := Some t']> flat_tiles, Ok tt)
      end
  end end end.

Definition _add_points_to_tiles (container_name : string) : M (BathyGrid S) unit :=
  fun g =>
  match data g with
  | None => (g, Ok tt)
  | Some d =>
  match get_field d "x" with Raise e => (g, Raise e) | Ok xs =>
  match get_field d "y" with Raise e => (g, Raise e) | Ok ys =>
  match bin2d_with_indices xs ys (tile_edges_x (base g)) (tile_edges_y (base g)) with
  | Raise e => (g, Raise e)
  | Ok binnum =>
      let unique_locs := np_unique binnum in
      match tiles g with
      | None => (g, Raise AttributeError)
      | Some flat_tiles =>
          let '(flat_tiles', r) :=
            for_each unique_locs (place_points g d binnum container_name)
                     flat_tiles in
          (set_tiles (Some flat_tiles') g, r)
      end
  end end end end.

Definition _update_tiles (container_name : string) : M (BathyGrid S) unit := fun g =>
  match data g with
  | None => (g, Ok tt)
  | Some _ =>
      let n := length (tile_x_origin (base g)) in
      if is_empty g then
        _add_points_to_tiles container_name
          (set_tiles (Some (replicate n None)) g)
      else if can_grow (base g) then
        match np_mask_assign (replicate n None) (existing_tile_mask (base g))
                             (default [] (tiles g)) with
        | Raise e => (g, Raise e)
        | Ok new_tiles =>
            _add_points_to_tiles container_name (set_tiles (Some new_tiles) g)
        end
      else _add_points_to_tiles container_name g
  end.

(** [data.compute()] for a dask array or an xarray dataset *)
Definition compute (d : option input) : option input :=
  match d with
  | Some (DaskArray a) => Some (NumpyArray a)
  | _ => d
  end.

Definition add_points (d : option input) (container_name : string)
           (file_list : option (list string)) (crs : option Z)
           (vertical_reference_arg : option string) : M (BathyGrid S) unit :=
  bind (modify (set_data (compute d))) (fun _ =>
  bind _validate_input_data (fun _ =>
  bind (_update_metadata container_name file_list crs vertical_reference_arg) (fun _ =>
  bind _update_base_grid (fun _ =>
  bind (_update_tiles container_name) (fun _ =>
  bind _update_mean_depth (fun _ =>
  modify (set_data None))))))).

(** The loop of [remove_points] over [flat_tiles].  A slot compares
    equal only to itself, so [flat_tiles[flat_tiles == tile] = None]
    clears the slot just visited. *)
Fixpoint remove_loop (container_name : string) (flat_tiles : list (option S))
  : list (option S) * outcome unit :=
  match flat_tiles with
  | [] => ([], Ok tt)
  | None :: rest =>
      let '(rest', r) := remove_loop container_name rest in (None :: rest', r)
  | Some t :: rest =>
      match slot_remove_points container_name t with
      | (t', Raise e) => (Some t' :: rest, Raise e)
      | (t', Ok _) =>
          let '(rest', r) := remove_loop container_name rest in
          ((if slot_is_empty t' then None else Some t') :: rest', r)
      end
  end.

Definition remove_points (container_name : string) : M (BathyGrid S) unit := fun g =>
  match container g !! container_name with
  | None => (g, Ok tt)
  | Some _ =>
      let g := set_container (delete container_name (container g)) g in
      let '(g, r) :=
        if negb (is_empty g) then
          let '(flat_tiles, r) :=
            remove_loop container_name (default [] (tiles g)) in
          (set_tiles (Some flat_tiles) g, r)
        else (g, Ok tt) in
      match r with
      | Raise e => (g, Raise e)
      | Ok _ => if is_empty g then (set_tiles None g, Ok tt) else (g, Ok tt)
      end
  end.

(** The resolution a layer request denotes: the one named, or the only
    one present.  [not resolution] holds for [None] and for zero. *)
Definition pick_resolution g (resolution : option Q) : outcome Q :=
  match resolution with
  | Some r =>
      if negb (Qeqb r 0) then Ok r
      else if Nat.ltb 1 (length (resolutions g)) then Raise AmbiguousResolutionFault
      else match resolutions g with r0 :: _ => Ok r0 | [] => Raise IndexError end
  | None =>
      if Nat.ltb 1 (length (resolutions g)) then Raise AmbiguousResolutionFault
      else match resolutions g with r0 :: _ => Ok r0 | [] => Raise IndexError end
  end.

(** The loop of [get_layer_by_name]: [cnt] is the index of the head of
    [slots] in the flattened lattice. *)
Fixpoint layer_loop g (layer : string) (resolution : Q) (cnt : nat)
         (slots : list (option S)) (data_ : raster) : outcome raster :=
  match slots with
  | [] => Ok data_
  | None :: rest => layer_loop g layer resolution (Datatypes.S cnt) rest data_
  | Some t :: rest =>
      match _tile_idx_to_row_col (base g) cnt with
      | Raise e => Raise e
      | Ok (col, row) =>
      match py_div (tile_size (base g)) resolution with
      | Raise e => Raise e
      | Ok tile_cell_count =>
          if negb (is_integer tile_cell_count) then Raise ShapeFault else
          let tile_cell_count := Qfloor tile_cell_count in
          let data_col := (col * tile_cell_count)%Z in
          let data_row := (row * tile_cell_count)%Z in
          match slot_get_layer_by_name layer resolution t with
          | Raise e => Raise e
          | Ok block =>
              match np_assign_block data_ data_col data_row tile_cell_count block with
              | Raise e => Raise e
              | Ok data' =>
                  layer_loop g layer resolution (Datatypes.S cnt) rest data'
              end
          end
      end end
  end.

Definition get_layer_by_name (layer : string) (resolution : option Q) g
  : outcome raster :=
  match no_grid g with
  | Raise e => Raise e
  | Ok ng =>
      if py_truth ng then Raise EmptyGridFault else
      match pick_resolution g resolution with
      | Raise e => Raise e
      | Ok resolution =>
          match _build_layer_grid g resolution with
          | Raise e => Raise e
          | Ok data_ =>
              match tiles g with
              | None => Raise AttributeError
              | Some slots => layer_loop g layer resolution 0 slots data_
              end
          end
      end
  end.

Definition get_layer_trimmed (layer : string) (resolution : option Q) g
  : outcome (raster * (Z * Z) * (Z * Z)) :=
  match get_layer_by_name layer resolution g with
  | Raise e => Raise e
  | Ok data_ =>
      let rows := np_any_notnan_rows data_ in
      let cols := np_any_notnan_cols data_ in
      match first_last (np_where rows) with
      | Raise e => Raise e
      | Ok (rmin, rmax) =>
      match first_last (np_where cols) with
      | Raise e => Raise e
      | Ok (cmin, cmax) =>
          let rmax := (rmax + 1)%Z in
          let cmax := (cmax + 1)%Z in
          Ok (np_crop data_ rmin rmax cmin cmax, (rmin, cmin), (rmax, cmax))
      end end
  end.

(** [return_surf_xyz]: the call of [get_layer_trimmed] passes the layer
    only, so the resolution it sees is the default [None]. *)
Definition return_surf_xyz (layer : string) (resolution : option Q)
           (cell_boundaries : bool) g
  : outcome (list Q * list Q * raster * list (list bool) * (Z * Z) * (Z * Z)) :=
  match no_grid g with
  | Raise e => Raise e
  | Ok ng =>
      if py_truth ng then Raise EmptyGridFault else
      match pick_resolution g resolution with
      | Raise e => Raise e
      | Ok resolution =>
      match get_layer_trimmed layer None g with
      | Raise e => Raise e
      | Ok (surf, new_mins, new_maxs) =>
          let valid_nodes := np_notnan surf in
          match np_arange (min_x (base g)) (max_x (base g)) resolution with
          | Raise e => Raise e
          | Ok xs =>
          match np_arange (min_y (base g)) (max_y (base g)) resolution with
          | Raise e => Raise e
          | Ok ys =>
              if negb cell_boundaries then
                let x := py_slice (map (fun v => v + resolution / 2) xs)
                                  (fst new_mins) (fst new_maxs) in
                let y := py_slice (map (fun v => v + resolution / 2) ys)
                                  (snd new_mins) (snd new_maxs) in
                Ok (x, y, surf, valid_nodes, new_mins, new_maxs)
              else
                let x := py_slice xs (fst new_mins) (fst new_maxs + 1) in
                let y := py_slice ys (snd new_mins) (snd new_maxs + 1) in
                Ok (x, y, surf, valid_nodes, new_mins, new_maxs)
          end end
      end end
  end.

Definition return_layer_names g : outcome (list string) :=
  match no_grid g with
  | Raise e => Raise e
  | Ok ng =>
      if py_truth ng then Ok [] else
      match first_occupied (default [] (tiles g)) with
      | Some t => slot_list_cells_keys t
      | None => Ok []
      end
  end.

Definition return_extents g : list (list Q) :=
  [[min_x (base g); min_y (base g)]; [max_x (base g); max_y (base g)]].

(** One invocation [tile.grid(algorithm, resolution, clear_existing)]:
    the index of the slot in the flattened lattice and the arguments. *)
Record grid_call : Type := GridCall {
  call_index : nat;
  call_algorithm : string;
  call_resolution : Q;
  call_clear_existing : bool
}.

(** The loop of [_grid_regular].  [resolution] is the loop's variable of
    that name, [found] is [self.resolutions]; the last component of the
    result records the invocations made, in order. *)
Fixpoint regular_loop (algorithm : string) (clear_existing : bool)
         (cnt : nat) (slots : list (option S)) (resolution : Q)
         (found : list Q)
  : list (option S) * list Q * list grid_call * outcome unit :=
  match slots with
  | [] => ([], found, [], Ok tt)
  | None :: rest =>
      let '(rest', found', calls, r) :=
        regular_loop algorithm clear_existing (Datatypes.S cnt) rest
                     resolution found in
      (None :: rest', found', calls, r)
  | Some t :: rest =>
      let call := GridCall cnt algorithm resolution clear_existing in
      match slot_grid algorithm resolution clear_existing t with
      | (t', Raise e) => (Some t' :: rest, found, [call], Raise e)
      | (t', Ok resolution) =>
          let found := if Qmem resolution found then found
                       else found ++ [resolution] in
          let '(rest', found', calls, r) :=
            regular_loop algorithm clear_existing (Datatypes.S cnt) rest
                         resolution found in
          (Some t' :: rest', found', call :: calls, r)
      end
  end.

(** [_grid_regular]; the value returned is the record of the
    invocations made (the method itself returns nothing). *)
Definition _grid_regular (algorithm : string) (resolution : Q)
           (clear_existing : bool) : M (BathyGrid S) (list grid_call) := fun g =>
  let g := set_resolutions [] g in
  match tiles g with
  | None => (g, Raise AttributeError)
  | Some slots =>
      let '(slots', found, calls, r) :=
        regular_loop algorithm clear_existing 0 slots resolution [] in
      let g := set_tiles (Some slots') g in
      match r with
      | Raise e => (set_resolutions found g, Raise e)
      | Ok _ => (set_resolutions (np_sort_unique found) g, Ok calls)
      end
  end.

(** The blob handed to a worker: [[tile, algorithm, resolution,
    clear_existing]]. *)
Definition job : Type := S * string * Q * bool.

(** [_gridding_parallel] *)
Definition _gridding_parallel (data_blob : job) : outcome (Q * S) :=
  let '(t, algorithm, resolution, clear_existing) := data_blob in
  match slot_grid algorithm resolution clear_existing t with
  | (t', Ok resolution) => Ok (resolution, t')
  | (_, Raise e) => Raise e
  end.

(** The calls [_grid_parallel] makes, in order.  A batch of futures is
    identified with the blobs it was mapped over. *)
Inductive dask_call : Type :=
| PrintGroup (cur_run total_runs : nat)
| Scatter (batch : list job)
| MapGridding (batch : list job)
| Progress (futs : list (list job))
| Wait (futs : list (list job))
| Gather (futs : list (list job)).

(** The local variables of [_grid_parallel]'s loop, and the calls made. *)
Record dispatch : Type := Dispatch {
  data_for_workers : list job;
  futs : list (list job);
  chunk_index : nat;
  cur_run : nat;
  calls : list dask_call
}.

Definition submit (total_runs : nat) (st : dispatch) : dispatch :=
  let futs' := futs st ++ [data_for_workers st] in
  Dispatch [] futs' 0 (cur_run st + 1)
           (calls st ++ [PrintGroup (cur_run st) total_runs;
                         Scatter (data_for_workers st);
                         MapGridding (data_for_workers st);
                         Progress futs']).

Definition dispatch_step (chunks_at_a_time total_runs : nat)
           (algorithm : string) (resolution : Q) (clear_existing : bool)
           (st : dispatch) (slot : option S) : dispatch :=
  match slot with
  | None => st
  | Some t =>
      let st := Dispatch (data_for_workers st ++ [(t, algorithm, resolution, clear_existing)])
                         (futs st) (chunk_index st + 1) (cur_run st) (calls st) in
      if Nat.eqb (chunk_index st) chunks_at_a_time
      then submit total_runs st
      else st
  end.

(** [_grid_parallel] up to [wait(futs)]. *)
Definition dispatch_all (chunks_at_a_time : nat) (algorithm : string)
           (resolution : Q) (clear_existing : bool) (slots : list (option S))
  : dispatch :=
  let total_runs := Nat.div (length slots + 7) 8 in
  let st := fold_left (dispatch_step chunks_at_a_time total_runs algorithm
                                     resolution clear_existing)
                      slots (Dispatch [] [] 0 1 []) in
  let st := match data_for_workers st with
            | [] => st
            | _ :: _ =>
                let futs' := futs st ++ [data_for_workers st] in
                Dispatch (data_for_workers st) futs' (chunk_index st) (cur_run st)
                         (calls st ++ [PrintGroup (cur_run st) total_runs;
                                       Scatter (data_for_workers st);
                                       MapGridding (data_for_workers st);
                                       Progress futs'])
            end in
  Dispatch (data_for_workers st) (futs st) (chunk_index st) (cur_run st)
           (calls st ++ [Wait (futs st)]).

(** [client.gather]: the results in order, or the first worker fault. *)
Fixpoint gather (jobs : list job) : outcome (list (Q * S)) :=
  match jobs with
  | [] => Ok []
  | j :: jobs' =>
      match _gridding_parallel j with
      | Raise e => Raise e
      | Ok r => match gather jobs' with
                | Raise e => Raise e
                | Ok rs => Ok (r :: rs)
                end
      end
  end.

(** [_grid_parallel]; the value returned is the record of the calls
    made (the method itself returns nothing). *)
Definition _grid_parallel (algorithm : string) (resolution : Q)
           (clear_existing : bool) : M (BathyGrid S) (list dask_call) := fun g =>
  let g := match client g with
           | Some _ => g
           | None => set_client (Some dask_find_or_start_client) g
           end in
  let chunks_at_a_time := match client g with
                          | Some c => n_workers c
                          | None => 0%nat
                          end in
  match tiles g with
  | None => (g, Raise AttributeError)
  | Some slots =>
      let g := set_resolutions [] g in
      let st := dispatch_all chunks_at_a_time algorithm resolution
                             clear_existing slots in
      match gather (concat (futs st)) with
      | Raise e => (g, Raise e)
      | Ok results =>
          let found := map fst results in
          let new_tiles := map (fun r => Some (snd r)) results in
          let mask := map (fun s => match s with Some _ => true | None => false end)
                          slots in
          match np_mask_assign slots mask new_tiles with
          | Raise e => (g, Raise e)
          | Ok slots' =>
              (set_resolutions (np_sort_unique found) (set_tiles (Some slots') g),
               Ok (calls st ++ [Gather (futs st)]))
          end
      end
  end.

Definition grid (algorithm : string) (resolution : option Q)
           (clear_existing use_dask : bool) : M (BathyGrid S) Q := fun g =>
  if is_empty g then (g, Raise EmptyGridFault) else
  match (match resolution with
         | None => _calculate_resolution (mean_depth g)
         | Some r => Ok r
         end) with
  | Raise e => (g, Raise e)
  | Ok resolution =>
      if use_dask then
        match _grid_parallel algorithm resolution clear_existing g with
        | (g', Raise e) => (g', Raise e)
        | (g', Ok _) => (g', Ok resolution)
        end
      else
        match _grid_regular algorithm resolution clear_existing g with
        | (g', Raise e) => (g', Raise e)
        | (g', Ok _) => (g', Ok resolution)
        end
  end.

End Methods.

(** ** Slots: leaf tiles and nested grids *)

Section Slots.
Context `{TileIface} `{!BaseGridOps} `{!Utilities}.

Definition has_entries {A} (l : list A) : bool :=
  match l with [] => false | _ :: _ => true end.

(** An [SRTile] in a slot.  [tile.cells] is a dict, so [tile.cells.keys]
    is a bound method and [list] of it raises [TypeError]. *)
Global Instance tile_slot : SlotOps tile := {
  slot_build _ xo yo ts _ := SRTile xo yo ts;
  slot_add_points := tile_add_points;
  slot_remove_points := tile_remove_points;
  slot_is_empty := tile_is_empty;
  slot_grid := tile_grid;
  slot_get_layer_by_name := tile_get_layer_by_name;
  slot_has_cells t := Ok (has_entries (tile_cells t));
  slot_list_cells_keys _ := Raise TypeError
}.

(** The occupant of a slot of a top-level grid: an [SRTile], or for a
    [VRGridTile] a [BathyGrid] of [SRTile]s. *)
Inductive slot : Type :=
| Leaf (t : tile)
| Nested (g : BathyGrid tile).

(** [no_grid] on a nested grid replaces [tile] by each occupied subtile
    in turn and reads [cells] of what it is left with; a [BathyGrid] has
    no attribute [cells]. *)
Definition nested_has_cells (g : BathyGrid tile) : outcome bool :=
  match tiles g with
  | None => Raise AttributeError
  | Some subtiles =>
      match last_occupied subtiles with
      | Some subtile => Ok (has_entries (tile_cells subtile))
      | None => Raise AttributeError
      end
  end.

Global Instance slot_ops : SlotOps slot := {
  slot_build c xo yo ts sts :=
    match c with
    | VRGridTileC =>
        Nested (BathyGrid_init xo yo (xo + ts) (yo + ts) sts true)
    | BathyGridC | SRGridC => Leaf (SRTile xo yo ts)
    end;
  slot_add_points pts name s :=
    match s with
    | Leaf t => let '(t', r) := tile_add_points pts name t in (Leaf t', r)
    | Nested g =>
        let '(g', r) := add_points (Some pts) name None None None g in
        (Nested g', r)
    end;
  slot_remove_points name s :=
    match s with
    | Leaf t => let '(t', r) := tile_remove_points name t in (Leaf t', r)
    | Nested g => let '(g', r) := remove_points name g in (Nested g', r)
    end;
  slot_is_empty s :=
    match s with
    | Leaf t => tile_is_empty t
    | Nested g => is_empty g
    end;
  slot_grid algorithm resolution clear_existing s :=
    match s with
    | Leaf t =>
        let '(t', r) := tile_grid algorithm resolution clear_existing t in
        (Leaf t', r)
    | Nested g =>
        let '(g', r) :=
          grid algorithm (Some resolution) clear_existing false g in
        (Nested g', r)
    end;
  slot_get_layer_by_name layer resolution s :=
    match s with
    | Leaf t => tile_get_layer_by_name layer resolution t
    | Nested g => get_layer_by_name layer (Some resolution) g
    end;
  slot_has_cells s :=
    match s with
    | Leaf t => Ok (has_entries (tile_cells t))
    | Nested g => nested_has_cells g
    end;
  slot_list_cells_keys s :=
    match s with
    | Leaf _ => Raise TypeError
    | Nested _ => Raise AttributeError
    end
}.

(** [SRGrid.__init__] *)
Definition SRGrid_init (mnx mny ts : Q) : BathyGrid slot :=
  let g : BathyGrid slot := BathyGrid_init mnx mny 0 0 ts false in
  Grid SRGridC (set_can_grow true (base g)) (data g) (container g) (tiles g)
       (mean_depth g) (epsg g) (vertical_reference g) (resolutions g)
       (layernames g) (subtile_size g) (client g).

(** [VRGridTile.__init__] *)
Definition VRGridTile_init (mnx mny ts sts : Q) : BathyGrid slot :=
  let g := SRGrid_init mnx mny ts in
  Grid VRGridTileC (set_can_grow true (base g)) (data g) (container g)
       (tiles g) (mean_depth g) (epsg g) (vertical_reference g)
       (resolutions g) (layernames g) sts (client g).
End Slots.

(** ** A reference implementation of the collaborators

    Used to run the methods above on concrete data. *)

Module Reference.

(** *** numpy arrays: rows of cells, [None] for NaN *)

Definition ref_raster : Type := list (list (option Q)).

Definition is_some {A} (o : option A) : bool :=
  match o with Some _ => true | None => false end.

Definition ref_full_nan (r c : Z) : outcome ref_raster :=
  if (r <? 0)%Z || (c <? 0)%Z then Raise ShapeFault
  else Ok (replicate (Z.to_nat r) (replicate (Z.to_nat c) None)).

Definition splice {A} (row : list A) (c : nat) (new : list A) : list A :=
  take c row ++ new ++ drop (c + length new) row.

Definition ref_assign_block (d : ref_raster) (r c n : Z) (block : ref_raster)
  : outcome ref_raster :=
  if (r <? 0)%Z || (c <? 0)%Z || (n <? 0)%Z then Raise IndexError else
  let r := Z.to_nat r in
  let c := Z.to_nat c in
  let n := Z.to_nat n in
  let h := Nat.min n (length d - r) in
  let w := Nat.min n (length (List.hd [] d) - c) in
  if Nat.eqb (length block) h
     && forallb (fun row => Nat.eqb (length row) w) block
  then Ok (take r d
           ++ zip_with (fun row new => splice row c new) (take h (drop r d)) block
           ++ drop (r + h) d)
  else Raise ShapeFault.

Definition ref_any_rows (d : ref_raster) : list bool := map (existsb is_some) d.

Definition ref_any_cols (d : ref_raster) : list bool :=
  map (fun j => existsb (fun row => match row !! j with
                                    | Some (Some _) => true
                                    | _ => false
                                    end) d)
      (seq 0 (length (List.hd [] d))).

Definition ref_crop (d : ref_raster) (rmin rmax cmin cmax : Z) : ref_raster :=
  map (fun row => py_slice row cmin cmax) (py_slice d rmin rmax).

Definition ref_arange (start stop step : Q) : outcome (list Q) :=
  if Qeqb step 0 then Raise ZeroDivisionError
  else
    let n := Z.to_nat (Qceiling ((stop - start) / step)) in
    Ok (map (fun i => Qred (start + inject_Z (Z.of_nat i) * step)) (seq 0 n)).

(** Modelled from the spec: the mean of the depths as their arithmetic
    mean.  It is numpy's mean wherever the sum and the quotient are
    floats, as for the depths of the examples. *)
Global Instance ref_numpy : Numpy := {
  np_mean := exact_mean;
  raster := ref_raster;
  np_full_nan := ref_full_nan;
  np_assign_block := ref_assign_block;
  np_any_notnan_rows := ref_any_rows;
  np_any_notnan_cols := ref_any_cols;
  np_crop := ref_crop;
  np_notnan := map (map is_some);
  np_arange := ref_arange
}.

(** *** The leaf tile *)

(** Modelled from the spec: [bathygrid.tile.SRTile] is not in the
    sources.  A tile owns the raw points of each container and, once
    gridded, one raster per layer; its rasters hold the mean of the
    points of each cell. *)
Record ref_tile : Type := RefTile {
  rt_x : Q;
  rt_y : Q;
  rt_size : Q;
  rt_points : gmap string input;
  rt_cells : list string;
  rt_resolution : option Q
}.

Definition n_rows (d : input) : nat :=
  match get_field d "x" with Ok xs => length xs | Raise _ => 0%nat end.

(** Modelled from the spec: [SRTile.add_points] replaces the points
    stored for the container; a tile keeps no empty point set. *)
Definition ref_add_points (pts : input) (name : string) : M ref_tile unit :=
  fun t =>
    let points := if Nat.eqb (n_rows pts) 0 then delete name (rt_points t)
                  else <[name := pts]> (rt_points t) in
    (RefTile (rt_x t) (rt_y t) (rt_size t) points (rt_cells t)
             (rt_resolution t), Ok tt).

(** Modelled from the spec: [SRTile.remove_points]. *)
Definition ref_remove_points (name : string) : M ref_tile unit := fun t =>
  (RefTile (rt_x t) (rt_y t) (rt_size t) (delete name (rt_points t))
           (rt_cells t) (rt_resolution t), Ok tt).

(** Modelled from the spec: [SRTile.is_empty], the tile holds no points. *)
Definition ref_is_empty (t : ref_tile) : bool :=
  bool_decide (rt_points t = ∅).

(** The layers a point set carries. *)
Definition layers_of (d : input) : list string :=
  List.filter (fun layer =>
                 match assoc layer_lookup layer with
                 | Some var => is_ok (get_field d var)
                 | None => false
                 end)
              ["depth"; "vertical_uncertainty"; "horizontal_uncertainty"].

(** Modelled from the spec: [SRTile.grid] grids the tile at the
    resolution it is given and reports that resolution. *)
Definition ref_grid (algorithm : string) (resolution : Q) (clear_existing : bool)
  : M ref_tile Q := fun t =>
  let layers :=
    match map_to_list (rt_points t) with
    | (_, d) :: _ => layers_of d
    | [] => []
    end in
  (RefTile (rt_x t) (rt_y t) (rt_size t) (rt_points t) layers (Some resolution),
   Ok resolution).

(** The values of one layer with their coordinates, over all containers. *)
Definition layer_points (t : ref_tile) (var : string) : list (Q * Q * Q) :=
  flat_map (fun '(_, d) =>
              match get_field d "x", get_field d "y", get_field d var with
              | Ok xs, Ok ys, Ok vs => zip (zip xs ys) vs
              | _, _, _ => []
              end)
           (map_to_list (rt_points t)).

Definition cell_mean (pts : list (Q * Q * Q)) (x0 y0 res : Q) (i j : nat)
  : option Q :=
  let inside :=
    List.filter (fun '(x, y, _) =>
                   Z.eqb (Qfloor ((y - y0) / res)) (Z.of_nat i)
                   && Z.eqb (Qfloor ((x - x0) / res)) (Z.of_nat j)) pts in
  match inside with
  | [] => None
  | _ :: _ => Some (Qred (exact_mean (map snd inside)))
  end.

(** Modelled from the spec: [SRTile.get_layer_by_name], the raster of a
    layer at the resolution the tile was gridded at. *)
Definition ref_get_layer_by_name (layer : string) (resolution : Q)
           (t : ref_tile) : outcome ref_raster :=
  match rt_resolution t, assoc layer_lookup layer with
  | Some r, Some var =>
      if Qeqb r resolution && bool_decide (layer ∈ rt_cells t) then
        let n := Z.to_nat (Qfloor (rt_size t / resolution)) in
        let pts := layer_points t var in
        Ok (map (fun i => map (fun j => cell_mean pts (rt_x t) (rt_y t)
                                                   resolution i j)
                              (seq 0 n))
                (seq 0 n))
      else Raise KeyError
  | _, _ => Raise KeyError
  end.

Global Instance ref_tile_iface : TileIface := {
  tile := ref_tile;
  SRTile xo yo ts := RefTile xo yo ts ∅ [] None;
  tile_add_points := ref_add_points;
  tile_remove_points := ref_remove_points;
  tile_is_empty := ref_is_empty;
  tile_grid := ref_grid;
  tile_get_layer_by_name := ref_get_layer_by_name;
  tile_cells := rt_cells
}.

(** *** The lattice geometry *)

Definition snap_down (ts v : Q) : Q := Qred (inject_Z (Qfloor (v / ts)) * ts).
Definition snap_up (ts v : Q) : Q := Qred (inject_Z (Qceiling (v / ts)) * ts).

Definition n_tiles (ts lo hi : Q) : nat := Z.to_nat (Qfloor ((hi - lo) / ts)).

Definition origins (ts lo : Q) (n : nat) : list Q :=
  map (fun i => Qred (lo + inject_Z (Z.of_nat i) * ts)) (seq 0 n).

(** Modelled from the spec: the lattice attributes of
    [bathygrid.grids.BaseGrid], which is not in the sources, for given
    extents; one slot per tile, in rows along y. *)
Definition lay_out (mnx mny mxx mxy : Q) (mask : list bool) (b : lattice)
  : lattice :=
  let ts := tile_size b in
  let nx := n_tiles ts mnx mxx in
  let ny := n_tiles ts mny mxy in
  Lattice mnx mny mxx mxy ts (can_grow b) (Qred (mxy - mny)) (Qred (mxx - mnx))
          (flat_map (fun _ => origins ts mnx nx) (seq 0 ny))
          (flat_map (fun yo => replicate nx yo) (origins ts mny ny))
          (origins ts mnx (nx + 1)) (origins ts mny (ny + 1)) mask.

(** The upper extent: the next tile boundary, one tile beyond the lower
    extent at least. *)
Definition upper (ts lo v : Q) : Q :=
  let u := snap_up ts v in
  if Qgtb u lo then u else Qred (lo + ts).

(** Modelled from the spec: [BaseGrid._init_from_extents]; the extents
    are the given bounds widened to whole tiles. *)
Definition ref_init_from_extents (mny mnx mxy mxx : Q) : M lattice unit :=
  fun b =>
    let ts := tile_size b in
    if Qeqb ts 0 then (b, Raise ZeroDivisionError) else
    let lox := snap_down ts mnx in
    let loy := snap_down ts mny in
    (lay_out lox loy (upper ts lox mxx) (upper ts loy mxy) [] b, Ok tt).

Definition Qmin2 (a b : Q) : Q := if Qgtb a b then b else a.
Definition Qmax2 (a b : Q) : Q := if Qgtb a b then a else b.

(** Modelled from the spec: [BaseGrid._update_extents]; the extents
    grow to enclose the given bounds, and [existing_tile_mask] marks the
    slots of the new lattice that lie within the old extents. *)
Definition ref_update_extents (mny mnx mxy mxx : Q) : M lattice unit :=
  fun b =>
    let ts := tile_size b in
    if Qeqb ts 0 then (b, Raise ZeroDivisionError) else
    let lox := Qmin2 (min_x b) (snap_down ts mnx) in
    let loy := Qmin2 (min_y b) (snap_down ts mny) in
    let hix := Qmax2 (max_x b) (upper ts lox mxx) in
    let hiy := Qmax2 (max_y b) (upper ts loy mxy) in
    let b' := lay_out lox loy hix hiy [] b in
    let inside (lo hi v : Q) : bool := negb (Qgtb lo v) && Qgtb hi v in
    let mask :=
      zip_with (fun xo yo => inside (min_x b) (max_x b) xo
                             && inside (min_y b) (max_y b) yo)
               (tile_x_origin b') (tile_y_origin b') in
    (lay_out lox loy hix hiy mask b, Ok tt).

(** Modelled from the spec: [BaseGrid._tile_idx_to_row_col], the row
    and column of a slot of the flattened lattice. *)
Definition ref_tile_idx_to_row_col (b : lattice) (idx : nat) : outcome (Z * Z) :=
  let nx := n_tiles (tile_size b) (min_x b) (max_x b) in
  if Nat.eqb nx 0 then Raise ZeroDivisionError
  else Ok (Z.of_nat (Nat.div idx nx), Z.of_nat (Nat.modulo idx nx)).

Global Instance ref_base_grid : BaseGridOps := {
  BaseGrid_init mnx mny ts :=
    Lattice mnx mny 0 0 ts false 0 0 [] [] [] [] [];
  _init_from_extents := ref_init_from_extents;
  _update_extents := ref_update_extents;
  _tile_idx_to_row_col := ref_tile_idx_to_row_col
}.

(** The bin of a value among ascending edges: the number of edges at or
    below it, less one; a value on the last edge is in the last bin. *)
Definition digitize (edges : list Q) (v : Q) : Z :=
  let k := length (List.filter (fun e => negb (Qgtb e v)) edges) in
  if Nat.eqb k (length edges) && existsb (Qeqb v) edges
  then Z.of_nat k - 2
  else Z.of_nat k - 1.

(** Modelled from the spec: [bathygrid.utilities.bin2d_with_indices],
    which is not in the sources; the flat index of the lattice cell that
    contains each point. *)
Definition ref_bin2d (xs ys x_edges y_edges : list Q) : outcome (list Z) :=
  if negb (Nat.eqb (length xs) (length ys)) then Raise ShapeFault
  else
    let nx := (Z.of_nat (length x_edges) - 1)%Z in
    Ok (zip_with (fun x y => (digitize y_edges y * nx + digitize x_edges x)%Z)
                 xs ys).

Global Instance ref_utilities : Utilities := {
  bin2d_with_indices := ref_bin2d;
  dask_find_or_start_client := DaskClient 4
}.
End Reference.

(** ** What the claims speak of *)

(** [t] is the smallest threshold of the table strictly greater than [d]. *)
Definition smallest_threshold_above (d : Q) (t : Z) : Prop :=
  t ∈ map fst depth_resolution_lookup
  ∧ d < inject_Z t
  ∧ ∀ t', t' ∈ map fst depth_resolution_lookup → d < inject_Z t' → (t <= t')%Z.

(** [r] is the resolution the table pairs with that threshold. *)
Definition band_resolution (d r : Q) : Prop :=
  ∃ t, smallest_threshold_above d t ∧ (t, r) ∈ depth_resolution_lookup.

(** The registry entry [_update_metadata] writes for a container. *)
Definition registry_entry (file_list : option (list string)) : list string :=
  match file_list with
  | Some (f :: fl) => f :: fl
  | _ => ["Unknown"]
  end.

(** The supplied coordinate system disagrees with the established one. *)
Definition crs_disagrees {S} (g : BathyGrid S) (crs : option Z) : Prop :=
  truthy_int (epsg g) = true ∧ ∃ e, crs = Some e ∧ epsg g ≠ Some e.

(** The supplied vertical reference disagrees with the established one. *)
Definition vertical_reference_disagrees {S} (g : BathyGrid S)
           (vr : option string) : Prop :=
  truthy_str (vertical_reference g) = true ∧ vertical_reference g ≠ vr.

(** The input passes [_validate_input_data] once staged on the grid. *)
Definition input_accepted `{TileIface} {S} (g : BathyGrid S) (d : option input)
  : Prop :=
  snd (_validate_input_data (set_data (compute d) g)) = Ok tt.

(** ** Example data, after [test_data.py] *)

Module Examples.
Import Reference.

(** A structured array with the fields [x], [y] and [z]. *)
Definition xyz (xs ys zs : list Q) : option input :=
  Some (NumpyArray (Structured [("x", xs); ("y", ys); ("z", zs)])).

(** A structured array without depths. *)
Definition xy (xs ys : list Q) : option input :=
  Some (NumpyArray (Structured [("x", xs); ("y", ys)])).

(** Three soundings of [smalldata]: depths from 20 to 30 over
    [0, 900] x [0, 900]. *)
Definition smalldata : option input :=
  xyz [0; 100; 900] [0; 100; 900] [20; 25; 30].

(** One sounding further out, as in [smalldata2]. *)
Definition fardata : option input := xyz [5000] [5000] [22].

(** [SRGrid(tile_size=1024)] after
    [add_points(smalldata, 'test1', ['line1'], 26917, 'waterline')]. *)
Definition surveyed : BathyGrid slot :=
  fst (add_points smalldata "test1" (Some ["line1"]) (Some 26917%Z)
                  (Some "waterline") (SRGrid_init 0 0 1024)).

(** ... and after [grid()]. *)
Definition gridded : BathyGrid slot :=
  fst (grid "mean" None false false surveyed).

(** [VRGridTile(tile_size=1024, subtile_size=128)] after the same
    [add_points]. *)
Definition vr_surveyed : BathyGrid slot :=
  fst (add_points smalldata "test1" (Some ["line1"]) (Some 26917%Z)
                  (Some "waterline") (VRGridTile_init 0 0 1024 128)).

(** The far sounding first, gridded, and then [smalldata]: the lattice
    grows and the new tile lies before the gridded one. *)
Definition grown_after_gridding : BathyGrid slot :=
  let far := fst (add_points fardata "far" None (Some 26917%Z) None
                             (SRGrid_init 0 0 1024)) in
  let far := fst (grid "mean" None false false far) in
  fst (add_points smalldata "test1" None (Some 26917%Z) None far).

(** [gridded] with two resolutions on record, as after gridding slots
    that reported 1.0 and 2.0. *)
Definition two_resolutions : BathyGrid slot := set_resolutions [1; 2] gridded.

(** A tile for the examples on the order of gridding: it grids at the
    resolution held in [native_resolution] and reports it, and keeps the
    resolution it was handed in [handed]. *)
Record native_tile : Type := NativeTile {
  native_resolution : Q;
  handed : option Q
}.

Global Instance native_slot : SlotOps native_tile := {
  slot_build _ _ _ ts _ := NativeTile ts None;
  slot_add_points _ _ t := (t, Ok tt);
  slot_remove_points _ t := (t, Ok tt);
  slot_is_empty _ := false;
  slot_grid _ resolution _ t :=
    (NativeTile (native_resolution t) (Some resolution),
     Ok (native_resolution t));
  slot_get_layer_by_name _ _ _ := Raise KeyError;
  slot_has_cells t := Ok (Reference.is_some (handed t));
  slot_list_cells_keys _ := Raise TypeError
}.

(** A lattice of two such tiles, of native resolutions 2.0 and 4.0. *)
Definition two_native_tiles : BathyGrid native_tile :=
  set_tiles (Some [Some (NativeTile 2 None); None; Some (NativeTile 4 None)])
            (BathyGrid_init 0 0 0 0 1024 false).


End Examples.

(** Two grids that agree on staged data, registry and class. *)
Definition same_staging {S} (g g' : BathyGrid S) : Prop :=
  data g' = data g ∧ container g' = container g ∧ cls g' = cls g.

(** A slot of a [VRGridTile]: empty, or a nested plain [BathyGrid] whose
    own registry holds no container. *)
Definition unregistered_nested `{TileIface} (s : option slot) : Prop :=
  match s with
  | None => True
  | Some (Leaf _) => False
  | Some (Nested g0) => container g0 = ∅ ∧ cls g0 = BathyGridC
  end.

(** What the loop of [remove_points] makes of a slot whose removal
    succeeds. *)
Definition after_removal `{Numpy} {S} `{!SlotOps S} (name : string)
           (s : option S) : option S :=
  match s with
  | None => None
  | Some t =>
      let t' := fst (slot_remove_points name t) in
      if slot_is_empty t' then None else Some t'
  end.

(** Every occupied slot of the lattice is a nested grid without registry. *)
Definition nested_lattice `{TileIface} (g : BathyGrid slot) : Prop :=
  match tiles g with
  | None => True
  | Some l => Forall unregistered_nested l
  end.

(** The lattice has been released ([tiles] is [None]). *)
Definition lattice_released {S} (g : BathyGrid S) : bool :=
  match tiles g with None => true | Some _ => false end.

(** The number of occupied slots. *)
Definition n_occupied {S} (g : BathyGrid S) : nat :=
  length (omap (fun s => s) (default [] (tiles g))).

(** Some occupied slot holds a grid: a leaf tile with cells, or a nested
    grid one of whose subtiles has cells. *)
Definition has_gridded_slot `{TileIface} (g : BathyGrid slot) : bool :=
  existsb (fun s => match s with
                    | Some (Leaf t) => has_entries (tile_cells t)
                    | Some (Nested n) =>
                        existsb (fun st => match st with
                                           | Some t => has_entries (tile_cells t)
                                           | None => false
                                           end)
                                (default [] (tiles n))
                    | None => false
                    end)
          (default [] (tiles g)).

(** The first occupied slot of the flattened lattice. *)
Definition first_slot {S} (g : BathyGrid S) : option S :=
  first_occupied (default [] (tiles g)).

(** The first occupied slot is a leaf tile that holds a grid. *)
Definition first_slot_is_gridded_leaf `{TileIface} (g : BathyGrid slot) : bool :=
  match first_slot g with
  | Some (Leaf t) => has_entries (tile_cells t)
  | _ => false
  end.

(** The tile whose cells decide [no_grid]: the first occupied slot when
    it is a leaf tile, and the last occupied subtile of its nested grid
    when it is one. *)
Definition deciding_tile `{TileIface} (g : BathyGrid slot) : option tile :=
  match first_slot g with
  | Some (Leaf t) => Some t
  | Some (Nested n) => last_occupied (default [] (tiles n))
  | None => None
  end.

(** The deciding tile holds no grid. *)
Definition deciding_tile_is_ungridded `{TileIface} (g : BathyGrid slot) : bool :=
  match deciding_tile g with
  | Some t => negb (has_entries (tile_cells t))
  | None => false
  end.

(** The indices of the occupied slots, counted from [cnt]. *)
Fixpoint occupied_indices {S} (cnt : nat) (slots : list (option S)) : list nat :=
  match slots with
  | [] => []
  | None :: rest => occupied_indices (Datatypes.S cnt) rest
  | Some _ :: rest => cnt :: occupied_indices (Datatypes.S cnt) rest
  end.

(** A slot's grid operation reports the resolution it was handed. *)
Definition reports_what_it_is_handed `{Numpy} {S} `{!SlotOps S}
           (algorithm : string) (clear_existing : bool) (s : option S) : Prop :=
  match s with
  | None => True
  | Some t =>
      ∀ r r', snd (slot_grid algorithm r clear_existing t) = Ok r' → r' = r
  end.

(** The invocations recorded by [regular_loop], and how the loop ended. *)
Definition loop_calls `{Numpy} {S} `{!SlotOps S} (algorithm : string)
           (clear_existing : bool) (cnt : nat) (slots : list (option S))
           (resolution : Q) (found : list Q) : list grid_call :=
  snd (fst (regular_loop algorithm clear_existing cnt slots resolution found)).

Definition loop_outcome `{Numpy} {S} `{!SlotOps S} (algorithm : string)
           (clear_existing : bool) (cnt : nat) (slots : list (option S))
           (resolution : Q) (found : list Q) : outcome unit :=
  snd (regular_loop algorithm clear_existing cnt slots resolution found).

(** The blobs of the occupied slots, in the order of the flattened
    lattice. *)
Definition jobs_of {S} (algorithm : string) (resolution : Q)
           (clear_existing : bool) (slots : list (option S))
  : list (S * string * Q * bool) :=
  omap (fun s => match s with
                 | Some t => Some (t, algorithm, resolution, clear_existing)
                 | None => None
                 end) slots.

(** Consecutive groups of [n] elements, the last one possibly shorter. *)
Fixpoint groups_fuel {A} (fuel n : nat) (l : list A) : list (list A) :=
  match fuel with
  | O => []
  | Datatypes.S fuel' =>
      match l with
      | [] => []
      | _ :: _ => take n l :: groups_fuel fuel' n (drop n l)
      end
  end.
Definition groups_of {A} (n : nat) (l : list A) : list (list A) :=
  groups_fuel (length l) n l.

(** [bs] cuts [l] into consecutive non-empty batches: of [n] elements
    each, but for the last, which may hold fewer; a single batch when [n]
    is 0. *)
Definition batched_by {A} (n : nat) (l : list A) (bs : list (list A)) : Prop :=
  concat bs = l
  ∧ Forall (fun b => b ≠ []) bs
  ∧ (∀ i b, n ≠ 0%nat → bs !! i = Some b →
       (length b <= n)%nat ∧ ((Datatypes.S i < length bs)%nat → length b = n))
  ∧ (n = 0%nat → (length bs <= 1)%nat).

(** The calls made to submit the batches [todo], after the batches [done]. *)
Fixpoint trace_from {S} (total_runs : nat)
         (done todo : list (list (@job S))) : list (@dask_call S) :=
  match todo with
  | [] => []
  | b :: todo' =>
      PrintGroup (Datatypes.S (length done)) total_runs
      :: Scatter b :: MapGridding b :: Progress (done ++ [b])
      :: trace_from total_runs (done ++ [b]) todo'
  end.







(** The figure printed as the number of groups. *)
Definition total_runs_of {S} (slots : list (option S)) : nat :=
  Nat.div (length slots + 7) 8.

(** What holds of the loop's variables after the jobs [seen]. *)
Definition dispatching {S} (n total : nat) (seen : list (@job S))
           (st : @dispatch S) : Prop :=
  concat (futs st) ++ data_for_workers st = seen
  ∧ Forall (fun b => length b = n ∧ n ≠ 0%nat) (futs st)
  ∧ chunk_index st = length (data_for_workers st)
  ∧ (n = 0%nat ∨ (length (data_for_workers st) < n)%nat)
  ∧ cur_run st = Datatypes.S (length (futs st))
  ∧ calls st = trace_from total [] (futs st).

(** ** Further methods and notions *)

Section Plot.
Context `{TileIface} `{!BaseGridOps} `{!Utilities} {S : Type} `{!SlotOps S}.

(** [plot]: what is handed to [plt.imshow], and the layer and resolution
    that make the title (the method itself returns nothing). *)
Definition plot (layer : string) (resolution : option Q) (g : BathyGrid S)
  : outcome (raster * (string * Q)) :=
  match no_grid g with
  | Raise e => Raise e
  | Ok ng =>
      if py_truth ng then Raise EmptyGridFault else
      match pick_resolution g resolution with
      | Raise e => Raise e
      | Ok resolution =>
          match get_layer_by_name layer (Some resolution) g with
          | Raise e => Raise e
          | Ok data_ => Ok (data_, (layer, resolution))
          end
      end
  end.
End Plot.

(** Which slots of the flattened lattice are occupied. *)
Definition occupancy {S} (g : BathyGrid S) : list bool :=
  map (fun s => match s with Some _ => true | None => false end)
      (default [] (tiles g)).

(** The variables [_convert_dataset] keeps. *)
Definition allowed_vars : list string := ["x"; "y"; "z"; "tvu"; "thu"].

(** The resolutions of the lookup table. *)
Definition table_resolutions : list Q := map snd depth_resolution_lookup.

Module MoreExamples.
Import Reference Examples.

(** A plain array, and a structured array without [y]. *)
Definition plain_array : option input := Some (NumpyArray (Unstructured [1; 2; 3])).
Definition no_y_array : option input :=
  Some (NumpyArray (Structured [("x", [0; 100]); ("z", [20; 30])])).

(** An xarray dataset of one dimension with [x] and [z] but no [y], one
    with [x], [y], [z] and a variable outside the allowed ones, and one
    whose depths [z] are a coordinate and not a data variable. *)
Definition no_y_dataset : option input :=
  Some (XrDataset [("x", [0; 100]); ("z", [20; 30])] [] ["sounding"]).
Definition depth_as_coordinate : input :=
  XrDataset [("x", [0; 100]); ("y", [0; 100])] [("z", [20; 30])] ["sounding"].
Definition full_dataset_vars : list (string * list Q) :=
  [("z", [20; 30]); ("beam", [1; 2]); ("y", [0; 100]); ("x", [0; 100])].

(** [surveyed] with the far sounding added as a second container. *)
Definition two_containers : BathyGrid slot :=
  fst (add_points fardata "test2" (Some ["line2"]) (Some 26917%Z)
                  (Some "waterline") surveyed).

(** [two_containers] after [grid(resolution=512.0)]: four cells a tile. *)
Definition coarsely_gridded : BathyGrid slot :=
  fst (grid "mean" (Some 512) false false two_containers).

(** [surveyed] with its one tile taken out of the lattice. *)
Definition hollow : BathyGrid slot := set_tiles (Some [None]) surveyed.

(** The lattice of a [VRGridTile] whose second nested grid holds no
    points, around one that does. *)
Definition unfilled_nested : list (option slot) :=
  default [] (tiles vr_surveyed)
  ++ [Some (Nested (BathyGrid_init 1024 0 2048 1024 128 true))]
  ++ default [] (tiles vr_surveyed).

Definition vr_with_unfilled : BathyGrid slot :=
  set_tiles (Some unfilled_nested) vr_surveyed.

(** [surveyed] with its extents fixed: it may no longer grow. *)
Definition pinned : BathyGrid slot :=
  set_base (set_can_grow false (base surveyed)) surveyed.

(** A [VRGridTile] with two soundings in the first subtile of its first
    tile, gridded, and then a third sounding added in the last subtile
    of that tile: the first subtile holds a grid, the last one does
    not. *)
Definition vr_grown_after_gridding : BathyGrid slot :=
  let vr := fst (add_points (xyz [0; 100] [0; 100] [20; 25]) "test1" None
                            (Some 26917%Z) None (VRGridTile_init 0 0 1024 128)) in
  let vr := fst (grid "mean" (Some 1) false false vr) in
  fst (add_points (xyz [900] [900] [30]) "test2" None (Some 26917%Z) None vr).
End MoreExamples.

(** The names the input gives when it is iterated: the fields of a
    structured array, the data variables of a dataset (its coordinates
    are not among them). *)
Definition input_fields (d : input) : list string :=
  match d with
  | NumpyArray (Structured fs) | DaskArray (Structured fs) => map fst fs
  | XrDataset data_vars _ _ => map fst data_vars
  | _ => []
  end.

(** Two grids with the same coordinate system and vertical reference. *)
Definition same_metadata {S} (g g' : BathyGrid S) : Prop :=
  epsg g' = epsg g ∧ vertical_reference g' = vertical_reference g.

(** The occupants of the slots, in the order of the flattened lattice. *)
Definition occupants {S} (slots : list (option S)) : list S :=
  omap (fun s => s) slots.

(** A slot is occupied. *)
Definition occupied {S} (s : option S) : bool :=
  match s with Some _ => true | None => false end.

(** What gridding at one resolution makes of a slot. *)
Definition gridded_at `{Numpy} {S} `{!SlotOps S} (algorithm : string)
           (resolution : Q) (clear_existing : bool) (s : option S) : option S :=
  match s with
  | Some t => Some (fst (slot_grid algorithm resolution clear_existing t))
  | None => None
  end.

(** The resolutions on record after a loop over slots that all reported
    [r]; [any] tells whether a slot was occupied. *)
Definition recorded (r : Q) (found : list Q) (any : bool) : list Q :=
  if any then (if Qmem r found then found else found ++ [r]) else found.

(** * Theorems *)

Lemma Qgtb_lt a b : Qgtb a b = true <-> b < a.
Proof.
  unfold Qgtb. rewrite negb_true_iff.
  destruct (Qle_bool a b) eqn:E.
  - apply Qle_bool_iff in E. split; [discriminate|].
    intros Hlt. exfalso. apply (Qlt_not_le _ _ Hlt E).
  - split; [|reflexivity]. intros _.
    apply Qnot_le_lt. intros Hle. apply Qle_bool_iff in Hle. congruence.
Qed.

Lemma above_iff (d : Q) (k : Z) : Qgtb (inject_Z k - d) 0 = true <-> d < inject_Z k.
Proof.
  rewrite Qgtb_lt. split; intros Hlt.
  - apply Qlt_minus_iff. exact Hlt.
  - apply Qlt_minus_iff in Hlt. exact Hlt.
Qed.

(** ** The resolution selector *)

(** [np_argmax] finds the first [true], when there is one. *)
Lemma np_argmax_first (l : list bool) :
  existsb (fun x => x) l = true →
  l !! np_argmax l = Some true
  ∧ ∀ j, (j < np_argmax l)%nat → l !! j = Some false.
Proof.
  induction l as [|b l IH]; simpl; [discriminate|].
  destruct b; simpl.
  - intros _. split; [reflexivity|]. intros j Hj. lia.
  - intros Hex. rewrite Hex. destruct (IH Hex) as [Hat Hbefore].
    split; [exact Hat|].
    intros [|j] Hj; [reflexivity|]. simpl. apply Hbefore. lia.
Qed.

(** It answers 0 when there is none. *)
Lemma np_argmax_none (l : list bool) :
  existsb (fun x => x) l = false → np_argmax l = 0%nat.
Proof.
  destruct l as [|b l]; simpl; [reflexivity|].
  destruct b; simpl; [discriminate|]. intros ->. reflexivity.
Qed.

Lemma sorted_lookup_le (l : list Z) (i j : nat) (a b : Z) :
  StronglySorted Z.lt l → (i <= j)%nat → l !! i = Some a → l !! j = Some b →
  (a <= b)%Z.
Proof.
  intros Hs. revert i j.
  induction Hs as [|x l Hs IH Hall]; intros i j Hij Hi Hj; [discriminate|].
  destruct i as [|i], j as [|j]; simpl in *.
  - inversion Hi; inversion Hj; lia.
  - inversion Hi; subst. rewrite Forall_forall in Hall.
    assert (b ∈ l) by (eapply list_elem_of_lookup_2; eauto).
    specialize (Hall b H). lia.
  - lia.
  - apply (IH i j); [lia | exact Hi | exact Hj].
Qed.

(** On ascending keys, the index of the first key above [d] holds the
    smallest key above [d]. *)
Lemma first_above_smallest (keys : list Z) (d : Q) (t0 : Z) :
  StronglySorted Z.lt keys → t0 ∈ keys → d < inject_Z t0 →
  ∃ t, keys !! np_argmax (map (fun k => Qgtb (inject_Z k - d) 0) keys) = Some t
       ∧ d < inject_Z t
       ∧ ∀ t', t' ∈ keys → d < inject_Z t' → (t <= t')%Z.
Proof.
  intros Hs Hin Hd.
  set (flags := map (fun k => Qgtb (inject_Z k - d) 0) keys).
  assert (Hex : existsb (fun x => x) flags = true).
  { apply existsb_exists. exists true. split; [|reflexivity].
    apply in_map_iff. exists t0. split; [apply above_iff; exact Hd|].
    apply list_elem_of_In. exact Hin. }
  destruct (np_argmax_first flags Hex) as [Hat Hbefore].
  set (i := np_argmax flags) in *.
  unfold flags in Hat. rewrite list_lookup_fmap in Hat.
  destruct (keys !! i) as [t|] eqn:Ht; [|discriminate].
  simpl in Hat. assert (Hat' : Qgtb (inject_Z t - d) 0 = true) by congruence.
  clear Hat. rename Hat' into Hat. apply above_iff in Hat.
  exists t. split; [reflexivity|]. split; [exact Hat|].
  intros t' Hin' Hd'.
  apply list_elem_of_lookup in Hin' as [j Hj].
  destruct (Nat.lt_ge_cases j i) as [Hlt|Hge].
  - specialize (Hbefore j Hlt). unfold flags in Hbefore.
    rewrite list_lookup_fmap, Hj in Hbefore. simpl in Hbefore.
    apply above_iff in Hd'. congruence.
  - eapply sorted_lookup_le; eauto.
Qed.

Lemma dict_get_elem {V} (d : list (Z * V)) (k : Z) :
  k ∈ map fst d → ∃ v, dict_get d k = Ok v ∧ (k, v) ∈ d.
Proof.
  induction d as [|[k' v'] d IH]; simpl; intros Hin.
  - inversion Hin.
  - destruct (Z.eqb_spec k' k) as [->|Hne].
    + exists v'. split; [reflexivity|]. left.
    + apply elem_of_cons in Hin as [Heq|Hin]; [congruence|].
      destruct (IH Hin) as (v & Hget & Hel).
      exists v. split; [exact Hget|]. right. exact Hel.
Qed.

Lemma thresholds_ascending :
  StronglySorted Z.lt (map fst depth_resolution_lookup).
Proof. simpl. repeat (constructor; [|repeat constructor; lia]). constructor. Qed.

(** Below the deepest threshold the selector answers the band's
    resolution. *)
Lemma _calculate_resolution_band (d : Q) :
  d < 20480 → ∃ r, _calculate_resolution (Some d) = Ok r ∧ band_resolution d r.
Proof.
  intros Hd.
  destruct (first_above_smallest (map fst depth_resolution_lookup) d 20480%Z)
    as (t & Hat & Hlt & Hmin).
  - exact thresholds_ascending.
  - simpl. repeat (first [left | right]).
  - exact Hd.
  - assert (Hin : t ∈ map fst depth_resolution_lookup)
      by (eapply list_elem_of_lookup_2; exact Hat).
    destruct (dict_get_elem depth_resolution_lookup t Hin) as (r & Hget & Hel).
    exists r. split.
    + unfold _calculate_resolution. cbv zeta. rewrite Hat. exact Hget.
    + exists t. split; [|exact Hel]. split; [exact Hin|]. split; assumption.
Qed.

(** No threshold lies above the deepest one. *)
Lemma no_band_beyond_table (d : Q) : 20480 <= d → ¬ ∃ r, band_resolution d r.
Proof.
  intros Hd (r & t & (Hin & Hlt & _) & _).
  assert (Hmax : (t <= 20480)%Z).
  { simpl in Hin.
    repeat (apply elem_of_cons in Hin as [->|Hin]; [lia|]). inversion Hin. }
  apply (Qlt_not_le _ _ Hlt).
  apply (Qle_trans _ (inject_Z 20480)); [|exact Hd].
  rewrite <- Zle_Qle. exact Hmax.
Qed.

(** At or beyond the deepest threshold every comparison is false, and the
    selector answers the first entry of the table. *)
Lemma _calculate_resolution_beyond (d : Q) :
  20480 <= d → _calculate_resolution (Some d) = Ok (1 # 2).
Proof.
  intros Hd. unfold _calculate_resolution. cbv zeta.
  rewrite np_argmax_none; [reflexivity|].
  apply not_true_is_false. intros Hex.
  apply existsb_exists in Hex as (b & Hin & Hb). subst b.
  apply in_map_iff in Hin as (k & Hk & Hin).
  apply above_iff in Hk.
  assert (Hmax : (k <= 20480)%Z).
  { simpl in Hin. repeat (destruct Hin as [<-|Hin]; [lia|]). destruct Hin. }
  apply (Qlt_not_le _ _ Hk).
  apply (Qle_trans _ (inject_Z 20480)); [|exact Hd].
  rewrite <- Zle_Qle. exact Hmax.
Qed.

(** C1, as amended: for every defined mean depth below the deepest
    threshold (20480), resolution selection returns the resolution paired
    with the smallest table threshold strictly greater than the mean
    depth; when the mean depth is undefined it fails with
    UndefinedDepthFault. *)
Theorem resolution_selection_below_deepest (d : Q) (Hd : d < 20480) :
  (∃ r, _calculate_resolution (Some d) = Ok r ∧ band_resolution d r)
  ∧ _calculate_resolution None = Raise UndefinedDepthFault.
Proof. split; [apply _calculate_resolution_band; exact Hd | reflexivity]. Qed.

Lemma resolution_selection_below_deepest_witness :
  25 < 20480
  ∧ (∃ r, _calculate_resolution (Some 25) = Ok r ∧ band_resolution 25 r)
  ∧ _calculate_resolution None = Raise UndefinedDepthFault.
Proof.
  assert (H : 25 < 20480) by reflexivity.
  split; [exact H | exact (resolution_selection_below_deepest 25 H)].
Defined.

(** C1 as stated fails at a mean depth of 20480: a resolution is
    returned, and no threshold of the table is strictly greater. *)
Lemma resolution_selection_counterexample :
  ¬ (∀ d : Q, ∃ r, _calculate_resolution (Some d) = Ok r ∧ band_resolution d r).
Proof.
  intros Hall. destruct (Hall 20480) as (r & _ & Hband).
  apply (no_band_beyond_table 20480); [apply Qle_refl | exists r; exact Hband].
Qed.

(** C7: at a mean depth of 20480, the deepest threshold, the selector
    returns the finest resolution of the table, 0.5, not the coarsest. *)
Theorem deepest_threshold_selects_finest :
  _calculate_resolution (Some 20480) = Ok (1 # 2)
  ∧ _calculate_resolution (Some 30000) = Ok (1 # 2)
  ∧ _calculate_resolution (Some 20479) = Ok 1024.
Proof. repeat split; reflexivity. Qed.

(** ** Metadata *)

Section Metadata.
Context `{TileIface} `{!BaseGridOps} `{!Utilities} {S : Type} `{!SlotOps S}.
Implicit Type g : BathyGrid S.

(** Validation touches the staged data and the layer names only. *)
Lemma _validate_input_data_frame g :
  cls (fst (_validate_input_data g)) = cls g
  ∧ container (fst (_validate_input_data g)) = container g
  ∧ epsg (fst (_validate_input_data g)) = epsg g
  ∧ vertical_reference (fst (_validate_input_data g)) = vertical_reference g.
Proof.
  unfold _validate_input_data.
  destruct (cls g) eqn:Hc; simpl; auto.
  all: destruct (data g) as [[[fs|v]|[fs|v]|vars coords dims|]|]; simpl; auto.
  all: try (destruct fs as [|f fs]; simpl; auto;
            match goal with
            | |- context [if ?c then _ else _] => destruct c; simpl; auto
            end).
  all: repeat match goal with
         | |- context [if ?c then _ else _] => destruct c; simpl; auto
         | |- context [match _convert_dataset ?v with _ => _ end] =>
             destruct (_convert_dataset v); simpl; auto
         end.
Qed.

(** The registry is written before anything is compared. *)
Lemma _update_metadata_registers g name fl crs vr :
  cls g ≠ BathyGridC →
  container (fst (_update_metadata name fl crs vr g)) !! name
  = Some (registry_entry fl).
Proof.
  intros Hc. unfold _update_metadata.
  destruct (cls g); [congruence| |].
  all: destruct fl as [[|f fl]|]; simpl.
  all: repeat match goal with
         | |- context [if ?c then _ else _] => destruct c; simpl
         | |- context [match py_int ?v with _ => _ end] =>
             destruct (py_int v); simpl
         end.
  all: apply lookup_insert_eq.
Qed.

Lemma _update_metadata_conflict g name fl crs vr :
  cls g ≠ BathyGridC →
  crs_disagrees g crs
  ∨ (vertical_reference_disagrees g vr ∧ (truthy_int (epsg g) = true → is_Some crs)) →
  ∃ g', _update_metadata name fl crs vr g = (g', Raise MetadataConflictFault)
        ∧ epsg g' = epsg g ∧ vertical_reference g' = vertical_reference g.
Proof.
  intros Hc Hconf. unfold _update_metadata.
  destruct (cls g); [congruence| |].
  all: destruct Hconf as [(Ht & e & -> & Hne)|((Ht & Hne) & Hcrs)].
  all: destruct fl as [[|f fl]|]; simpl.
  all: try (rewrite Ht; simpl; rewrite bool_decide_eq_false_2 by exact Hne;
            simpl; eexists; split; [reflexivity|split; reflexivity]).
  all: destruct (truthy_int (epsg g)) eqn:Hti;
    [destruct (Hcrs eq_refl) as [e ->]; simpl;
     destruct (bool_decide (epsg g = Some e)); simpl|simpl].
  all: try (eexists; split; [reflexivity|split; reflexivity]).
  all: rewrite Ht, bool_decide_eq_false_2 by exact Hne; simpl.
  all: eexists; split; [reflexivity|split; reflexivity].
Qed.

(** Without a coordinate system, [int(epsg)] raises. *)
Lemma _update_metadata_no_crs g name fl vr :
  cls g ≠ BathyGridC →
  (truthy_str (vertical_reference g) = true → vertical_reference g = vr) →
  ∃ g', _update_metadata name fl None vr g = (g', Raise TypeError)
        ∧ epsg g' = epsg g ∧ vertical_reference g' = vertical_reference g.
Proof.
  intros Hc Hvr. unfold _update_metadata.
  destruct (cls g); [congruence| |].
  all: destruct fl as [[|f fl]|]; simpl.
  all: destruct (truthy_int (epsg g)); simpl.
  all: try (eexists; split; [reflexivity|split; reflexivity]).
  all: destruct (truthy_str (vertical_reference g)); simpl.
  all: try (rewrite bool_decide_eq_true_2 by (apply Hvr; reflexivity); simpl).
  all: eexists; split; [reflexivity|split; reflexivity].
Qed.

(** [add_points] up to the metadata step. *)
Lemma add_points_metadata_fault g d name fl crs vr g' e :
  input_accepted g d →
  _update_metadata name fl crs vr (fst (_validate_input_data (set_data (compute d) g)))
  = (g', Raise e) →
  add_points d name fl crs vr g = (g', Raise e).
Proof.
  unfold input_accepted, add_points, bind, modify. intros Hv Hm.
  destruct (_validate_input_data (set_data (compute d) g)) as [g1 r1].
  simpl in *. subst r1. rewrite Hm. reflexivity.
Qed.

(** C8: when the coordinate system or the vertical reference supplied to
    [add_points] disagrees with the established one, the call raises
    MetadataConflictFault and the grid it leaves behind has the new entry
    in its container registry, next to the unchanged metadata. *)
Theorem add_points_conflict_after_registry_update g d name fl crs vr :
  cls g ≠ BathyGridC →
  input_accepted g d →
  crs_disagrees g crs
  ∨ (vertical_reference_disagrees g vr ∧ (truthy_int (epsg g) = true → is_Some crs)) →
  ∃ g', add_points d name fl crs vr g = (g', Raise MetadataConflictFault)
        ∧ container g' !! name = Some (registry_entry fl)
        ∧ epsg g' = epsg g
        ∧ vertical_reference g' = vertical_reference g.
Proof.
  intros Hc Hv Hconf.
  set (g1 := fst (_validate_input_data (set_data (compute d) g))).
  destruct (_validate_input_data_frame (set_data (compute d) g))
    as (Hcls & _ & Hepsg & Hvr). fold g1 in Hcls, Hepsg, Hvr.
  simpl in Hcls, Hepsg, Hvr.
  assert (Hc1 : cls g1 ≠ BathyGridC) by congruence.
  assert (Hconf1 : crs_disagrees g1 crs
                   ∨ (vertical_reference_disagrees g1 vr
                      ∧ (truthy_int (epsg g1) = true → is_Some crs))).
  { unfold crs_disagrees, vertical_reference_disagrees in *.
    rewrite Hepsg, Hvr. exact Hconf. }
  destruct (_update_metadata_conflict g1 name fl crs vr Hc1 Hconf1)
    as (g' & Hm & He & Hr).
  exists g'. split; [|split; [|split]].
  - apply add_points_metadata_fault; assumption.
  - pose proof (_update_metadata_registers g1 name fl crs vr Hc1) as Hreg.
    rewrite Hm in Hreg. exact Hreg.
  - congruence.
  - congruence.
Qed.

(** C10: on an [SRGrid] (or a subclass), [add_points] with [crs] left at
    [None] raises TypeError from [int(None)] in the metadata update, on a
    grid without metadata as on one whose vertical reference matches; the
    container is registered all the same. *)
Theorem add_points_without_crs_raises g d name fl vr :
  cls g ≠ BathyGridC →
  input_accepted g d →
  (truthy_str (vertical_reference g) = true → vertical_reference g = vr) →
  ∃ g', add_points d name fl None vr g = (g', Raise TypeError)
        ∧ container g' !! name = Some (registry_entry fl)
        ∧ epsg g' = epsg g.
Proof.
  intros Hc Hv Hvr.
  set (g1 := fst (_validate_input_data (set_data (compute d) g))).
  destruct (_validate_input_data_frame (set_data (compute d) g))
    as (Hcls & _ & Hepsg & Hvr1). fold g1 in Hcls, Hepsg, Hvr1.
  simpl in Hcls, Hepsg, Hvr1.
  assert (Hc1 : cls g1 ≠ BathyGridC) by congruence.
  assert (Hvr' : truthy_str (vertical_reference g1) = true →
                 vertical_reference g1 = vr) by (rewrite Hvr1; exact Hvr).
  destruct (_update_metadata_no_crs g1 name fl vr Hc1 Hvr') as (g' & Hm & He & _).
  exists g'. split; [|split].
  - apply add_points_metadata_fault; assumption.
  - pose proof (_update_metadata_registers g1 name fl None vr Hc1) as Hreg.
    rewrite Hm in Hreg. exact Hreg.
  - congruence.
Qed.

End Metadata.

Import Reference Examples.

Lemma add_points_conflict_witness :
  ∃ g', add_points fardata "test2" None (Some 4326%Z) (Some "waterline") surveyed
        = (g', Raise MetadataConflictFault)
        ∧ container g' !! "test2" = Some ["Unknown"]
        ∧ epsg g' = epsg surveyed
        ∧ vertical_reference g' = vertical_reference surveyed.
Proof.
  apply (add_points_conflict_after_registry_update surveyed fardata "test2" None
           (Some 4326%Z) (Some "waterline")).
  - vm_compute. discriminate.
  - vm_compute. reflexivity.
  - left. split; [vm_compute; reflexivity|].
    exists 4326%Z. split; [reflexivity|]. vm_compute. discriminate.
Defined.

Lemma add_points_without_crs_witness :
  ∃ g', add_points smalldata "test1" (Some ["line1"]) None (Some "waterline")
                   (SRGrid_init 0 0 1024)
        = (g', Raise TypeError)
        ∧ container g' !! "test1" = Some ["line1"]
        ∧ epsg g' = None.
Proof.
  apply (add_points_without_crs_raises (SRGrid_init 0 0 1024) smalldata "test1"
           (Some ["line1"]) (Some "waterline")).
  - vm_compute. discriminate.
  - vm_compute. reflexivity.
  - vm_compute. discriminate.
Defined.

(** ** Mean depth *)

Section MeanDepth.
Context `{TileIface} `{!BaseGridOps} `{!Utilities} {S : Type} `{!SlotOps S}.
Implicit Type g : BathyGrid S.

(** What [_update_mean_depth] leaves in [mean_depth], by the depths staged. *)
Lemma _update_mean_depth_staged g d z :
  data g = Some d → get_field d "z" = Ok z →
  snd (_update_mean_depth g) = Ok tt
  ∧ mean_depth (fst (_update_mean_depth g))
    = if np_any z then Some (np_mean z) else None.
Proof.
  intros Hd Hz. unfold _update_mean_depth. rewrite Hd, Hz.
  destruct (np_any z); simpl; split; reflexivity.
Qed.

(** Without a depth field, the lookup of ['z'] raises. *)
Lemma _update_mean_depth_no_field g d e :
  data g = Some d → get_field d "z" = Raise e →
  _update_mean_depth g = (g, Raise e).
Proof.
  intros Hd Hz. unfold _update_mean_depth. rewrite Hd, Hz. reflexivity.
Qed.

(** Depths that are all zero count as no depths. *)
Lemma np_any_zeros (z : list Q) :
  Forall (fun v => v == 0) z → np_any z = false.
Proof.
  induction 1 as [|v z Hv _ IH]; simpl; [reflexivity|].
  unfold Qeqb. rewrite (proj2 (Qeq_bool_iff v 0) Hv). simpl. exact IH.
Qed.

End MeanDepth.


(** ** What each step of [add_points] leaves alone *)

Section Frames.
Context `{TileIface} `{!BaseGridOps} `{!Utilities} {S : Type} `{!SlotOps S}.
Implicit Type g : BathyGrid S.

Lemma same_staging_refl g : same_staging g g.
Proof. repeat split. Qed.

Lemma same_staging_trans g1 g2 g3 :
  same_staging g1 g2 → same_staging g2 g3 → same_staging g1 g3.
Proof. intros (?&?&?) (?&?&?). repeat split; congruence. Qed.

Lemma on_base_frame {A} (m : M lattice A) g :
  same_staging g (fst (on_base m g)) ∧ tiles (fst (on_base m g)) = tiles g.
Proof.
  unfold on_base. destruct (m (base g)) as [b r]. simpl.
  repeat split.
Qed.

Lemma _update_base_grid_frame g :
  same_staging g (fst (_update_base_grid g))
  ∧ tiles (fst (_update_base_grid g)) = tiles g.
Proof.
  unfold _update_base_grid.
  destruct (data g) as [d|]; [|split; [apply same_staging_refl|reflexivity]].
  destruct (is_empty g), (can_grow (base g)).
  all: try apply on_base_frame.
  all: try (split; [apply same_staging_refl|reflexivity]).
  all: destruct (data_bounds d) as [[[[ymin xmin] ymax] xmax]|e].
  all: try apply on_base_frame.
  all: split; [apply same_staging_refl|reflexivity].
Qed.

Lemma _add_points_to_tiles_frame name g :
  same_staging g (fst (_add_points_to_tiles name g)).
Proof.
  unfold _add_points_to_tiles.
  destruct (data g) as [d|] eqn:Hd; [|apply same_staging_refl].
  destruct (get_field d "x") as [xs|e]; [|apply same_staging_refl].
  destruct (get_field d "y") as [ys|e]; [|apply same_staging_refl].
  destruct (bin2d_with_indices _ _ _ _) as [binnum|e]; [|apply same_staging_refl].
  destruct (tiles g) as [flat_tiles|]; [|apply same_staging_refl].
  destruct (for_each _ _ _) as [flat_tiles' r]. simpl.
  repeat split; try exact Hd.
Qed.

Lemma _update_tiles_frame name g :
  same_staging g (fst (_update_tiles name g)).
Proof.
  unfold _update_tiles.
  destruct (data g) as [d|] eqn:Hd; [|apply same_staging_refl].
  destruct (is_empty g).
  - eapply same_staging_trans; [|apply _add_points_to_tiles_frame].
    repeat split; simpl; try exact Hd.
  - destruct (can_grow (base g)).
    + destruct (np_mask_assign _ _ _) as [new_tiles|e];
        [|repeat split; try exact Hd].
      eapply same_staging_trans; [|apply _add_points_to_tiles_frame].
      repeat split; simpl; try exact Hd.
    + eapply same_staging_trans; [|apply _add_points_to_tiles_frame].
      repeat split; try exact Hd.
Qed.

Lemma _update_metadata_data name fl crs vr g :
  data (fst (_update_metadata name fl crs vr g)) = data g.
Proof.
  unfold _update_metadata.
  destruct (cls g); [reflexivity| |].
  all: destruct fl as [[|f fl]|]; simpl.
  all: repeat match goal with
         | |- context [if ?c then _ else _] => destruct c; simpl
         | |- context [match py_int ?v with _ => _ end] =>
             destruct (py_int v); simpl
         end.
  all: reflexivity.
Qed.

(** A plain [BathyGrid] neither validates nor records metadata. *)
Lemma _update_metadata_plain name fl crs vr g :
  cls g = BathyGridC → _update_metadata name fl crs vr g = (g, Ok tt).
Proof. intros Hc. unfold _update_metadata. rewrite Hc. reflexivity. Qed.

Lemma _validate_input_data_plain g :
  cls g = BathyGridC → _validate_input_data g = (g, Ok tt).
Proof. intros Hc. unfold _validate_input_data. rewrite Hc. reflexivity. Qed.

Lemma _update_mean_depth_frame g :
  same_staging g (fst (_update_mean_depth g)).
Proof.
  unfold _update_mean_depth.
  destruct (data g) as [d|] eqn:Hd; [|repeat split; try exact Hd].
  destruct (get_field d "z") as [z|e]; [|repeat split; try exact Hd].
  destruct (negb (np_any z)); repeat split; try exact Hd.
Qed.

(** [add_points] on a plain [BathyGrid] never writes the registry. *)
Lemma add_points_plain_registry d name fl crs vr g :
  cls g = BathyGridC →
  container (fst (add_points d name fl crs vr g)) = container g
  ∧ cls (fst (add_points d name fl crs vr g)) = BathyGridC.
Proof.
  intros Hc. unfold add_points, bind, modify.
  rewrite _validate_input_data_plain by exact Hc.
  rewrite _update_metadata_plain by exact Hc.
  set (g0 := set_data (compute d) g).
  assert (Hg0 : container g0 = container g ∧ cls g0 = BathyGridC)
    by (split; [reflexivity|exact Hc]).
  destruct Hg0 as [Hc0 Hk0].
  destruct (_update_base_grid_frame g0) as [(_ & Hc1 & Hk1) _].
  destruct (_update_base_grid g0) as [g1 [[]|e]]; simpl in *;
    [|split; congruence].
  pose proof (_update_tiles_frame name g1) as (_ & Hc2 & Hk2).
  destruct (_update_tiles name g1) as [g2 [[]|e]]; simpl in *;
    [|split; congruence].
  pose proof (_update_mean_depth_frame g2) as (_ & Hc3 & Hk3).
  destruct (_update_mean_depth g2) as [g3 [[]|e]]; simpl in *;
    split; congruence.
Qed.

(** When [add_points] returns, [mean_depth] is what [_update_mean_depth]
    makes of the depths that passed validation. *)
Lemma add_points_mean_depth d name fl crs vr g g' staged z :
  data (fst (_validate_input_data (set_data (compute d) g))) = Some staged →
  get_field staged "z" = Ok z →
  add_points d name fl crs vr g = (g', Ok tt) →
  mean_depth g' = if np_any z then Some (np_mean z) else None.
Proof.
  intros Hst Hz. unfold add_points, bind, modify.
  destruct (_validate_input_data (set_data (compute d) g)) as [g0 [[]|e]];
    [|discriminate].
  simpl in Hst.
  pose proof (_update_metadata_data name fl crs vr g0) as Hd1.
  destruct (_update_metadata name fl crs vr g0) as [g1 [[]|e]]; [|discriminate].
  destruct (_update_base_grid_frame g1) as [(Hd2 & _) _].
  destruct (_update_base_grid g1) as [g2 [[]|e]]; [|discriminate].
  pose proof (_update_tiles_frame name g2) as (Hd3 & _).
  destruct (_update_tiles name g2) as [g3 [[]|e]]; [|discriminate].
  simpl in *.
  assert (Hd : data g3 = Some staged) by congruence.
  destruct (_update_mean_depth_staged g3 staged z Hd Hz) as [Hok Hmd].
  destruct (_update_mean_depth g3) as [g4 [[]|e]]; [|discriminate].
  simpl in *. intros Heq. injection Heq as <-. simpl. exact Hmd.
Qed.

(** A batch whose depths are all zero leaves [mean_depth] undefined. *)
Lemma add_points_zero_depths d name fl crs vr g g' staged z :
  data (fst (_validate_input_data (set_data (compute d) g))) = Some staged →
  get_field staged "z" = Ok z →
  Forall (fun v => v == 0) z →
  add_points d name fl crs vr g = (g', Ok tt) →
  mean_depth g' = None.
Proof.
  intros Hst Hz Hzero Hadd.
  rewrite (add_points_mean_depth d name fl crs vr g g' staged z Hst Hz Hadd).
  rewrite (np_any_zeros z Hzero). reflexivity.
Qed.

End Frames.

(** C4: a batch of two soundings, both of depth zero, is staged with its
    depth field present; [add_points] completes and leaves [mean_depth]
    undefined, though the mean of the depths is 0.  A batch without a
    depth field makes [add_points] raise. *)
Theorem zero_depths_leave_mean_depth_undefined :
  let zeros := xyz [0; 100] [0; 100] [0; 0] in
  let r := add_points zeros "test1" None (Some 26917%Z) None (SRGrid_init 0 0 1024) in
  snd r = Ok tt
  ∧ mean_depth (fst r) = None
  ∧ np_mean [0; 0] == 0
  ∧ snd (add_points (xy [0; 100] [0; 100]) "test1" None (Some 26917%Z) None
                    (SRGrid_init 0 0 1024))
    = Raise NoFieldFault.
Proof. vm_compute. repeat split; reflexivity. Qed.

(** ** Removal *)

Section Removal.
Context `{TileIface} `{!BaseGridOps} `{!Utilities} {S : Type} `{!SlotOps S}.
Implicit Type g : BathyGrid S.

(** An unregistered name: nothing happens. *)
Lemma remove_points_unregistered name g :
  container g !! name = None → remove_points name g = (g, Ok tt).
Proof. intros Hn. unfold remove_points. rewrite Hn. reflexivity. Qed.

(** A registered name leaves the registry, whatever the slots do. *)
Lemma remove_points_drops_entry name g :
  container (fst (remove_points name g)) !! name = None.
Proof.
  unfold remove_points.
  destruct (container g !! name) as [fl|] eqn:Hn; [|exact Hn].
  set (g1 := set_container (delete name (container g)) g).
  assert (Hg1 : container g1 !! name = None) by apply lookup_delete_eq.
  destruct (negb (is_empty g1)).
  - destruct (remove_loop name (default [] (tiles g1))) as [flat_tiles [[]|e]];
      simpl; [|exact Hg1].
    match goal with |- context [if ?c then _ else _] => destruct c end;
      simpl; exact Hg1.
  - destruct (is_empty g1); simpl; exact Hg1.
Qed.

(** When no slot's removal raises, every occupied slot has been asked to
    remove the container, and those left empty are nulled. *)
Lemma remove_loop_forwards name (l : list (option S)) :
  Forall (fun s => match s with
                   | Some t => snd (slot_remove_points name t) = Ok tt
                   | None => True
                   end) l →
  remove_loop name l = (map (after_removal name) l, Ok tt).
Proof.
  induction 1 as [|s l Hs _ IH]; simpl; [reflexivity|].
  destruct s as [t|]; simpl.
  - destruct (slot_remove_points name t) as [t' r]. simpl in *. subst r.
    rewrite IH. reflexivity.
  - rewrite IH. reflexivity.
Qed.

(** The lattice is released exactly when the loop left no occupant. *)
Lemma remove_points_releases name g fl l :
  container g !! name = Some fl → tiles g = Some l →
  Forall (fun s => match s with
                   | Some t => snd (slot_remove_points name t) = Ok tt
                   | None => True
                   end) l →
  tiles (fst (remove_points name g))
  = if forallb (fun s => match s with None => true | Some _ => false end)
               (map (after_removal name) l)
    then None else Some (map (after_removal name) l).
Proof.
  intros Hn Ht Hok. unfold remove_points. rewrite Hn.
  set (g1 := set_container (delete name (container g)) g).
  assert (Ht1 : tiles g1 = Some l) by exact Ht.
  destruct (is_empty g1) eqn:He; simpl.
  - rewrite He. simpl. unfold is_empty in He. rewrite Ht1 in He.
    assert (Hmap : map (after_removal name) l = l).
    { clear -He. induction l as [|[t|] l IH]; simpl in *;
        [reflexivity|discriminate|]. rewrite IH; [reflexivity|exact He]. }
    rewrite Hmap, He. reflexivity.
  - rewrite Ht. simpl. rewrite (remove_loop_forwards name l Hok).
    unfold is_empty. simpl.
    destruct (forallb _ (map (after_removal name) l)); reflexivity.
Qed.

End Removal.

Section NestedRemoval.
Context `{TileIface} `{!BaseGridOps} `{!Utilities}.

(** A nested [BathyGrid] never learns the names of its containers: its
    registry is empty when [VRGridTile._build_tile] makes it and
    [add_points] does not write it. *)
Lemma built_nested_unregistered xo yo ts sts :
  unregistered_nested (Some (slot_build VRGridTileC xo yo ts sts)).
Proof. simpl. split; reflexivity. Qed.

Lemma nested_add_points_unregistered pts name s :
  unregistered_nested (Some s) →
  unregistered_nested (Some (fst (slot_add_points pts name s))).
Proof.
  destruct s as [t|g0]; simpl; [tauto|]. intros [Hreg Hcls].
  destruct (add_points_plain_registry (Some pts) name None None None g0 Hcls)
    as [Hc Hk].
  destruct (add_points (Some pts) name None None None g0) as [g0' r].
  simpl in *. split; congruence.
Qed.

(** So the removal forwarded to it finds nothing to remove. *)
Lemma nested_remove_points_noop name s :
  unregistered_nested (Some s) → slot_remove_points name s = (s, Ok tt).
Proof.
  destruct s as [t|g0]; simpl; [tauto|]. intros [Hreg _].
  rewrite remove_points_unregistered; [reflexivity|].
  rewrite Hreg. apply lookup_empty.
Qed.

Lemma nested_remove_loop_noop name (l : list (option slot)) :
  Forall unregistered_nested l → remove_loop name l =
  (map (fun s => match s with
                 | Some t => if slot_is_empty t then None else Some t
                 | None => None
                 end) l, Ok tt).
Proof.
  induction 1 as [|s l Hs _ IH]; [reflexivity|].
  destruct s as [t|]; cbn [remove_loop map].
  - rewrite (nested_remove_points_noop name t Hs), IH. reflexivity.
  - rewrite IH. reflexivity.
Qed.

(** A grid whose occupied slots are all nested grids without registry
    keeps every non-empty one of them when a container is removed. *)
Lemma remove_points_keeps_nested name (g : BathyGrid slot) fl l :
  container g !! name = Some fl → tiles g = Some l →
  Forall unregistered_nested l →
  Forall (fun s => match s with
                   | Some t => slot_is_empty t = false
                   | None => True
                   end) l →
  is_empty g = false →
  remove_points name g = (set_container (delete name (container g)) g, Ok tt).
Proof.
  intros Hn Ht Hun Hne Hemp. unfold remove_points. rewrite Hn.
  set (g1 := set_container (delete name (container g)) g).
  assert (He1 : is_empty g1 = false) by exact Hemp.
  rewrite He1. simpl. rewrite Ht. simpl.
  rewrite (nested_remove_loop_noop name l Hun).
  assert (Hmap : map (fun s : option slot =>
                        match s with
                        | Some t => if slot_is_empty t then None else Some t
                        | None => None
                        end) l = l).
  { clear -Hne. induction Hne as [|s l Hs _ IH]; [reflexivity|].
    cbn [map]. rewrite IH. destruct s as [t|]; [rewrite Hs|]; reflexivity. }
  rewrite Hmap.
  assert (Hsame : set_tiles (Some l) g1 = g1).
  { unfold set_tiles, g1. simpl. rewrite <- Ht. destruct g; reflexivity. }
  rewrite Hsame, He1. reflexivity.
Qed.

End NestedRemoval.

(** ** The lattice of a [VRGridTile] *)

Section NestedLattice.
Context `{TileIface} `{!BaseGridOps} `{!Utilities}.
Implicit Type g : BathyGrid slot.

Lemma fill_mask_Forall {A} (P : A → Prop) (arr : list A) mask vals b :
  Forall P arr → Forall P vals → Forall P (fill_mask arr mask vals b).
Proof.
  intros Harr. revert mask vals.
  induction Harr as [|a arr Ha Harr IH]; intros mask vals Hvals;
    [destruct mask; constructor|].
  destruct mask as [|m mask]; [constructor; assumption|]. simpl.
  destruct m; [|constructor; [exact Ha|apply IH; exact Hvals]].
  destruct Hvals as [|v vals Hv Hvals].
  - constructor; [exact Ha|apply IH; constructor].
  - constructor; [exact Hv|]. apply IH.
    destruct b; [constructor|]; assumption.
Qed.

Lemma np_mask_assign_Forall {A} (P : A → Prop) (arr : list A) mask vals out :
  Forall P arr → Forall P vals →
  np_mask_assign arr mask vals = Ok out → Forall P out.
Proof.
  intros Harr Hvals. unfold np_mask_assign.
  repeat match goal with
         | |- context [if ?c then _ else _] => destruct c
         end; intros Heq; try discriminate.
  all: injection Heq as <-; apply fill_mask_Forall; assumption.
Qed.

Lemma place_points_nested g d binnum name ul (l : list (option slot)) :
  cls g = VRGridTileC → Forall unregistered_nested l →
  Forall unregistered_nested (fst (place_points g d binnum name ul l)).
Proof.
  intros Hc Hl. unfold place_points.
  destruct (select_rows d _) as [pts|e]; [|exact Hl].
  destruct (np_index (length l) ul) as [i|e]; [|exact Hl].
  set (built := match l !! i with
                | Some (Some t) => Ok t
                | _ => _
                end).
  assert (Hbuilt : ∀ t, built = Ok t → unregistered_nested (Some t)).
  { intros t. unfold built.
    destruct (l !! i) as [[t0|]|] eqn:Hi.
    - intros Heq. injection Heq as <-.
      rewrite Forall_forall in Hl. apply Hl.
      eapply list_elem_of_lookup_2. exact Hi.
    - destruct (np_getitem _ ul) as [xo|e]; [|discriminate].
      destruct (np_getitem _ ul) as [yo|e]; [|discriminate].
      intros Heq. injection Heq as <-. rewrite Hc.
      apply built_nested_unregistered.
    - destruct (np_getitem _ ul) as [xo|e]; [|discriminate].
      destruct (np_getitem _ ul) as [yo|e]; [|discriminate].
      intros Heq. injection Heq as <-. rewrite Hc.
      apply built_nested_unregistered. }
  destruct built as [t|e]; [|exact Hl].
  pose proof (nested_add_points_unregistered pts name t (Hbuilt t eq_refl)) as Ht'.
  destruct (slot_add_points pts name t) as [t' [[]|e]]; simpl in Ht'.
  - destruct (slot_is_empty t'); simpl.
    + apply Forall_insert; [exact Hl|exact I].
    + apply Forall_insert; [exact Hl|exact Ht'].
  - simpl. apply Forall_insert; [exact Hl|exact Ht'].
Qed.

Lemma for_each_place_points_nested g d binnum name locs (l : list (option slot)) :
  cls g = VRGridTileC → Forall unregistered_nested l →
  Forall unregistered_nested
         (fst (for_each locs (place_points g d binnum name) l)).
Proof.
  intros Hc. revert l.
  induction locs as [|ul locs IH]; intros l Hl; [exact Hl|].
  simpl. unfold bind.
  pose proof (place_points_nested g d binnum name ul l Hc Hl) as Hstep.
  destruct (place_points g d binnum name ul l) as [l1 [[]|e]]; simpl in *.
  - apply IH. exact Hstep.
  - exact Hstep.
Qed.

Lemma _add_points_to_tiles_nested name g :
  cls g = VRGridTileC → nested_lattice g →
  nested_lattice (fst (_add_points_to_tiles name g)).
Proof.
  intros Hc Hn. unfold _add_points_to_tiles.
  destruct (data g) as [d|]; [|exact Hn].
  destruct (get_field d "x") as [xs|e]; [|exact Hn].
  destruct (get_field d "y") as [ys|e]; [|exact Hn].
  destruct (bin2d_with_indices _ _ _ _) as [binnum|e]; [|exact Hn].
  unfold nested_lattice in Hn.
  destruct (tiles g) as [flat_tiles|] eqn:Ht;
    [|unfold nested_lattice; simpl; rewrite Ht; exact I].
  pose proof (for_each_place_points_nested g d binnum name (np_unique binnum)
                flat_tiles Hc Hn) as Hloop.
  destruct (for_each _ _ flat_tiles) as [flat_tiles' r]. exact Hloop.
Qed.

Lemma _update_tiles_nested name g :
  cls g = VRGridTileC → nested_lattice g →
  nested_lattice (fst (_update_tiles name g)).
Proof.
  intros Hc Hn. unfold _update_tiles.
  destruct (data g) as [d|]; [|exact Hn].
  assert (Hblank : ∀ n, Forall unregistered_nested (replicate n (@None slot))).
  { intros n. apply Forall_replicate. exact I. }
  destruct (is_empty g).
  - apply _add_points_to_tiles_nested; [exact Hc|]. apply Hblank.
  - destruct (can_grow (base g)).
    + destruct (np_mask_assign _ _ _) as [new_tiles|e] eqn:Hm; [|exact Hn].
      apply _add_points_to_tiles_nested; [exact Hc|].
      unfold nested_lattice. simpl.
      eapply np_mask_assign_Forall; [apply Hblank| |exact Hm].
      unfold nested_lattice in Hn. destruct (tiles g); [exact Hn|constructor].
    + apply _add_points_to_tiles_nested; assumption.
Qed.

Lemma _validate_input_data_tiles {S} `{!SlotOps S} (g : BathyGrid S) :
  tiles (fst (_validate_input_data g)) = tiles g.
Proof.
  unfold _validate_input_data.
  destruct (cls g); simpl; auto.
  all: destruct (data g) as [[[fs|v]|[fs|v]|vars coords dims|]|]; simpl; auto.
  all: try (destruct fs as [|f fs]; simpl; auto).
  all: repeat match goal with
         | |- context [if ?c then _ else _] => destruct c; simpl; auto
         | |- context [match _convert_dataset ?v with _ => _ end] =>
             destruct (_convert_dataset v); simpl; auto
         end.
Qed.

Lemma _update_metadata_tiles {S} `{!SlotOps S} name fl crs vr (g : BathyGrid S) :
  tiles (fst (_update_metadata name fl crs vr g)) = tiles g
  ∧ cls (fst (_update_metadata name fl crs vr g)) = cls g.
Proof.
  unfold _update_metadata.
  destruct (cls g) eqn:Hc; [split; [reflexivity|exact Hc]| |].
  all: destruct fl as [[|f fl]|]; simpl.
  all: repeat match goal with
         | |- context [if ?c then _ else _] => destruct c; simpl
         | |- context [match py_int ?v with _ => _ end] =>
             destruct (py_int v); simpl
         end.
  all: split; [reflexivity|exact Hc].
Qed.

Lemma _update_mean_depth_tiles {S} `{!SlotOps S} (g : BathyGrid S) :
  tiles (fst (_update_mean_depth g)) = tiles g.
Proof.
  unfold _update_mean_depth.
  destruct (data g) as [d|]; [|reflexivity].
  destruct (get_field d "z") as [z|e]; [|reflexivity].
  destruct (negb (np_any z)); reflexivity.
Qed.

(** [add_points] keeps the lattice of a [VRGridTile] made of nested grids
    without registry. *)
Lemma add_points_nested d name fl crs vr g :
  cls g = VRGridTileC → nested_lattice g →
  nested_lattice (fst (add_points d name fl crs vr g)).
Proof.
  intros Hc Hn. unfold add_points, bind, modify.
  set (g0 := set_data (compute d) g).
  pose proof (_validate_input_data_tiles g0) as Ht1.
  destruct (_validate_input_data_frame g0) as (Hc1 & _).
  destruct (_validate_input_data g0) as [g1 r1]. simpl in Ht1, Hc1.
  assert (Hn1 : nested_lattice g1) by (unfold nested_lattice; rewrite Ht1; exact Hn).
  destruct r1 as [[]|e]; [|exact Hn1].
  destruct (_update_metadata_tiles name fl crs vr g1) as [Ht2 Hc2].
  destruct (_update_metadata name fl crs vr g1) as [g2 r2]. simpl in Ht2, Hc2.
  assert (Hn2 : nested_lattice g2) by (unfold nested_lattice; rewrite Ht2; exact Hn1).
  destruct r2 as [[]|e]; [|exact Hn2].
  destruct (_update_base_grid_frame g2) as [(_ & _ & Hc3) Ht3].
  destruct (_update_base_grid g2) as [g3 r3]. simpl in Ht3, Hc3.
  assert (Hn3 : nested_lattice g3) by (unfold nested_lattice; rewrite Ht3; exact Hn2).
  destruct r3 as [[]|e]; [|exact Hn3].
  assert (Hk3 : cls g3 = VRGridTileC) by congruence.
  pose proof (_update_tiles_nested name g3 Hk3 Hn3) as Hn4.
  destruct (_update_tiles name g3) as [g4 r4]. simpl in Hn4.
  destruct r4 as [[]|e]; [|exact Hn4].
  pose proof (_update_mean_depth_tiles g4) as Ht5.
  destruct (_update_mean_depth g4) as [g5 r5]. simpl in Ht5.
  assert (Hn5 : nested_lattice g5) by (unfold nested_lattice; rewrite Ht5; exact Hn4).
  destruct r5 as [[]|e]; exact Hn5.
Qed.

(** A fresh [VRGridTile] has no lattice yet. *)
Lemma VRGridTile_init_nested mnx mny ts sts :
  cls (VRGridTile_init mnx mny ts sts) = VRGridTileC
  ∧ nested_lattice (VRGridTile_init mnx mny ts sts).
Proof. split; [reflexivity|exact I]. Qed.

End NestedLattice.

(** C5: on a [VRGridTile] holding the single container ['test1'],
    [remove_points('test1')] drops the registry entry and returns, but the
    nested grid that holds the points is untouched: the slot stays
    occupied, the grid is not empty and its lattice is not released.  On
    an [SRGrid] with the same data the lattice is released. *)
Theorem vrgridtile_removal_keeps_lattice :
  let r := remove_points "test1" vr_surveyed in
  container vr_surveyed !! "test1" = Some ["line1"]
  ∧ size (container vr_surveyed) = 1%nat
  ∧ snd r = Ok tt
  ∧ container (fst r) = ∅
  ∧ is_empty (fst r) = false
  ∧ n_occupied (fst r) = n_occupied vr_surveyed
  ∧ lattice_released (fst r) = false
  ∧ lattice_released (fst (remove_points "test1" surveyed)) = true.
Proof. vm_compute. repeat split; reflexivity. Qed.

(** ** Layer names *)

Section LayerNames.
Context `{TileIface} `{!BaseGridOps} `{!Utilities}.
Implicit Type g : BathyGrid slot.

Lemma first_slot_unset g : tiles g = None → first_slot g = None.
Proof. intros Ht. unfold first_slot. rewrite Ht. reflexivity. Qed.

(** [no_grid], by the first occupied slot. *)
Lemma no_grid_first_leaf g t :
  first_slot g = Some (Leaf t) →
  no_grid g = Ok (Some (negb (has_entries (tile_cells t)))).
Proof.
  unfold first_slot, no_grid. destruct (tiles g) as [l|]; simpl; [|discriminate].
  intros ->. reflexivity.
Qed.

(** C9, as amended: when the first occupied slot of the lattice, in
    row-major order, is a gridded leaf tile, [return_layer_names] raises
    TypeError ([list] of the bound method [tile.cells.keys]); it returns a
    list only when no slot is occupied or when the tile that decides
    [no_grid] holds no grid (the first occupied slot if it is a leaf
    tile, else the last occupied subtile of its nested grid), and the
    list it returns is empty.  In these cases it does return. *)
Theorem return_layer_names_by_first_slot g :
  (first_slot_is_gridded_leaf g = true → return_layer_names g = Raise TypeError)
  ∧ (∀ names, return_layer_names g = Ok names →
       names = []
       ∧ (first_slot g = None ∨ deciding_tile_is_ungridded g = true))
  ∧ (first_slot g = None ∨ deciding_tile_is_ungridded g = true →
     return_layer_names g = Ok []).
Proof.
  unfold first_slot_is_gridded_leaf, deciding_tile_is_ungridded, deciding_tile,
    return_layer_names.
  destruct (first_slot g) as [[t|g0]|] eqn:Hf.
  - rewrite (no_grid_first_leaf g t Hf). unfold first_slot in Hf.
    rewrite Hf. cbn [py_truth slot_list_cells_keys slot_ops].
    destruct (has_entries (tile_cells t)); cbn [negb].
    + refine (conj (fun _ => eq_refl) (conj _ _)).
      * intros names Hn. discriminate Hn.
      * intros [Hn|Hn]; discriminate Hn.
    + refine (conj _ (conj _ (fun _ => eq_refl))).
      * intros Hn. discriminate Hn.
      * intros names Hn. split; [congruence|]. right. reflexivity.
  - unfold first_slot in Hf. unfold no_grid.
    destruct (tiles g) as [l|]; cbn [default from_option id] in Hf;
      [|discriminate Hf].
    rewrite Hf. cbn [slot_has_cells slot_ops default from_option id].
    unfold nested_has_cells.
    destruct (tiles g0) as [subtiles|]; cbn [default from_option id].
    + destruct (last_occupied subtiles) as [subtile|].
      * destruct (has_entries (tile_cells subtile)); cbn [negb py_truth].
        -- rewrite Hf. cbn [slot_list_cells_keys slot_ops].
           refine (conj _ (conj _ _)).
           ++ intros Hn. discriminate Hn.
           ++ intros names Hn. discriminate Hn.
           ++ intros [Hn|Hn]; discriminate Hn.
        -- refine (conj _ (conj _ (fun _ => eq_refl))).
           ++ intros Hn. discriminate Hn.
           ++ intros names Hn. split; [congruence|]. right. reflexivity.
      * refine (conj _ (conj _ _)).
        -- intros Hn. discriminate Hn.
        -- intros names Hn. discriminate Hn.
        -- intros [Hn|Hn]; discriminate Hn.
    + cbn [last_occupied]. refine (conj _ (conj _ _)).
      * intros Hn. discriminate Hn.
      * intros names Hn. discriminate Hn.
      * intros [Hn|Hn]; discriminate Hn.
  - unfold first_slot in Hf. unfold no_grid.
    destruct (tiles g) as [l|]; cbn [default from_option id] in *.
    + rewrite Hf. cbn [py_truth]. rewrite ?Hf.
      refine (conj _ (conj _ (fun _ => eq_refl))).
      * intros Hn. discriminate Hn.
      * intros names Hn. split; [congruence|]. left. reflexivity.
    + cbn [py_truth].
      refine (conj _ (conj _ (fun _ => eq_refl))).
      * intros Hn. discriminate Hn.
      * intros names Hn. split; [congruence|]. left. reflexivity.
Qed.

End LayerNames.

(** ** Layer access *)

Section LayerAccess.
Context `{TileIface} `{!BaseGridOps} `{!Utilities} {S : Type} `{!SlotOps S}.
Implicit Type g : BathyGrid S.

(** A resolution that is named (and not zero) is the one used. *)
Lemma pick_resolution_named g r :
  Qeqb r 0 = false → pick_resolution g (Some r) = Ok r.
Proof. intros Hr. unfold pick_resolution. rewrite Hr. reflexivity. Qed.

(** An omitted resolution is ambiguous exactly when several are on record. *)
Lemma pick_resolution_omitted g :
  pick_resolution g None = Raise AmbiguousResolutionFault
  ↔ (1 < length (resolutions g))%nat.
Proof.
  unfold pick_resolution.
  destruct (Nat.ltb_spec 1 (length (resolutions g))) as [Hlt|Hge].
  - split; [intros _; exact Hlt|reflexivity].
  - split; [|lia]. destruct (resolutions g); discriminate.
Qed.

(** With the resolution omitted, [get_layer_by_name] on a gridded grid
    raises the ambiguity fault when several resolutions are on record. *)
Lemma get_layer_by_name_omitted g layer :
  no_grid g = Ok (Some false) → (1 < length (resolutions g))%nat →
  get_layer_by_name layer None g = Raise AmbiguousResolutionFault.
Proof.
  intros Hng Hlen. unfold get_layer_by_name. rewrite Hng. cbn [py_truth].
  rewrite (proj2 (pick_resolution_omitted g) Hlen). reflexivity.
Qed.

(** C6: on a gridded grid with several resolutions on record,
    [return_surf_xyz] raises AmbiguousResolutionFault although the caller
    names a resolution: the resolution passes the check of
    [return_surf_xyz] itself and is then left out of the call of
    [get_layer_trimmed]. *)
Theorem return_surf_xyz_named_resolution_ambiguous g layer r cell_boundaries :
  no_grid g = Ok (Some false) → (1 < length (resolutions g))%nat →
  Qeqb r 0 = false →
  pick_resolution g (Some r) = Ok r
  ∧ return_surf_xyz layer (Some r) cell_boundaries g
    = Raise AmbiguousResolutionFault.
Proof.
  intros Hng Hlen Hr. split; [apply pick_resolution_named; exact Hr|].
  unfold return_surf_xyz. rewrite Hng. cbn [py_truth].
  rewrite (pick_resolution_named g r Hr).
  unfold get_layer_trimmed.
  rewrite (get_layer_by_name_omitted g layer Hng Hlen). reflexivity.
Qed.

End LayerAccess.

Lemma return_layer_names_witness :
  return_layer_names gridded = Raise TypeError.
Proof.
  apply (proj1 (return_layer_names_by_first_slot gridded)).
  vm_compute. reflexivity.
Defined.

(** C9 as stated fails on a grid that grew after it was gridded: a
    gridded slot is there, the first occupied slot is not gridded, and
    the empty list is returned. *)
Lemma return_layer_names_counterexample :
  has_gridded_slot grown_after_gridding = true
  ∧ n_occupied grown_after_gridding = 2%nat
  ∧ return_layer_names grown_after_gridding = Ok [].
Proof. vm_compute. repeat split; reflexivity. Qed.

(** On a [VRGridTile] it is the last occupied subtile of the first
    tile that decides: with a gridded first subtile and an ungridded
    last one, the empty list is returned. *)
Example return_layer_names_by_last_subtile :
  has_gridded_slot MoreExamples.vr_grown_after_gridding = true
  ∧ deciding_tile_is_ungridded MoreExamples.vr_grown_after_gridding = true
  ∧ return_layer_names MoreExamples.vr_grown_after_gridding = Ok [].
Proof. vm_compute. repeat split; reflexivity. Qed.

Lemma return_surf_xyz_named_resolution_witness :
  pick_resolution two_resolutions (Some 1) = Ok 1
  ∧ return_surf_xyz "depth" (Some 1) true two_resolutions
    = Raise AmbiguousResolutionFault.
Proof.
  apply (return_surf_xyz_named_resolution_ambiguous two_resolutions "depth" 1 true).
  - vm_compute. reflexivity.
  - vm_compute. lia.
  - reflexivity.
Defined.

(** ** Serial gridding *)

Section Serial.
Context `{TileIface} `{!BaseGridOps} `{!Utilities} {S : Type} `{!SlotOps S}.
Implicit Type g : BathyGrid S.

(** The occupied slots are visited in the order of the flattened lattice,
    each with the algorithm and the [clear_existing] flag of the call. *)
Lemma regular_loop_order alg ce cnt slots res found :
  Forall (fun c => call_algorithm c = alg ∧ call_clear_existing c = ce)
         (loop_calls alg ce cnt slots res found)
  ∧ (loop_outcome alg ce cnt slots res found = Ok tt →
     map call_index (loop_calls alg ce cnt slots res found)
     = occupied_indices cnt slots).
Proof.
  unfold loop_calls, loop_outcome. revert cnt res found.
  induction slots as [|[t|] rest IH]; intros cnt res found; cbn [regular_loop].
  - split; [constructor|reflexivity].
  - destruct (slot_grid alg res ce t) as [t' [r|e]].
    + specialize (IH (Datatypes.S cnt) r
                     (if Qmem r found then found else found ++ [r])).
      destruct (regular_loop _ _ _ rest _ _) as [[[rest' found'] calls] o].
      simpl in *. destruct IH as [Hall Hidx]. split.
      * constructor; [split; reflexivity|exact Hall].
      * intros Ho. rewrite (Hidx Ho). reflexivity.
    + simpl. split; [repeat constructor|discriminate].
  - specialize (IH (Datatypes.S cnt) res found).
    destruct (regular_loop _ _ _ rest _ _) as [[[rest' found'] calls] o].
    simpl in *. exact IH.
Qed.

(** The first invocation gets the resolution of the call. *)
Lemma regular_loop_first alg ce cnt slots res found c calls :
  loop_calls alg ce cnt slots res found = c :: calls → call_resolution c = res.
Proof.
  unfold loop_calls. revert cnt.
  induction slots as [|[t|] rest IH]; intros cnt; cbn [regular_loop].
  - discriminate.
  - destruct (slot_grid alg res ce t) as [t' [r|e]].
    + destruct (regular_loop _ _ _ rest _ _) as [[[rest' found'] calls'] o].
      simpl. intros Heq. injection Heq as <- _. reflexivity.
    + simpl. intros Heq. injection Heq as <- _. reflexivity.
  - specialize (IH (Datatypes.S cnt)).
    destruct (regular_loop _ _ _ rest _ _) as [[[rest' found'] calls'] o].
    simpl in *. exact IH.
Qed.

(** What the next occupied slot is handed is what this one reported. *)
Lemma regular_loop_threads alg ce cnt t rest res found t' r :
  slot_grid alg res ce t = (t', Ok r) →
  loop_calls alg ce cnt (Some t :: rest) res found
  = GridCall cnt alg res ce
    :: loop_calls alg ce (Datatypes.S cnt) rest r
                  (if Qmem r found then found else found ++ [r]).
Proof.
  intros Hg. unfold loop_calls. cbn [regular_loop]. rewrite Hg.
  destruct (regular_loop _ _ _ rest _ _) as [[[rest' found'] calls] o].
  reflexivity.
Qed.

(** When every slot reports the resolution it is handed, every slot is
    handed the resolution of the call. *)
Lemma regular_loop_same_resolution alg ce cnt slots res found :
  Forall (reports_what_it_is_handed alg ce) slots →
  Forall (fun c => call_resolution c = res)
         (loop_calls alg ce cnt slots res found).
Proof.
  intros Hall. revert cnt found.
  induction Hall as [|s rest Hs _ IH]; intros cnt found.
  - constructor.
  - destruct s as [t|].
    + destruct (slot_grid alg res ce t) as [t' [r|e]] eqn:Hg.
      * rewrite (regular_loop_threads alg ce cnt t rest res found t' r Hg).
        assert (Hr : r = res) by (apply (Hs res r); rewrite Hg; reflexivity).
        subst r. constructor; [reflexivity|apply IH].
      * unfold loop_calls. cbn [regular_loop]. rewrite Hg. simpl.
        repeat constructor.
    + unfold loop_calls in *. cbn [regular_loop].
      specialize (IH (Datatypes.S cnt) found).
      destruct (regular_loop _ _ _ rest _ _) as [[[rest' found'] calls] o].
      exact IH.
Qed.

End Serial.

(** C3: on a lattice whose first occupied slot reports 2.0 when handed
    1.0, serial [grid(resolution=1.0)] hands the next occupied slot 2.0,
    the value the first one reported; parallel gridding hands 1.0 to
    both.  [grid] itself returns 1.0 either way. *)
Theorem serial_grid_hands_on_reported_resolution :
  let serial := grid "mean" (Some 1) false false two_native_tiles in
  let parallel := grid "mean" (Some 1) false true two_native_tiles in
  snd serial = Ok 1
  ∧ snd (_grid_regular "mean" 1 false two_native_tiles)
    = Ok [GridCall 0 "mean" 1 false; GridCall 2 "mean" 2 false]
  ∧ tiles (fst serial)
    = Some [Some (NativeTile 2 (Some 1)); None; Some (NativeTile 4 (Some 2))]
  ∧ snd parallel = Ok 1
  ∧ tiles (fst parallel)
    = Some [Some (NativeTile 2 (Some 1)); None; Some (NativeTile 4 (Some 1))].
Proof. vm_compute. repeat split; reflexivity. Qed.

(** ** Parallel gridding *)

Lemma groups_fuel_nil {A} fuel n : @groups_fuel A fuel n [] = [].
Proof. destruct fuel; reflexivity. Qed.

(** Enough fuel is as good as more. *)
Lemma groups_fuel_enough {A} n (l : list A) f1 f2 :
  n ≠ 0%nat → (length l <= f1)%nat → (length l <= f2)%nat →
  groups_fuel f1 n l = groups_fuel f2 n l.
Proof.
  intros Hn. revert f2 l.
  induction f1 as [|f1 IH]; intros f2 l H1 H2.
  - destruct l; [|simpl in H1; lia]. rewrite !groups_fuel_nil. reflexivity.
  - destruct l as [|a l]; [rewrite !groups_fuel_nil; reflexivity|].
    destruct f2 as [|f2]; [simpl in H2; lia|].
    cbn [groups_fuel]. f_equal.
    assert (Hd : (length (drop n (a :: l)) <= length l)%nat).
    { rewrite length_drop. simpl. lia. }
    simpl in H1, H2. apply IH; lia.
Qed.

(** A list is cut into batches of [n] in one way only: into its
    consecutive groups of [n]. *)
Lemma batched_by_groups_of {A} n (l : list A) bs :
  n ≠ 0%nat → batched_by n l bs → bs = groups_of n l.
Proof.
  intros Hn. revert l.
  induction bs as [|b bs IH]; intros l (Hcat & Hne & Hlen & _).
  - simpl in Hcat. subst l. reflexivity.
  - simpl in Hcat. subst l.
    apply Forall_cons in Hne as [Hb Hne].
    destruct (Hlen 0%nat b Hn eq_refl) as [Hle Hfull].
    destruct b as [|a b]; [contradiction|].
    unfold groups_of. destruct bs as [|b' bs].
    + simpl. rewrite app_nil_r.
      rewrite take_ge by exact Hle. rewrite drop_ge by exact Hle.
      rewrite groups_fuel_nil. reflexivity.
    + assert (Hfull' : length (a :: b) = n) by (apply Hfull; simpl; lia).
      assert (Htail : batched_by n (concat (b' :: bs)) (b' :: bs)).
      { refine (conj eq_refl (conj Hne (conj _ _))); [|intros; contradiction].
        intros i c _ Hi. destruct (Hlen (Datatypes.S i) c Hn Hi) as [Hc Hc'].
        split; [exact Hc|]. intros Hi'. apply Hc'. simpl in *. lia. }
      set (rest := concat (b' :: bs)) in *.
      change (concat ((a :: b) :: b' :: bs)) with ((a :: b) ++ rest).
      rewrite length_app. rewrite Hfull'.
      destruct n as [|n]; [contradiction|]. cbn [Nat.add groups_fuel].
      change ((a :: b) ++ rest) with (a :: (b ++ rest)).
      change (a :: (b ++ rest)) with ((a :: b) ++ rest).
      f_equal.
      * rewrite take_app_length'; [reflexivity|symmetry; exact Hfull'].
      * rewrite drop_app_length'; [|symmetry; exact Hfull'].
        rewrite (IH rest Htail) at 1. unfold groups_of.
        apply groups_fuel_enough; lia.
Qed.

Section Parallel.
Context {S : Type}.
Implicit Type st : @dispatch S.

Lemma trace_from_app total (done todo : list (list (@job S))) b :
  trace_from total done (todo ++ [b])
  = trace_from total done todo
    ++ [PrintGroup (Datatypes.S (length (done ++ todo))) total;
        Scatter b; MapGridding b; Progress (done ++ todo ++ [b])].
Proof.
  revert done. induction todo as [|a todo IH]; intros done; simpl.
  - rewrite app_nil_r. reflexivity.
  - rewrite IH. rewrite <- !app_assoc. reflexivity.
Qed.

Lemma dispatching_start n total :
  dispatching n total [] (@Dispatch S [] [] 0 1 []).
Proof.
  unfold dispatching. simpl.
  split; [reflexivity|]. split; [constructor|]. split; [reflexivity|].
  split; [destruct n; [left; reflexivity|right; lia]|].
  split; reflexivity.
Qed.

Lemma dispatch_step_empty n total alg res ce st :
  dispatch_step n total alg res ce st None = st.
Proof. reflexivity. Qed.

Lemma dispatching_step n total alg res ce seen st (t : S) :
  dispatching n total seen st →
  dispatching n total (seen ++ [(t, alg, res, ce)])
              (dispatch_step n total alg res ce st (Some t)).
Proof.
  intros (Hcat & Hfull & Hidx & Hlt & Hrun & Hcalls).
  unfold dispatch_step. cbn [chunk_index data_for_workers futs cur_run calls].
  set (j := (t, alg, res, ce)).
  destruct (Nat.eqb_spec (chunk_index st + 1) n) as [Heq|Hne].
  - unfold submit. cbn [chunk_index data_for_workers futs cur_run calls].
    assert (Hlen : length (data_for_workers st ++ [j]) = n)
      by (rewrite length_app; simpl; lia).
    unfold dispatching. cbn [chunk_index data_for_workers futs cur_run calls].
    refine (conj _ (conj _ (conj _ (conj _ (conj _ _))))).
    + rewrite concat_app. simpl. rewrite !app_nil_r.
      rewrite <- Hcat. rewrite app_assoc. reflexivity.
    + apply Forall_app. split; [exact Hfull|].
      constructor; [|constructor]. split; [exact Hlen|lia].
    + reflexivity.
    + right. simpl. lia.
    + rewrite length_app. simpl. lia.
    + rewrite trace_from_app, Hcalls, Hrun. simpl. reflexivity.
  - unfold dispatching. cbn [chunk_index data_for_workers futs cur_run calls].
    refine (conj _ (conj _ (conj _ (conj _ (conj _ _))))).
    + rewrite <- Hcat. rewrite app_assoc. reflexivity.
    + exact Hfull.
    + rewrite length_app. simpl. lia.
    + destruct Hlt as [Hz|Hlt]; [left; exact Hz|right].
      rewrite length_app. simpl. lia.
    + exact Hrun.
    + exact Hcalls.
Qed.

Lemma dispatching_fold n total alg res ce (slots : list (option S)) seen st :
  dispatching n total seen st →
  dispatching n total (seen ++ jobs_of alg res ce slots)
              (fold_left (dispatch_step n total alg res ce) slots st).
Proof.
  revert seen st. induction slots as [|[t|] slots IH]; intros seen st Hinv.
  - simpl. rewrite app_nil_r. exact Hinv.
  - cbn [fold_left].
    replace (seen ++ jobs_of alg res ce (Some t :: slots))
      with ((seen ++ [(t, alg, res, ce)]) ++ jobs_of alg res ce slots)
      by (rewrite <- app_assoc; reflexivity).
    apply IH. apply dispatching_step. exact Hinv.
  - cbn [fold_left].
    change (jobs_of alg res ce (None :: slots)) with (jobs_of alg res ce slots).
    apply IH. exact Hinv.
Qed.

End Parallel.

Section ParallelBatches.
Context `{TileIface} `{!BaseGridOps} `{!Utilities} {S : Type} `{!SlotOps S}.
Implicit Type g : BathyGrid S.

(** The batches [dispatch_all] submits and the calls it makes. *)
Lemma dispatch_all_batches n alg res ce (slots : list (option S)) :
  batched_by n (jobs_of alg res ce slots)
             (futs (dispatch_all n alg res ce slots))
  ∧ calls (dispatch_all n alg res ce slots)
    = trace_from (total_runs_of slots) [] (futs (dispatch_all n alg res ce slots))
      ++ [Wait (futs (dispatch_all n alg res ce slots))].
Proof.
  unfold dispatch_all. fold (total_runs_of slots).
  pose proof (dispatching_fold n (total_runs_of slots) alg res ce slots []
                (Dispatch [] [] 0 1 []) (dispatching_start n _)) as Hinv.
  simpl in Hinv.
  set (st := fold_left _ slots _) in *.
  destruct Hinv as (Hcat & Hfull & Hidx & Hlt & Hrun & Hcalls).
  destruct (data_for_workers st) as [|j rest] eqn:Hdfw;
    cbn [futs calls data_for_workers].
  - rewrite app_nil_r in Hcat. split; [|rewrite Hcalls; reflexivity].
    unfold batched_by. refine (conj Hcat (conj _ (conj _ _))).
    + eapply Forall_impl; [exact Hfull|]. intros b [Hb Hn] ->. simpl in Hb. lia.
    + intros i b Hn Hi. rewrite Forall_forall in Hfull.
      destruct (Hfull b (list_elem_of_lookup_2 _ _ _ Hi)) as [Hb _].
      split; [apply Nat.eq_le_incl; exact Hb|intros _; exact Hb].
    + intros Hn. destruct Hfull as [|b bs [_ Hne] _]; [simpl; lia|contradiction].
  - split.
    + unfold batched_by. refine (conj _ (conj _ (conj _ _))).
      * rewrite concat_app. simpl. rewrite app_nil_r. exact Hcat.
      * apply Forall_app. split.
        -- eapply Forall_impl; [exact Hfull|]. intros b [Hb Hn] ->.
           simpl in Hb. lia.
        -- constructor; [discriminate|constructor].
      * intros i b Hn Hi. rewrite length_app. simpl.
        apply lookup_app_Some in Hi as [Hi|[Hge Hi]].
        -- rewrite Forall_forall in Hfull.
           destruct (Hfull b (list_elem_of_lookup_2 _ _ _ Hi)) as [Hb _].
           split; [apply Nat.eq_le_incl; exact Hb|intros _; exact Hb].
        -- apply list_lookup_singleton_Some in Hi as [Hk <-].
           destruct Hlt as [Hz|Hlt]; [contradiction|].
           split; [apply Nat.lt_le_incl; exact Hlt|intros Hlast; unfold job in *; lia].
      * intros Hn. destruct Hfull as [|b bs [_ Hne] _]; [simpl; lia|contradiction].
    + rewrite trace_from_app, Hcalls, Hrun. simpl.
      rewrite <- app_assoc. reflexivity.
Qed.



End ParallelBatches.



(** ** The scenario of the specification *)

(** Soundings over [0, 900] x [0, 900] with depths from 20 to 30 and a
    tile size of 1024: one occupied tile, a mean depth of 25 and, from
    the band (20, 40], a resolution of 1.0 in serial as in parallel mode. *)
Example survey_scenario :
  n_occupied surveyed = 1%nat
  ∧ (match mean_depth surveyed with
     | Some d => Qeq_bool d 25
     | None => false
     end) = true
  ∧ snd (grid "mean" None false false surveyed) = Ok 1
  ∧ snd (grid "mean" None false true surveyed) = Ok 1
  ∧ resolutions gridded = [1].
Proof. vm_compute. repeat split; reflexivity. Qed.

(** * Further properties *)

(** ** The resolution selector *)

Lemma np_argmax_in_range (l : list bool) :
  l ≠ [] → (np_argmax l < length l)%nat.
Proof.
  induction l as [|b l IH]; [congruence|]. intros _. simpl.
  destruct b; [lia|].
  destruct (existsb (fun x => x) l) eqn:Hex; [|lia].
  assert (Hl : l ≠ []) by (destruct l; [discriminate|congruence]).
  specialize (IH Hl). lia.
Qed.

(** X1: for every defined mean depth the selector returns, and what it
    returns is one of the twelve resolutions of the table. *)
Theorem _calculate_resolution_in_table (d : Q) :
  ∃ r, _calculate_resolution (Some d) = Ok r ∧ r ∈ table_resolutions.
Proof.
  unfold _calculate_resolution. cbv zeta.
  set (keys := map fst depth_resolution_lookup).
  set (flags := map (fun k => Qgtb (inject_Z k - d) 0) keys).
  assert (Hlt : (np_argmax flags < length keys)%nat).
  { replace (length keys) with (length flags) by apply length_map.
    apply np_argmax_in_range. discriminate. }
  destruct (lookup_lt_is_Some_2 keys _ Hlt) as [k Hk]. rewrite Hk.
  assert (Hin : k ∈ map fst depth_resolution_lookup)
    by (eapply list_elem_of_lookup_2; exact Hk).
  destruct (dict_get_elem depth_resolution_lookup k Hin) as (r & Hget & Hel).
  exists r. split; [exact Hget|].
  unfold table_resolutions. apply list_elem_of_fmap. exists (k, r).
  split; [reflexivity|exact Hel].
Qed.

(** In the table a larger threshold never has a finer resolution. *)
Lemma table_monotone (t1 t2 : Z) (r1 r2 : Q) :
  (t1, r1) ∈ depth_resolution_lookup → (t2, r2) ∈ depth_resolution_lookup →
  (t1 <= t2)%Z → r1 <= r2.
Proof.
  intros H1 H2 Hle.
  apply list_elem_of_In in H1. apply list_elem_of_In in H2.
  simpl in H1, H2.
  repeat (destruct H1 as [H1|H1]; [injection H1 as <- <-|]); [..|destruct H1].
  all: repeat (destruct H2 as [H2|H2]; [injection H2 as <- <-|]);
    [..|destruct H2].
  all: first [lia | (unfold Qle; simpl; lia)].
Qed.

(** X2: below the deepest threshold the selector is monotone: a deeper
    mean depth never selects a finer resolution. *)
Theorem _calculate_resolution_monotone (d1 d2 r1 r2 : Q) :
  d1 <= d2 → d2 < 20480 →
  _calculate_resolution (Some d1) = Ok r1 →
  _calculate_resolution (Some d2) = Ok r2 →
  r1 <= r2.
Proof.
  intros Hle Hd2 H1 H2.
  assert (Hd1 : d1 < 20480) by (eapply Qle_lt_trans; eassumption).
  destruct (_calculate_resolution_band d1 Hd1) as (r1' & E1 & t1 & (Hin1 & Hlt1 & Hmin1) & Hel1).
  destruct (_calculate_resolution_band d2 Hd2) as (r2' & E2 & t2 & (Hin2 & Hlt2 & Hmin2) & Hel2).
  assert (r1' = r1) by congruence. assert (r2' = r2) by congruence. subst.
  apply (table_monotone t1 t2); [exact Hel1|exact Hel2|].
  apply Hmin1; [exact Hin2|]. eapply Qle_lt_trans; eassumption.
Qed.

Lemma _calculate_resolution_monotone_witness : (1 : Q) <= 64.
Proof.
  apply (_calculate_resolution_monotone 25 700 1 64);
    [discriminate|reflexivity|reflexivity|reflexivity].
Defined.

(** ** Validation *)

Lemma layer_names_of_spec (names : list string) (l : string) :
  l ∈ layer_names_of names
  ↔ (l = "depth" ∧ "z" ∈ names) ∨ (l = "vertical_uncertainty" ∧ "tvu" ∈ names).
Proof.
  unfold layer_names_of. rewrite list_elem_of_omap. split.
  - intros (var & Hin & Hf).
    destruct (String.eqb_spec var "z") as [->|Hz].
    + simpl in Hf. injection Hf as <-. left. split; [reflexivity|exact Hin].
    + destruct (String.eqb_spec var "tvu") as [->|Ht].
      * simpl in Hf. injection Hf as <-. right. split; [reflexivity|exact Hin].
      * simpl in Hf. discriminate.
  - intros [[-> Hin]|[-> Hin]].
    + exists "z". split; [exact Hin|reflexivity].
    + exists "tvu". split; [exact Hin|reflexivity].
Qed.

Section Validation.
Context `{TileIface} `{!BaseGridOps} `{!Utilities} {S : Type} `{!SlotOps S}.
Implicit Type g : BathyGrid S.

(** X3: once an [SRGrid] has validated its input, its [layernames] hold
    ['depth'] exactly when [z] is a field of the array, or a data
    variable of the dataset, and ['vertical_uncertainty'] exactly when
    [tvu] is one, and nothing else: a field [thu] never makes
    ['horizontal_uncertainty'] a layer name, and a coordinate of a
    dataset never makes a layer name. *)
Theorem layernames_after_validation g d (l : string) :
  cls g ≠ BathyGridC → data g = Some d →
  snd (_validate_input_data g) = Ok tt →
  l ∈ layernames (fst (_validate_input_data g))
  ↔ (l = "depth" ∧ "z" ∈ input_fields d)
    ∨ (l = "vertical_uncertainty" ∧ "tvu" ∈ input_fields d).
Proof.
  intros Hc Hd. unfold _validate_input_data. rewrite Hd.
  destruct (cls g); [congruence| |].
  all: destruct d as [[fs|v]|[fs|v]|vars coords dims|].
  all: try (destruct fs as [|f fs]).
  all: repeat match goal with
         | |- snd (if ?c then _ else _) = _ → _ => destruct c
         | |- snd (match _convert_dataset ?v with _ => _ end) = _ → _ =>
             destruct (_convert_dataset v)
         end.
  all: intros Hok; try (cbn in Hok; discriminate).
  all: exact (layer_names_of_spec _ l).
Qed.

(** What a failed validation leaves of the grid. *)
Lemma _validate_input_data_failure g e :
  snd (_validate_input_data g) = Raise e →
  data (fst (_validate_input_data g)) = data g
  ∧ tiles (fst (_validate_input_data g)) = tiles g
  ∧ mean_depth (fst (_validate_input_data g)) = mean_depth g
  ∧ container (fst (_validate_input_data g)) = container g
  ∧ epsg (fst (_validate_input_data g)) = epsg g
  ∧ vertical_reference (fst (_validate_input_data g)) = vertical_reference g.
Proof.
  unfold _validate_input_data.
  destruct (cls g); [discriminate| |].
  all: destruct (data g) as [[[fs|v]|[fs|v]|vars coords dims|]|] eqn:Hd.
  all: try (destruct fs as [|f fs]).
  all: repeat match goal with
         | |- snd (if ?c then _ else _) = _ → _ => destruct c
         | |- snd (match _convert_dataset ?v with _ => _ end) = _ → _ =>
             destruct (_convert_dataset v)
         end.
  all: intros Hv; try (cbn in Hv; discriminate).
  all: cbn; auto 10.
Qed.

(** X4: an input that fails validation makes [add_points] raise the
    fault of the validation; the registry, the metadata, the lattice and
    the mean depth are as before the call, and the rejected input stays
    staged in [data]. *)
Theorem add_points_rejected_input g d name fl crs vr e :
  snd (_validate_input_data (set_data (compute d) g)) = Raise e →
  ∃ g', add_points d name fl crs vr g = (g', Raise e)
        ∧ data g' = compute d
        ∧ container g' = container g
        ∧ tiles g' = tiles g
        ∧ mean_depth g' = mean_depth g
        ∧ epsg g' = epsg g
        ∧ vertical_reference g' = vertical_reference g.
Proof.
  intros Hv.
  destruct (_validate_input_data_failure _ e Hv) as (Hd & Ht & Hm & Hc & He & Hr).
  exists (fst (_validate_input_data (set_data (compute d) g))).
  split; [|repeat split; assumption].
  unfold add_points, bind, modify.
  destruct (_validate_input_data (set_data (compute d) g)) as [g1 r1].
  simpl in Hv. subst r1. reflexivity.
Qed.

End Validation.

Import MoreExamples.

Lemma layernames_after_validation_witness :
  "depth" ∈ layernames (fst (_validate_input_data
                               (set_data smalldata (SRGrid_init 0 0 1024))))
  ↔ ("depth" = "depth" ∧ "z" ∈ ["x"; "y"; "z"])
    ∨ ("depth" = "vertical_uncertainty" ∧ "tvu" ∈ ["x"; "y"; "z"]).
Proof.
  apply (layernames_after_validation
           (set_data smalldata (SRGrid_init 0 0 1024))
           (NumpyArray (Structured [("x", [0; 100; 900]); ("y", [0; 100; 900]);
                                    ("z", [20; 25; 30])])) "depth").
  - discriminate.
  - reflexivity.
  - reflexivity.
Defined.

Lemma add_points_rejected_input_witness :
  ∃ g', add_points no_y_array "test3" None (Some 26917%Z) None surveyed
        = (g', Raise InvalidInputFault)
        ∧ data g' = compute no_y_array
        ∧ container g' = container surveyed
        ∧ tiles g' = tiles surveyed
        ∧ mean_depth g' = mean_depth surveyed
        ∧ epsg g' = epsg surveyed
        ∧ vertical_reference g' = vertical_reference surveyed.
Proof.
  apply (add_points_rejected_input surveyed no_y_array "test3" None
           (Some 26917%Z) None InvalidInputFault).
  vm_compute. reflexivity.
Defined.

(** A dataset whose depths are a coordinate is accepted and converted
    with its depths, but ['depth'] is not among its layer names. *)
Example depth_as_coordinate_gives_no_layer :
  let g := fst (_validate_input_data
                  (set_data (Some depth_as_coordinate) (SRGrid_init 0 0 1024))) in
  ("z" ∉ input_fields depth_as_coordinate)
  ∧ get_field depth_as_coordinate "z" = Ok [20; 30]
  ∧ layernames g = []
  ∧ (match data g with
     | Some d => get_field d "z"
     | None => Raise KeyError
     end) = Ok [20; 30].
Proof.
  split; [|vm_compute; repeat split; reflexivity].
  cbn. intros Hin.
  repeat (apply elem_of_cons in Hin as [Hin|Hin]; [discriminate Hin|]).
  apply elem_of_nil in Hin. exact Hin.
Qed.

(** ** Metadata and registry *)

Section MetadataKept.
Context `{TileIface} `{!BaseGridOps} `{!Utilities} {S : Type} `{!SlotOps S}.
Implicit Type g : BathyGrid S.

Lemma same_metadata_refl g : same_metadata g g.
Proof. split; reflexivity. Qed.

Lemma same_metadata_trans g1 g2 g3 :
  same_metadata g1 g2 → same_metadata g2 g3 → same_metadata g1 g3.
Proof. intros [? ?] [? ?]. split; congruence. Qed.

Lemma on_base_metadata {A} (m : M lattice A) g :
  same_metadata g (fst (on_base m g)).
Proof. unfold on_base. destruct (m (base g)). split; reflexivity. Qed.

Lemma _update_base_grid_metadata g : same_metadata g (fst (_update_base_grid g)).
Proof.
  unfold _update_base_grid.
  destruct (data g) as [d|]; [|apply same_metadata_refl].
  destruct (is_empty g), (can_grow (base g)).
  all: try apply on_base_metadata.
  all: try apply same_metadata_refl.
  all: destruct (data_bounds d) as [[[[ymin xmin] ymax] xmax]|e].
  all: try apply on_base_metadata.
  all: apply same_metadata_refl.
Qed.

Lemma _add_points_to_tiles_metadata name g :
  same_metadata g (fst (_add_points_to_tiles name g))
  ∧ base (fst (_add_points_to_tiles name g)) = base g.
Proof.
  unfold _add_points_to_tiles.
  destruct (data g) as [d|]; [|split; [apply same_metadata_refl|reflexivity]].
  destruct (get_field d "x") as [xs|e];
    [|split; [apply same_metadata_refl|reflexivity]].
  destruct (get_field d "y") as [ys|e];
    [|split; [apply same_metadata_refl|reflexivity]].
  destruct (bin2d_with_indices _ _ _ _) as [binnum|e];
    [|split; [apply same_metadata_refl|reflexivity]].
  destruct (tiles g) as [flat_tiles|];
    [|split; [apply same_metadata_refl|reflexivity]].
  destruct (for_each _ _ _) as [flat_tiles' r].
  split; [split|]; reflexivity.
Qed.

Lemma _update_tiles_metadata name g :
  same_metadata g (fst (_update_tiles name g))
  ∧ base (fst (_update_tiles name g)) = base g.
Proof.
  unfold _update_tiles.
  destruct (data g) as [d|]; [|split; [apply same_metadata_refl|reflexivity]].
  destruct (is_empty g).
  - apply (_add_points_to_tiles_metadata name (set_tiles _ g)).
  - destruct (can_grow (base g)).
    + destruct (np_mask_assign _ _ _) as [new_tiles|e];
        [|split; [apply same_metadata_refl|reflexivity]].
      apply (_add_points_to_tiles_metadata name (set_tiles _ g)).
    + apply _add_points_to_tiles_metadata.
Qed.

Lemma _update_mean_depth_metadata g :
  same_metadata g (fst (_update_mean_depth g))
  ∧ base (fst (_update_mean_depth g)) = base g.
Proof.
  unfold _update_mean_depth.
  destruct (data g) as [d|]; [|split; [split|]; reflexivity].
  destruct (get_field d "z") as [z|e]; [|split; [split|]; reflexivity].
  destruct (negb (np_any z)); split; try split; reflexivity.
Qed.

(** Established metadata passes through [_update_metadata] unchanged,
    whether it returns or raises. *)
Lemma _update_metadata_keeps name fl crs vr g :
  (truthy_int (epsg g) = true →
   epsg (fst (_update_metadata name fl crs vr g)) = epsg g)
  ∧ (truthy_str (vertical_reference g) = true →
     vertical_reference (fst (_update_metadata name fl crs vr g))
     = vertical_reference g).
Proof.
  unfold _update_metadata.
  destruct (cls g); [split; reflexivity| |].
  all: destruct fl as [[|f fl]|]; cbn [epsg vertical_reference set_container].
  all: destruct (truthy_int (epsg g)) eqn:Hti; cbn [negb].
  all: destruct crs as [e|]; cbn [py_int].
  all: try (split; intros; reflexivity).
  all: try (destruct (bool_decide (epsg g = Some e)) eqn:He; cbn [negb];
            [apply bool_decide_eq_true_1 in He|split; intros; reflexivity]).
  all: destruct (truthy_str (vertical_reference g)) eqn:Hts; cbn [andb].
  all: try (destruct (bool_decide (vertical_reference g = vr)) eqn:Hv; cbn [negb];
            [apply bool_decide_eq_true_1 in Hv|split; intros; reflexivity]).
  all: split; intros Ht; cbn; congruence.
Qed.

(** The steps after the metadata update touch neither metadata nor
    registry. *)
Lemma add_points_after_metadata name g1 :
  let g' := fst (bind _update_base_grid (fun _ =>
                 bind (_update_tiles name) (fun _ =>
                 bind _update_mean_depth (fun _ =>
                 modify (set_data None)))) g1) in
  same_metadata g1 g' ∧ container g' = container g1.
Proof.
  unfold bind, modify.
  pose proof (_update_base_grid_metadata g1) as Hm1.
  destruct (_update_base_grid_frame g1) as [(_ & Hc1 & _) _].
  destruct (_update_base_grid g1) as [g2 [[]|e]]; cbn in *; [|split; assumption].
  destruct (_update_tiles_metadata name g2) as [Hm2 _].
  destruct (_update_tiles_frame name g2) as (_ & Hc2 & _).
  destruct (_update_tiles name g2) as [g3 [[]|e]]; cbn in *;
    [|split; [eapply same_metadata_trans; eassumption|congruence]].
  destruct (_update_mean_depth_metadata g3) as [Hm3 _].
  destruct (_update_mean_depth_frame g3) as (_ & Hc3 & _).
  destruct (_update_mean_depth g3) as [g4 [[]|e]]; cbn in *.
  - split; [|congruence].
    eapply same_metadata_trans; [exact Hm1|].
    eapply same_metadata_trans; [exact Hm2|]. exact Hm3.
  - split; [|congruence].
    eapply same_metadata_trans; [exact Hm1|].
    eapply same_metadata_trans; [exact Hm2|]. exact Hm3.
Qed.

(** [add_points], as far as the metadata update. *)
Lemma add_points_steps d name fl crs vr g :
  add_points d name fl crs vr g
  = match _validate_input_data (set_data (compute d) g) with
    | (g1, Ok _) =>
        match _update_metadata name fl crs vr g1 with
        | (g2, Ok _) =>
            bind _update_base_grid (fun _ =>
            bind (_update_tiles name) (fun _ =>
            bind _update_mean_depth (fun _ =>
            modify (set_data None)))) g2
        | (g2, Raise e) => (g2, Raise e)
        end
    | (g1, Raise e) => (g1, Raise e)
    end.
Proof.
  unfold add_points. unfold bind at 1 2 3. unfold modify at 1.
  destruct (_validate_input_data (set_data (compute d) g)) as [g1 [[]|e]];
    [|reflexivity].
  destruct (_update_metadata name fl crs vr g1) as [g2 [[]|e]]; reflexivity.
Qed.

(** X5: a coordinate system (a non-zero [epsg]) and a vertical
    reference (a non-empty string), once established, are never changed
    by [add_points], whether the call returns or raises. *)
Theorem established_metadata_is_kept g d name fl crs vr :
  (truthy_int (epsg g) = true →
   epsg (fst (add_points d name fl crs vr g)) = epsg g)
  ∧ (truthy_str (vertical_reference g) = true →
     vertical_reference (fst (add_points d name fl crs vr g))
     = vertical_reference g).
Proof.
  rewrite add_points_steps.
  set (g0 := set_data (compute d) g).
  destruct (_validate_input_data_frame g0) as (_ & _ & He1 & Hv1).
  destruct (_validate_input_data g0) as [g1 r1]. cbn in He1, Hv1.
  destruct r1 as [[]|e]; [|cbn; split; intros _; [exact He1|exact Hv1]].
  pose proof (_update_metadata_keeps name fl crs vr g1) as [He2 Hv2].
  destruct (_update_metadata name fl crs vr g1) as [g2 r2]. cbn in He2, Hv2.
  destruct r2 as [[]|e].
  - destruct (add_points_after_metadata name g2) as [[He3 Hv3] _].
    cbv zeta in He3, Hv3. split; intros Ht.
    + rewrite He3. rewrite He2 by (rewrite He1; exact Ht). exact He1.
    + rewrite Hv3. rewrite Hv2 by (rewrite Hv1; exact Ht). exact Hv1.
  - cbn. split; intros Ht.
    + rewrite He2 by (rewrite He1; exact Ht). exact He1.
    + rewrite Hv2 by (rewrite Hv1; exact Ht). exact Hv1.
Qed.

(** The registry after [remove_points], in every case. *)
Lemma remove_points_registry name g :
  container (fst (remove_points name g)) = delete name (container g).
Proof.
  unfold remove_points.
  destruct (container g !! name) as [fl|] eqn:Hn;
    [|symmetry; apply delete_id; exact Hn].
  set (g1 := set_container (delete name (container g)) g).
  destruct (negb (is_empty g1)).
  - destruct (remove_loop name (default [] (tiles g1))) as [flat_tiles [[]|e]];
      cbn; [|reflexivity].
    match goal with |- context [if ?c then _ else _] => destruct c end;
      reflexivity.
  - destruct (is_empty g1); reflexivity.
Qed.

(** The registry after a metadata update that returns. *)
Lemma _update_metadata_registry name fl crs vr g :
  cls g ≠ BathyGridC →
  container (fst (_update_metadata name fl crs vr g))
  = <[name := registry_entry fl]> (container g).
Proof.
  intros Hc. unfold _update_metadata.
  destruct (cls g); [congruence| |].
  all: destruct fl as [[|f fl]|]; cbn [registry_entry].
  all: repeat match goal with
         | |- context [if ?c then _ else _] => destruct c; cbn
         | |- context [match py_int ?v with _ => _ end] =>
             destruct (py_int v); cbn
         end.
  all: reflexivity.
Qed.

(** X6: when [add_points] returns on an [SRGrid] or [VRGridTile], the
    registry is the one before the call with the container's entry
    written over it (the file list, or ['Unknown'] for none), and a
    [remove_points] of that container then leaves the registry of before
    the call, less that container. *)
Theorem add_points_then_remove_points_registry g d name fl crs vr g' :
  cls g ≠ BathyGridC →
  add_points d name fl crs vr g = (g', Ok tt) →
  container g' = <[name := registry_entry fl]> (container g)
  ∧ container (fst (remove_points name g')) = delete name (container g).
Proof.
  intros Hc Hadd.
  assert (Hreg : container g' = <[name := registry_entry fl]> (container g)).
  { revert Hadd. rewrite add_points_steps.
    set (g0 := set_data (compute d) g).
    destruct (_validate_input_data_frame g0) as (Hk1 & Hc1 & _).
    destruct (_validate_input_data g0) as [g1 r1]. cbn in Hk1, Hc1.
    destruct r1 as [[]|e]; [|discriminate].
    assert (Hc1' : cls g1 ≠ BathyGridC) by (rewrite Hk1; exact Hc).
    pose proof (_update_metadata_registry name fl crs vr g1 Hc1') as Hc2.
    destruct (_update_metadata name fl crs vr g1) as [g2 r2]. cbn in Hc2.
    destruct r2 as [[]|e]; [|discriminate].
    destruct (add_points_after_metadata name g2) as [_ Hc3]. cbv zeta in Hc3.
    intros Hadd. rewrite Hadd in Hc3. cbn in Hc3.
    rewrite Hc3, Hc2, Hc1. reflexivity. }
  split; [exact Hreg|].
  rewrite remove_points_registry, Hreg. apply delete_insert_eq.
Qed.

End MetadataKept.

Lemma established_metadata_is_kept_witness :
  epsg (fst (add_points fardata "test2" None (Some 4326%Z) (Some "waterline")
                        surveyed))
  = epsg surveyed.
Proof.
  apply (proj1 (established_metadata_is_kept surveyed fardata "test2" None
                  (Some 4326%Z) (Some "waterline"))).
  vm_compute. reflexivity.
Defined.

Lemma add_points_then_remove_points_registry_witness :
  container surveyed = <[ "test1" := ["line1"] ]> ∅
  ∧ container (fst (remove_points "test1" surveyed)) = delete "test1" ∅.
Proof.
  apply (add_points_then_remove_points_registry (SRGrid_init 0 0 1024) smalldata
           "test1" (Some ["line1"]) (Some 26917%Z) (Some "waterline") surveyed).
  - discriminate.
  - unfold surveyed.
    destruct (add_points smalldata "test1" (Some ["line1"]) (Some 26917%Z)
                         (Some "waterline") (SRGrid_init 0 0 1024))
      as [g' [[]|e]] eqn:Hrun; [reflexivity|].
    apply (f_equal snd) in Hrun. vm_compute in Hrun. discriminate.
Defined.

(** ** The lattice *)

Lemma insert_unique_elem (z a : Z) (l : list Z) :
  a ∈ insert_unique z l ↔ a = z ∨ a ∈ l.
Proof.
  induction l as [|b l IH]; simpl.
  - rewrite list_elem_of_singleton. split; [auto|intros [?|Hin]; [auto|inversion Hin]].
  - destruct (Z.ltb_spec z b).
    + rewrite !elem_of_cons. tauto.
    + destruct (Z.eqb_spec z b) as [->|Hne].
      * rewrite !elem_of_cons. tauto.
      * rewrite !elem_of_cons, IH. tauto.
Qed.

(** [np_unique] has the elements of its argument. *)
Lemma np_unique_elem (a : Z) (l : list Z) : a ∈ np_unique l ↔ a ∈ l.
Proof.
  unfold np_unique. induction l as [|b l IH]; simpl; [reflexivity|].
  rewrite insert_unique_elem, IH, elem_of_cons. reflexivity.
Qed.

Section Lattice.
Context `{TileIface} `{!BaseGridOps} `{!Utilities} {S : Type} `{!SlotOps S}.
Implicit Type g : BathyGrid S.

(** One round of placing points writes one slot at most, the one its
    index denotes. *)
Lemma place_points_slots g d binnum name ul (l : list (option S)) :
  length (fst (place_points g d binnum name ul l)) = length l
  ∧ ∀ i, np_index (length l) ul ≠ Ok i →
         fst (place_points g d binnum name ul l) !! i = l !! i.
Proof.
  unfold place_points.
  destruct (select_rows d _) as [pts|e]; [|split; [reflexivity|intros; reflexivity]].
  destruct (np_index (length l) ul) as [k|e];
    [|split; [reflexivity|intros; reflexivity]].
  match goal with
  | |- context [match ?b with Ok _ => _ | Raise _ => _ end] =>
      destruct b as [t|e]
  end; [|split; [reflexivity|intros; reflexivity]].
  destruct (slot_add_points pts name t) as [t' [[]|e]]; cbn [fst].
  - destruct (slot_is_empty t'); cbn [fst]; split;
      try apply length_insert.
    all: intros i Hi; apply list_lookup_insert_ne; congruence.
  - split; [apply length_insert|].
    intros i Hi. apply list_lookup_insert_ne. congruence.
Qed.

Lemma for_each_place_points_slots g d binnum name locs (l : list (option S)) :
  length (fst (for_each locs (place_points g d binnum name) l)) = length l
  ∧ ∀ i, (∀ ul, ul ∈ locs → np_index (length l) ul ≠ Ok i) →
         fst (for_each locs (place_points g d binnum name) l) !! i = l !! i.
Proof.
  revert l. induction locs as [|ul locs IH]; intros l.
  - split; [reflexivity|intros; reflexivity].
  - cbn [for_each]. unfold bind.
    destruct (place_points_slots g d binnum name ul l) as [Hlen Hsame].
    destruct (place_points g d binnum name ul l) as [l1 [[]|e]]; cbn [fst] in *.
    + destruct (IH l1) as [Hlen1 Hsame1]. split; [congruence|].
      intros i Hi. rewrite Hsame1.
      * apply Hsame. apply Hi. left.
      * intros ul' Hin. rewrite Hlen. apply Hi. right. exact Hin.
    + split; [exact Hlen|]. intros i Hi. apply Hsame. apply Hi. left.
Qed.

(** X7: [_add_points_to_tiles] leaves alone every slot that no point of
    the staged data is binned to, and never changes the number of slots. *)
Theorem _add_points_to_tiles_untouched name g d xs ys binnum i :
  data g = Some d → get_field d "x" = Ok xs → get_field d "y" = Ok ys →
  bin2d_with_indices xs ys (tile_edges_x (base g)) (tile_edges_y (base g))
  = Ok binnum →
  (∀ ul, ul ∈ binnum → np_index (length (default [] (tiles g))) ul ≠ Ok i) →
  length (default [] (tiles (fst (_add_points_to_tiles name g))))
  = length (default [] (tiles g))
  ∧ default [] (tiles (fst (_add_points_to_tiles name g))) !! i
    = default [] (tiles g) !! i.
Proof.
  intros Hd Hx Hy Hb Hi. unfold _add_points_to_tiles.
  rewrite Hd, Hx, Hy, Hb.
  destruct (tiles g) as [l|] eqn:Ht; cbn [from_option id] in *;
    [|cbn [fst]; rewrite Ht; split; reflexivity].
  destruct (for_each_place_points_slots g d binnum name (np_unique binnum) l)
    as [Hlen Hsame].
  destruct (for_each _ _ l) as [l' r]. cbn [fst tiles set_tiles from_option id] in *.
  split; [exact Hlen|]. apply Hsame.
  intros ul Hin. apply Hi. apply np_unique_elem. exact Hin.
Qed.

(** The slots the loop of [remove_points] leaves occupied were occupied. *)
Lemma remove_loop_slots name (l : list (option S)) :
  length (fst (remove_loop name l)) = length l
  ∧ ∀ i, l !! i = Some None → fst (remove_loop name l) !! i = Some None.
Proof.
  induction l as [|[t|] l [IHlen IHnone]]; cbn [remove_loop].
  - split; [reflexivity|intros; assumption].
  - destruct (slot_remove_points name t) as [t' [[]|e]].
    + destruct (remove_loop name l) as [l' r]. cbn [fst] in *.
      split; [cbn; congruence|].
      intros [|i] Hi; [discriminate|]. cbn in *. apply IHnone. exact Hi.
    + cbn [fst]. split; [reflexivity|].
      intros [|i] Hi; [discriminate|exact Hi].
  - destruct (remove_loop name l) as [l' r]. cbn [fst] in *.
    split; [cbn; congruence|].
    intros [|i] Hi; [reflexivity|]. cbn in *. apply IHnone. exact Hi.
Qed.

(** X8: [remove_points] never fills a slot: whatever it returns or
    raises, the lattice is released or has as many slots as before, and
    every slot that was empty is still empty. *)
Theorem remove_points_fills_no_slot name g :
  tiles (fst (remove_points name g)) = None
  ∨ ∃ l l', tiles g = Some l ∧ tiles (fst (remove_points name g)) = Some l'
            ∧ length l' = length l
            ∧ ∀ i, l !! i = Some None → l' !! i = Some None.
Proof.
  unfold remove_points.
  destruct (container g !! name) as [fl|].
  - set (g1 := set_container (delete name (container g)) g).
    destruct (is_empty g1) eqn:He; cbn [negb].
    + rewrite He. left. reflexivity.
    + assert (Ht : ∃ l, tiles g = Some l).
      { unfold is_empty in He. change (tiles g1) with (tiles g) in He.
        destruct (tiles g) as [l|]; [exists l; reflexivity|discriminate]. }
      destruct Ht as [l Ht]. change (tiles g1) with (tiles g). rewrite Ht.
      cbn [from_option id].
      destruct (remove_loop_slots name l) as [Hlen Hnone].
      destruct (remove_loop name l) as [l' [[]|e]]; cbn [fst] in *;
        cbv beta iota zeta.
      * match goal with |- context [if ?c then _ else _] => destruct c end.
        -- left. reflexivity.
        -- right. exists l, l'. repeat split; assumption.
      * right. exists l, l'. repeat split; assumption.
  - destruct (tiles g) as [l|] eqn:Ht; [|left; exact Ht].
    right. exists l, l. repeat split; [exact Ht|]. intros; assumption.
Qed.

End Lattice.

Import MoreExamples.

Lemma _add_points_to_tiles_untouched_witness :
  let g := set_data smalldata two_containers in
  length (default [] (tiles (fst (_add_points_to_tiles "test1" g))))
  = length (default [] (tiles g))
  ∧ default [] (tiles (fst (_add_points_to_tiles "test1" g))) !! 24%nat
    = default [] (tiles g) !! 24%nat.
Proof.
  apply (_add_points_to_tiles_untouched "test1" (set_data smalldata two_containers)
           (NumpyArray (Structured [("x", [0; 100; 900]); ("y", [0; 100; 900]);
                                    ("z", [20; 25; 30])]))
           [0; 100; 900] [0; 100; 900] [0; 0; 0]%Z 24%nat).
  - reflexivity.
  - reflexivity.
  - reflexivity.
  - vm_compute. reflexivity.
  - intros ul Hin.
    assert (Hul : ul = 0%Z).
    { repeat (apply elem_of_cons in Hin as [Hin|Hin]; [exact Hin|]).
      inversion Hin. }
    subst ul. vm_compute. discriminate.
Defined.

(** ** Gridding *)

Section Gridding.
Context `{TileIface} `{!BaseGridOps} `{!Utilities} {S : Type} `{!SlotOps S}.
Implicit Type g : BathyGrid S.

Lemma regular_loop_occupied alg ce cnt (slots : list (option S)) res found :
  map occupied (fst (fst (fst (regular_loop alg ce cnt slots res found))))
  = map occupied slots.
Proof.
  revert cnt res found.
  induction slots as [|[t|] slots IH]; intros cnt res found; cbn [regular_loop].
  - reflexivity.
  - destruct (slot_grid alg res ce t) as [t' [r|e]].
    + specialize (IH (Datatypes.S cnt) r
                     (if Qmem r found then found else found ++ [r])).
      destruct (regular_loop _ _ _ slots _ _) as [[[rest' found'] calls] o].
      cbn in *. rewrite IH. reflexivity.
    + reflexivity.
  - specialize (IH (Datatypes.S cnt) res found).
    destruct (regular_loop _ _ _ slots _ _) as [[[rest' found'] calls] o].
    cbn in *. rewrite IH. reflexivity.
Qed.

Lemma fill_mask_occupied (arr vals : list (option S)) b :
  Forall (fun v => occupied v = true) vals →
  map occupied (fill_mask arr (map occupied arr) vals b) = map occupied arr.
Proof.
  revert vals. induction arr as [|[t|] arr IH]; intros vals Hv; cbn.
  - reflexivity.
  - destruct Hv as [|v vals Hv Hvals]; cbn.
    + rewrite IH by constructor. reflexivity.
    + rewrite Hv. destruct b.
      * rewrite IH by (constructor; assumption). reflexivity.
      * rewrite IH by assumption. reflexivity.
  - rewrite IH by assumption. reflexivity.
Qed.

(** X9: [grid] neither fills nor empties a slot, in serial as in
    parallel mode and whether it returns or raises; nor does it touch the
    registry, the mean depth or the lattice geometry. *)
Theorem grid_keeps_occupancy alg res ce use_dask g :
  occupancy (fst (grid alg res ce use_dask g)) = occupancy g
  ∧ container (fst (grid alg res ce use_dask g)) = container g
  ∧ mean_depth (fst (grid alg res ce use_dask g)) = mean_depth g
  ∧ base (fst (grid alg res ce use_dask g)) = base g.
Proof.
  unfold grid.
  destruct (is_empty g); [repeat split|].
  destruct (match res with
            | Some r => Ok r
            | None => _calculate_resolution (mean_depth g)
            end) as [r|e]; [|repeat split].
  destruct use_dask.
  - unfold _grid_parallel. cbv zeta.
    set (g0 := match client g with
               | Some _ => g
               | None => set_client (Some dask_find_or_start_client) g
               end).
    assert (Hg0 : tiles g0 = tiles g ∧ container g0 = container g
                  ∧ mean_depth g0 = mean_depth g ∧ base g0 = base g).
    { unfold g0. destruct (client g); repeat split. }
    destruct Hg0 as (Ht & Hc & Hm & Hb). clearbody g0.
    unfold occupancy.
    destruct (tiles g0) as [slots|] eqn:Hs;
      [|cbn; rewrite Hs, Ht; repeat split; assumption].
    destruct (gather _) as [results|e];
      [|cbn; rewrite Hs, <- Ht; repeat split; assumption].
    destruct (np_mask_assign _ _ _) as [slots'|e] eqn:Hma;
      [|cbn; rewrite Hs, <- Ht; repeat split; assumption].
    cbn. rewrite <- Ht. cbn. repeat split; try assumption.
    unfold np_mask_assign in Hma.
    repeat match type of Hma with
           | (if ?c then _ else _) = _ => destruct c; try discriminate
           end.
    all: injection Hma as <-.
    all: apply fill_mask_occupied.
    all: apply Forall_forall; intros v Hv.
    all: apply list_elem_of_fmap in Hv as (x & -> & _); reflexivity.
  - unfold _grid_regular. cbv zeta. unfold occupancy.
    change (tiles (set_resolutions [] g)) with (tiles g).
    destruct (tiles g) as [slots|] eqn:Hs; [|cbn; rewrite Hs; repeat split].
    pose proof (regular_loop_occupied alg ce 0 slots r []) as Hocc.
    destruct (regular_loop alg ce 0 slots r []) as [[[slots' found] calls] [[]|e]];
      cbn in *; repeat split; exact Hocc.
Qed.

End Gridding.

Section SerialParallel.
Context `{TileIface} `{!BaseGridOps} `{!Utilities} {S : Type} `{!SlotOps S}.
Implicit Type g : BathyGrid S.

Lemma Qmem_refl (r : Q) (l : list Q) : Qmem r (l ++ [r]) = true.
Proof.
  unfold Qmem. rewrite existsb_app. cbn. unfold Qeqb.
  rewrite (proj2 (Qeq_bool_iff r r) (Qeq_refl r)). apply orb_true_r.
Qed.

Lemma recorded_idem r found any :
  recorded r (if Qmem r found then found else found ++ [r]) any
  = (if Qmem r found then found else found ++ [r]).
Proof.
  unfold recorded. destruct any; [|reflexivity].
  destruct (Qmem r found) eqn:Hm; [rewrite Hm; reflexivity|].
  rewrite Qmem_refl. reflexivity.
Qed.

(** The serial loop, when every slot reports the resolution it is
    handed and the loop ends well. *)
Lemma regular_loop_echo alg ce cnt (slots : list (option S)) res found
      slots' found' calls :
  Forall (reports_what_it_is_handed alg ce) slots →
  regular_loop alg ce cnt slots res found = (slots', found', calls, Ok tt) →
  slots' = map (gridded_at alg res ce) slots
  ∧ found' = recorded res found (existsb occupied slots)
  ∧ Forall (fun t => snd (slot_grid alg res ce t) = Ok res) (occupants slots).
Proof.
  intros Hecho. revert cnt found slots' found' calls.
  induction Hecho as [|s slots Hs _ IH]; intros cnt found slots' found' calls;
    cbn [regular_loop].
  - intros Heq. injection Heq as <- <- _. repeat split. constructor.
  - destruct s as [t|].
    + destruct (slot_grid alg res ce t) as [t' [r|e]] eqn:Hg.
      * assert (Hr : r = res) by (apply (Hs res r); rewrite Hg; reflexivity).
        subst r.
        destruct (regular_loop alg ce (Datatypes.S cnt) slots res _)
          as [[[rest' found1] calls1] o] eqn:Hloop.
        intros Heq. injection Heq as <- <- _ ->.
        destruct (IH _ _ _ _ _ Hloop) as (Hrest & Hfound & Hall).
        split; [cbn; rewrite Hg, Hrest; reflexivity|]. split.
        -- rewrite Hfound, recorded_idem. reflexivity.
        -- cbn. constructor; [rewrite Hg; reflexivity|exact Hall].
      * intros Heq. discriminate.
    + destruct (regular_loop alg ce (Datatypes.S cnt) slots res found)
        as [[[rest' found1] calls1] o] eqn:Hloop.
      intros Heq. injection Heq as <- <- _ ->.
      destruct (IH _ _ _ _ _ Hloop) as (Hrest & Hfound & Hall).
      split; [cbn; rewrite Hrest; reflexivity|]. split; assumption.
Qed.

Lemma jobs_of_occupants alg res ce (slots : list (option S)) :
  jobs_of alg res ce slots = map (fun t => (t, alg, res, ce)) (occupants slots).
Proof.
  unfold jobs_of, occupants.
  induction slots as [|[t|] slots IH]; cbn; [reflexivity| |exact IH].
  rewrite IH. reflexivity.
Qed.

(** What [gather] returns when every job ends well with resolution [res]. *)
Lemma gather_echo alg res ce (ts : list S) :
  Forall (fun t => snd (slot_grid alg res ce t) = Ok res) ts →
  gather (map (fun t => (t, alg, res, ce)) ts)
  = Ok (map (fun t => (res, fst (slot_grid alg res ce t))) ts).
Proof.
  induction 1 as [|t ts Ht _ IH]; cbn [map gather]; [reflexivity|].
  unfold _gridding_parallel.
  destruct (slot_grid alg res ce t) as [t' r]. cbn in Ht. subst r.
  rewrite IH. reflexivity.
Qed.

(** Writing the gridded occupants back through the mask of the occupied
    slots grids every slot in place. *)
Lemma fill_mask_gridded (f : S → S) (slots : list (option S)) :
  fill_mask slots (map occupied slots) (map (fun t => Some (f t)) (occupants slots))
            false
  = map (fun s => match s with Some t => Some (f t) | None => None end) slots.
Proof.
  induction slots as [|[t|] slots IH]; cbn; [reflexivity| |].
  - f_equal. exact IH.
  - f_equal. exact IH.
Qed.

Lemma count_true_occupied (slots : list (option S)) :
  count_true (map occupied slots) = length (occupants slots).
Proof.
  unfold count_true, occupants.
  induction slots as [|[t|] slots IH]; [reflexivity| |].
  - change (map occupied (Some t :: slots)) with (true :: map occupied slots).
    rewrite filter_cons_True by reflexivity.
    cbn [length omap list_omap]. rewrite IH. reflexivity.
  - change (map occupied (None :: slots)) with (false :: map occupied slots).
    rewrite filter_cons_False by discriminate. exact IH.
Qed.

Lemma np_sort_unique_repeat (r : Q) (ts : list S) :
  np_sort_unique (map (fun _ => r) ts)
  = if existsb (fun _ => true) ts then [r] else [].
Proof.
  unfold np_sort_unique.
  induction ts as [|t ts IH]; cbn; [reflexivity|].
  rewrite IH. destruct (existsb (fun _ => true) ts); cbn; [|reflexivity].
  unfold Qgtb, Qeqb.
  rewrite (proj2 (Qle_bool_iff r r) (Qle_refl r)).
  rewrite (proj2 (Qeq_bool_iff r r) (Qeq_refl r)). reflexivity.
Qed.

Lemma existsb_occupants (slots : list (option S)) :
  existsb (fun _ => true) (occupants slots) = existsb occupied slots.
Proof.
  unfold occupants. induction slots as [|[t|] slots IH]; cbn; auto.
Qed.

(** X10: when every slot reports the resolution it is handed, a serial
    gridding that returns is matched by the parallel one: it returns as
    well, and leaves the same tiles in the lattice and the same
    resolutions on record. *)
Theorem serial_and_parallel_agree alg res ce g slots g1 calls :
  tiles g = Some slots →
  Forall (reports_what_it_is_handed alg ce) slots →
  _grid_regular alg res ce g = (g1, Ok calls) →
  ∃ g2 trace, _grid_parallel alg res ce g = (g2, Ok trace)
              ∧ tiles g2 = tiles g1
              ∧ resolutions g2 = resolutions g1.
Proof.
  intros Ht Hecho. unfold _grid_regular. cbv zeta.
  change (tiles (set_resolutions [] g)) with (tiles g). rewrite Ht.
  destruct (regular_loop alg ce 0 slots res []) as [[[slots' found] calls'] o]
    eqn:Hloop.
  destruct o as [[]|e]; [|discriminate].
  intros Heq. injection Heq as <- _.
  destruct (regular_loop_echo _ _ _ _ _ _ _ _ _ Hecho Hloop)
    as (Hslots & Hfound & Hall).
  unfold _grid_parallel. cbv zeta.
  set (g0 := match client g with
             | Some _ => g
             | None => set_client (Some dask_find_or_start_client) g
             end).
  assert (Ht0 : tiles g0 = Some slots) by (unfold g0; destruct (client g); exact Ht).
  rewrite Ht0.
  set (n := match client g0 with Some c => n_workers c | None => 0%nat end).
  destruct (dispatch_all_batches n alg res ce slots) as [(Hcat & _) _].
  pose proof (gather_echo alg res ce _ Hall) as Hg.
  rewrite <- jobs_of_occupants, <- Hcat in Hg.
  eexists _, _. unfold job. rewrite Hg.
  unfold np_mask_assign.
  rewrite !length_map, Nat.eqb_refl. cbn [negb].
  change (map (fun s : option S => match s with
                                   | Some _ => true
                                   | None => false
                                   end) slots) with (map occupied slots).
  rewrite count_true_occupied, Nat.eqb_refl.
  rewrite !map_map. cbn [fst snd].
  rewrite (fill_mask_gridded (fun t => fst (slot_grid alg res ce t)) slots).
  split; [reflexivity|]. split.
  - cbn. rewrite Hslots. reflexivity.
  - cbn. rewrite np_sort_unique_repeat, existsb_occupants, Hfound.
    unfold recorded. destruct (existsb occupied slots); cbn; [|reflexivity].
    unfold Qgtb, Qeqb. reflexivity.
Qed.

End SerialParallel.

(** Every slot of the reference lattice reports the resolution it is
    handed: a leaf tile by its gridding, a nested grid because [grid]
    returns the resolution it was called with. *)
Lemma reference_slots_echo alg ce (s : option slot) :
  reports_what_it_is_handed alg ce s.
Proof.
  destruct s as [[t|g]|]; cbn [reports_what_it_is_handed]; [| |exact I].
  - intros r r'. cbn. intros Heq. injection Heq as <-. reflexivity.
  - intros r r'. cbn [slot_grid slot_ops].
    destruct (grid alg (Some r) ce false g) as [g' o] eqn:Hg. cbn [snd].
    intros ->. unfold grid in Hg.
    destruct (is_empty g); [discriminate|].
    destruct (_grid_regular alg r ce g) as [g1 [calls|e]];
      injection Hg as _ Hr; congruence.
Qed.

Lemma serial_and_parallel_agree_witness :
  ∃ g2 trace, _grid_parallel "mean" 8 false two_containers = (g2, Ok trace)
              ∧ tiles g2 = tiles (fst (_grid_regular "mean" 8 false two_containers))
              ∧ resolutions g2
                = resolutions (fst (_grid_regular "mean" 8 false two_containers)).
Proof.
  destruct (tiles two_containers) as [slots|] eqn:Ht;
    [|apply (f_equal is_some) in Ht; vm_compute in Ht; discriminate].
  destruct (_grid_regular "mean" 8 false two_containers) as [g1 [calls|e]] eqn:Hr;
    [|apply (f_equal (fun p => is_ok (snd p))) in Hr; vm_compute in Hr;
      discriminate].
  apply (serial_and_parallel_agree "mean" 8 false two_containers slots g1 calls Ht);
    [|exact Hr].
  apply Forall_forall. intros s _. apply reference_slots_echo.
Defined.
(** ** Reading layers *)

Section Layers.
Context `{TileIface} `{!BaseGridOps} `{!Utilities} {S : Type} `{!SlotOps S}.
Implicit Type g : BathyGrid S.

(** Picking a resolution twice picks the same one. *)
Lemma pick_resolution_idem g resolution r :
  pick_resolution g resolution = Ok r → pick_resolution g (Some r) = Ok r.
Proof.
  unfold pick_resolution.
  assert (Hdefault :
    (if Nat.ltb 1 (length (resolutions g)) then Raise AmbiguousResolutionFault
     else match resolutions g with r0 :: _ => Ok r0 | [] => Raise IndexError end)
    = Ok r →
    (if negb (Qeqb r 0) then Ok r
     else if Nat.ltb 1 (length (resolutions g)) then Raise AmbiguousResolutionFault
     else match resolutions g with r0 :: _ => Ok r0 | [] => Raise IndexError end)
    = Ok r).
  { destruct (negb (Qeqb r 0)); [reflexivity|]. intros Hr; exact Hr. }
  destruct resolution as [r0|]; [|exact Hdefault].
  destruct (negb (Qeqb r0 0)) eqn:Hr0; [|exact Hdefault].
  intros Heq. injection Heq as <-. rewrite Hr0. reflexivity.
Qed.

(** X11: [plot] draws exactly the raster [get_layer_by_name] returns for
    the same arguments, titled with the resolution picked, and raises
    the same fault when that raises: testing for an empty grid and
    picking the resolution twice changes nothing. *)
Theorem plot_draws_get_layer_by_name layer resolution g :
  match get_layer_by_name layer resolution g with
  | Ok data_ => ∃ r, pick_resolution g resolution = Ok r
                     ∧ plot layer resolution g = Ok (data_, (layer, r))
  | Raise e => plot layer resolution g = Raise e
  end.
Proof.
  unfold plot.
  destruct (no_grid g) as [ng|e] eqn:Hng;
    [|unfold get_layer_by_name; rewrite Hng; reflexivity].
  destruct (py_truth ng) eqn:Htruth;
    [unfold get_layer_by_name; rewrite Hng, Htruth; reflexivity|].
  destruct (pick_resolution g resolution) as [r|e] eqn:Hr;
    [|unfold get_layer_by_name; rewrite Hng, Htruth, Hr; reflexivity].
  assert (Hsecond : get_layer_by_name layer (Some r) g
                    = get_layer_by_name layer resolution g).
  { unfold get_layer_by_name.
    rewrite (pick_resolution_idem g resolution r Hr), Hr. reflexivity. }
  rewrite Hsecond.
  destruct (get_layer_by_name layer resolution g) as [d|e]; [|reflexivity].
  exists r. split; reflexivity.
Qed.

Lemma np_where_from_spec i mask e :
  e ∈ np_where_from i mask →
  (i <= e < i + Z.of_nat (length mask))%Z ∧ mask !! Z.to_nat (e - i) = Some true.
Proof.
  revert i. induction mask as [|b mask IH]; intros i; cbn [np_where_from].
  - intros He. apply elem_of_nil in He. destruct He.
  - assert (Hrest : e ∈ np_where_from (i + 1) mask →
              (i <= e < i + Z.of_nat (length (b :: mask)))%Z
              ∧ (b :: mask) !! Z.to_nat (e - i) = Some true).
    { intros He. destruct (IH _ He) as [Hr Hl]. cbn [length]. split; [lia|].
      replace (Z.to_nat (e - i)) with (Datatypes.S (Z.to_nat (e - (i + 1)))) by lia.
      exact Hl. }
    destruct b; [|exact Hrest].
    intros He. apply elem_of_cons in He as [->|He]; [|exact (Hrest He)].
    cbn [length]. split; [lia|]. rewrite Z.sub_diag. reflexivity.
Qed.

Lemma np_where_from_lower i mask :
  Forall (fun e => (i <= e)%Z) (np_where_from i mask).
Proof.
  apply Forall_forall. intros e He.
  destruct (np_where_from_spec i mask e He) as [Hr _]. lia.
Qed.

Lemma np_where_from_head i mask a rest :
  np_where_from i mask = a :: rest → Forall (fun e => (a <= e)%Z) rest.
Proof.
  revert i. induction mask as [|b mask IH]; intros i; cbn [np_where_from];
    [discriminate|].
  destruct b; [|apply IH].
  intros Heq. injection Heq as <- <-.
  eapply Forall_impl; [apply np_where_from_lower|]. cbn. intros; lia.
Qed.

Lemma last_elem (l : list Z) (a : Z) : l ≠ [] → List.last l a ∈ l.
Proof.
  induction l as [|x l IH]; [congruence|]. intros _.
  destruct l as [|y l]; [cbn; apply list_elem_of_here|].
  change (List.last (x :: y :: l) a) with (List.last (y :: l) a).
  apply list_elem_of_further, IH. discriminate.
Qed.

(** The first and the last index [np.where] finds in a mask. *)
Lemma first_last_np_where mask lo hi :
  first_last (np_where mask) = Ok (lo, hi) →
  (0 <= lo <= hi)%Z ∧ (hi < Z.of_nat (length mask))%Z
  ∧ mask !! Z.to_nat lo = Some true ∧ mask !! Z.to_nat hi = Some true.
Proof.
  unfold first_last, np_where.
  destruct (np_where_from 0 mask) as [|a rest] eqn:Hw; [discriminate|].
  intros Heq. injection Heq as <- <-.
  assert (Ha : a ∈ np_where_from 0 mask) by (rewrite Hw; apply list_elem_of_here).
  assert (Hl : List.last (a :: rest) a ∈ np_where_from 0 mask).
  { rewrite Hw. apply last_elem. discriminate. }
  destruct (np_where_from_spec 0 mask _ Ha) as [Har Hat].
  destruct (np_where_from_spec 0 mask _ Hl) as [Hlr Hlt].
  rewrite Z.sub_0_r in Hat, Hlt.
  assert (Hle : (a <= List.last (a :: rest) a)%Z).
  { rewrite Hw in Hl. apply elem_of_cons in Hl as [Heq|Hin]; [rewrite Heq; apply Z.le_refl|].
    pose proof (np_where_from_head 0 mask a rest Hw) as Hall.
    rewrite Forall_forall in Hall. apply Hall, Hin. }
  refine (conj _ (conj _ (conj Hat Hlt))); [split; [apply Har|exact Hle]|].
  change (List.last (a :: rest) a < Z.of_nat (length mask))%Z. lia.
Qed.

(** X12: the bounds [get_layer_trimmed] returns lie within the layer's
    raster, enclose at least one row and one column, and the first and
    last row and column they enclose hold a value; the raster returned
    is the layer cropped to them. *)
Theorem get_layer_trimmed_bounds layer resolution g data_ surf
        rmin cmin rmax cmax :
  get_layer_by_name layer resolution g = Ok data_ →
  get_layer_trimmed layer resolution g = Ok (surf, (rmin, cmin), (rmax, cmax)) →
  let rows := np_any_notnan_rows data_ in
  let cols := np_any_notnan_cols data_ in
  (0 <= rmin < rmax)%Z ∧ (rmax <= Z.of_nat (length rows))%Z
  ∧ (0 <= cmin < cmax)%Z ∧ (cmax <= Z.of_nat (length cols))%Z
  ∧ rows !! Z.to_nat rmin = Some true ∧ rows !! Z.to_nat (rmax - 1) = Some true
  ∧ cols !! Z.to_nat cmin = Some true ∧ cols !! Z.to_nat (cmax - 1) = Some true
  ∧ surf = np_crop data_ rmin rmax cmin cmax.
Proof.
  intros Hdata. unfold get_layer_trimmed. rewrite Hdata.
  destruct (first_last (np_where (np_any_notnan_rows data_)))
    as [[r0 r1]|e] eqn:Hrows; [|discriminate].
  destruct (first_last (np_where (np_any_notnan_cols data_)))
    as [[c0 c1]|e] eqn:Hcols; [|discriminate].
  intros Heq. injection Heq as <- <- <- <- <-.
  destruct (first_last_np_where _ _ _ Hrows) as (Hr & Hrl & Hr0 & Hr1).
  destruct (first_last_np_where _ _ _ Hcols) as (Hc & Hcl & Hc0 & Hc1).
  cbv zeta.
  replace (r1 + 1 - 1)%Z with r1 by lia. replace (c1 + 1 - 1)%Z with c1 by lia.
  repeat split; try assumption; lia.
Qed.

Lemma np_where_from_none i mask :
  existsb (fun b => b) mask = false → np_where_from i mask = [].
Proof.
  revert i. induction mask as [|b mask IH]; intros i; [reflexivity|].
  cbn. destruct b; [discriminate|]. apply IH.
Qed.

(** X13: on a layer whose raster holds no value at all,
    [get_layer_trimmed] raises an [IndexError]; it never returns an
    empty raster. *)
Theorem get_layer_trimmed_without_values layer resolution g data_ :
  get_layer_by_name layer resolution g = Ok data_ →
  existsb (fun b => b) (np_any_notnan_rows data_) = false →
  get_layer_trimmed layer resolution g = Raise IndexError.
Proof.
  intros Hdata Hnone. unfold get_layer_trimmed. rewrite Hdata.
  unfold np_where. rewrite (np_where_from_none 0 _ Hnone). reflexivity.
Qed.

(** X14: on an allocated lattice without any occupant [no_grid] gives
    neither true nor false but [None].  [get_layer_by_name] with a
    resolution that is not zero then passes the test for an empty grid
    and returns just what [_build_layer_grid] returns for the whole
    grid, the raster without a value or the fault of building it;
    [return_layer_names] returns no name, and [grid] raises the fault of
    an empty grid and changes nothing. *)
Theorem accessors_on_a_hollow_lattice layer r alg res ce use_dask g slots :
  tiles g = Some slots →
  existsb occupied slots = false →
  Qeqb r 0 = false →
  no_grid g = Ok None
  ∧ get_layer_by_name layer (Some r) g = _build_layer_grid g r
  ∧ (∀ d, _build_layer_grid g r = Ok d →
          get_layer_by_name layer (Some r) g = Ok d)
  ∧ return_layer_names g = Ok []
  ∧ grid alg res ce use_dask g = (g, Raise EmptyGridFault).
Proof.
  intros Ht Hnone Hr.
  assert (Hfirst : first_occupied slots = None).
  { clear Ht. induction slots as [|[t|] slots IH]; [reflexivity|discriminate|].
    apply IH, Hnone. }
  assert (Hloop : ∀ d cnt, layer_loop g layer r cnt slots d = Ok d).
  { clear Ht Hfirst. intros d.
    induction slots as [|[t|] slots IH]; intros cnt;
      [reflexivity|discriminate|]. apply IH, Hnone. }
  assert (Hng : no_grid g = Ok None)
    by (unfold no_grid; rewrite Ht, Hfirst; reflexivity).
  assert (Hget : get_layer_by_name layer (Some r) g = _build_layer_grid g r).
  { unfold get_layer_by_name. rewrite Hng. cbn [py_truth].
    unfold pick_resolution. rewrite Hr. cbn [negb]. rewrite Ht.
    destruct (_build_layer_grid g r) as [d|e]; [apply Hloop|reflexivity]. }
  refine (conj Hng (conj Hget (conj _ (conj _ _)))).
  - intros d Hd. rewrite Hget. exact Hd.
  - unfold return_layer_names. rewrite Hng. cbn [py_truth]. rewrite Ht.
    cbn [default from_option id]. rewrite Hfirst. reflexivity.
  - unfold grid, is_empty. rewrite Ht.
    replace (forallb _ slots) with true; [reflexivity|].
    clear Ht Hfirst Hloop Hng Hget. symmetry.
    induction slots as [|[t|] slots IH]; [reflexivity|discriminate|].
    apply IH, Hnone.
Qed.

End Layers.

Import MoreExamples.

Lemma get_layer_trimmed_bounds_witness :
  match get_layer_trimmed "depth" None coarsely_gridded with
  | Ok (_, (rmin, cmin), (rmax, cmax)) =>
      (0 <= rmin < rmax)%Z ∧ (0 <= cmin < cmax)%Z
  | Raise _ => False
  end.
Proof.
  destruct (get_layer_by_name "depth" None coarsely_gridded) as [d|e] eqn:Hd;
    [|apply (f_equal is_ok) in Hd; vm_compute in Hd; discriminate Hd].
  destruct (get_layer_trimmed "depth" None coarsely_gridded)
    as [[[surf [rmin cmin]] [rmax cmax]]|e] eqn:Ht;
    [|apply (f_equal is_ok) in Ht; vm_compute in Ht; discriminate Ht].
  destruct (get_layer_trimmed_bounds _ _ _ _ _ _ _ _ _ Hd Ht)
    as (Hr & _ & Hc & _).
  split; assumption.
Defined.

Lemma get_layer_trimmed_without_values_witness :
  get_layer_trimmed "depth" (Some 512) hollow = Raise IndexError.
Proof.
  destruct (get_layer_by_name "depth" (Some 512) hollow) as [d|e] eqn:Hd;
    [|apply (f_equal is_ok) in Hd; vm_compute in Hd; discriminate Hd].
  apply (get_layer_trimmed_without_values "depth" (Some 512) hollow d Hd).
  assert (Hraster : d = [[None; None]; [None; None]]).
  { vm_compute in Hd. injection Hd as <-. reflexivity. }
  rewrite Hraster. reflexivity.
Defined.

Lemma accessors_on_a_hollow_lattice_witness :
  no_grid hollow = Ok None
  ∧ get_layer_by_name "depth" (Some 512) hollow = _build_layer_grid hollow 512
  ∧ (∀ d, _build_layer_grid hollow 512 = Ok d →
          get_layer_by_name "depth" (Some 512) hollow = Ok d)
  ∧ return_layer_names hollow = Ok []
  ∧ grid "mean" None false false hollow = (hollow, Raise EmptyGridFault).
Proof.
  apply (accessors_on_a_hollow_lattice "depth" 512 "mean" None false false
                                        hollow [None]); reflexivity.
Defined.
(** ** What [add_points] leaves behind *)

Section AfterAddPoints.
Context `{TileIface} `{!BaseGridOps} `{!Utilities} {S : Type} `{!SlotOps S}.
Implicit Type g : BathyGrid S.

(** Validation leaves a structured array staged as it is. *)
Lemma _validate_input_data_structured g fs :
  data g = Some (NumpyArray (Structured fs)) →
  data (fst (_validate_input_data g)) = Some (NumpyArray (Structured fs)).
Proof.
  intros Hd. unfold _validate_input_data. rewrite Hd.
  destruct (cls g); [exact Hd| |].
  all: destruct fs as [|f fs]; [exact Hd|].
  all: destruct (negb (has_field (f :: fs) "x") || negb (has_field (f :: fs) "y"));
    exact Hd.
Qed.

(** X15: when [add_points] returns for a structured array whose depths
    are not all zero, [mean_depth] is what numpy's [mean] makes of the
    depths of that array alone, whatever the grid held before, and no
    data stays staged. *)
Theorem mean_depth_is_of_the_last_batch g fs zs name fl crs vr g' :
  assoc fs "z" = Some zs →
  np_any zs = true →
  add_points (Some (NumpyArray (Structured fs))) name fl crs vr g = (g', Ok tt) →
  mean_depth g' = Some (np_mean zs) ∧ data g' = None.
Proof.
  intros Hz Hany Hadd. split.
  - rewrite (add_points_mean_depth (Some (NumpyArray (Structured fs)))
               name fl crs vr g g' (NumpyArray (Structured fs)) zs);
      [rewrite Hany; reflexivity| | |exact Hadd].
    + apply _validate_input_data_structured. reflexivity.
    + cbn. rewrite Hz. reflexivity.
  - revert Hadd. unfold add_points, bind, modify.
    repeat match goal with
           | |- context [let '(_, _) := ?m in _] => destruct m as [? [[]|?]]
           end; intros Heq; try discriminate Heq.
    injection Heq as <-. reflexivity.
Qed.

Lemma fill_mask_length {A} (arr : list A) mask vals b :
  length (fill_mask arr mask vals b) = length arr.
Proof.
  revert mask vals. induction arr as [|a arr IH]; intros mask vals;
    [destruct mask; reflexivity|].
  destruct mask as [|m mask]; [reflexivity|]. cbn [fill_mask].
  destruct m; [destruct vals as [|v vals]|]; cbn [length]; rewrite IH; reflexivity.
Qed.

Lemma np_mask_assign_length {A} (arr : list A) mask vals out :
  np_mask_assign arr mask vals = Ok out → length out = length arr.
Proof.
  unfold np_mask_assign.
  repeat match goal with
         | |- context [if ?c then _ else _] => destruct c
         end; intros Heq; try discriminate Heq.
  all: injection Heq as <-; apply fill_mask_length.
Qed.

(** Placing the points keeps the lattice allocated and its size. *)
Lemma _add_points_to_tiles_length name g l :
  tiles g = Some l →
  ∃ l', tiles (fst (_add_points_to_tiles name g)) = Some l'
        ∧ length l' = length l.
Proof.
  intros Ht. unfold _add_points_to_tiles.
  destruct (data g) as [d|]; [|exists l; split; [exact Ht|reflexivity]].
  destruct (get_field d "x") as [xs|e]; [|exists l; split; [exact Ht|reflexivity]].
  destruct (get_field d "y") as [ys|e]; [|exists l; split; [exact Ht|reflexivity]].
  destruct (bin2d_with_indices _ _ _ _) as [binnum|e];
    [|exists l; split; [exact Ht|reflexivity]].
  rewrite Ht.
  destruct (for_each_place_points_slots g d binnum name (np_unique binnum) l)
    as [Hlen _].
  destruct (for_each _ _ l) as [l' r]. cbn [fst] in *.
  exists l'. split; [reflexivity|exact Hlen].
Qed.

(** After [_update_tiles] on an empty or a growing grid the lattice has
    one slot for every tile origin. *)
Lemma _update_tiles_size name g g' :
  data g ≠ None →
  _update_tiles name g = (g', Ok tt) →
  is_empty g = true ∨ can_grow (base g) = true →
  ∃ l, tiles g' = Some l ∧ length l = length (tile_x_origin (base g')).
Proof.
  intros Hd Hup Hcase.
  assert (Hbase : base g' = base g).
  { destruct (_update_tiles_metadata name g) as [_ Hb]. rewrite Hup in Hb.
    exact Hb. }
  rewrite Hbase. revert Hup. unfold _update_tiles.
  destruct (data g) as [d|]; [clear Hd|congruence].
  set (n := length (tile_x_origin (base g))).
  destruct (is_empty g).
  - intros Hup.
    destruct (_add_points_to_tiles_length name
                (set_tiles (Some (replicate n None)) g) (replicate n None) eq_refl)
      as (l' & Hl' & Hlen).
    rewrite Hup in Hl'. exists l'. split; [exact Hl'|].
    rewrite Hlen. apply length_replicate.
  - destruct Hcase as [Hcase|Hcase]; [discriminate Hcase|]. rewrite Hcase.
    destruct (np_mask_assign _ _ _) as [new_tiles|e] eqn:Hassign;
      [|intros Heq; discriminate Heq].
    intros Hup.
    destruct (_add_points_to_tiles_length name
                (set_tiles (Some new_tiles) g) new_tiles eq_refl)
      as (l' & Hl' & Hlen).
    rewrite Hup in Hl'. exists l'. split; [exact Hl'|].
    rewrite Hlen, (np_mask_assign_length _ _ _ _ Hassign).
    apply length_replicate.
Qed.

Lemma _validate_input_data_staged g x :
  data g = Some x → snd (_validate_input_data g) = Ok tt →
  data (fst (_validate_input_data g)) ≠ None.
Proof.
  intros Hd. unfold _validate_input_data. rewrite Hd.
  destruct (cls g); [intros _; cbn; congruence| |].
  all: destruct x as [[fs|v]|[fs|v]|vars coords dims|].
  all: try (destruct fs as [|f fs]).
  all: repeat match goal with
         | |- snd (if ?c then _ else _) = _ → _ => destruct c
         | |- snd (match _convert_dataset ?v with _ => _ end) = _ → _ =>
             destruct (_convert_dataset v)
         end.
  all: intros Hv; try (cbn in Hv; discriminate Hv).
  all: cbn; congruence.
Qed.

Lemma _update_base_grid_base_only g :
  data (fst (_update_base_grid g)) = data g
  ∧ tiles (fst (_update_base_grid g)) = tiles g.
Proof.
  destruct (_update_base_grid_frame g) as [(Hd & _) Ht]. split; assumption.
Qed.

(** X16: when [add_points] returns for some data on a grid that was
    empty or can grow, the lattice is allocated with exactly one slot
    for every tile origin of the geometry. *)
Theorem add_points_lattice_size g x name fl crs vr g' :
  add_points (Some x) name fl crs vr g = (g', Ok tt) →
  is_empty g = true ∨ can_grow (base g') = true →
  ∃ l, tiles g' = Some l ∧ length l = length (tile_x_origin (base g')).
Proof.
  unfold add_points, bind, modify.
  set (g0 := set_data (compute (Some x)) g).
  assert (Hd0 : ∃ x0, data g0 = Some x0).
  { unfold g0. destruct x as [a|a|vars coords dims|]; cbn; eauto. }
  destruct Hd0 as [x0 Hd0].
  pose proof (_validate_input_data_staged g0 x0 Hd0) as Hd1.
  pose proof (_validate_input_data_tiles g0) as Ht1.
  destruct (_validate_input_data g0) as [g1 [[]|e]];
    [|intros Heq; discriminate Heq].
  cbn [fst snd] in *. specialize (Hd1 eq_refl).
  pose proof (_update_metadata_data name fl crs vr g1) as Hd2.
  destruct (_update_metadata_tiles name fl crs vr g1) as [Ht2 _].
  destruct (_update_metadata name fl crs vr g1) as [g2 [[]|e]];
    [|intros Heq; discriminate Heq].
  destruct (_update_base_grid_base_only g2) as [Hd3 Ht3].
  destruct (_update_base_grid g2) as [g3 [[]|e]];
    [|intros Heq; discriminate Heq].
  cbn [fst] in *.
  destruct (_update_tiles name g3) as [g4 [[]|e]] eqn:Hup;
    [|intros Heq; discriminate Heq].
  destruct (_update_tiles_metadata name g3) as [_ Hb4]. rewrite Hup in Hb4.
  pose proof (_update_mean_depth_tiles g4) as Ht5.
  destruct (_update_mean_depth_metadata g4) as [_ Hb5].
  destruct (_update_mean_depth g4) as [g5 [[]|e]];
    [|intros Heq; discriminate Heq].
  cbn [fst] in *. intros Heq. injection Heq as <-.
  cbn [tiles base set_data]. rewrite Ht5, Hb5. intros Hcase.
  apply (_update_tiles_size name g3 g4); [congruence|exact Hup|].
  destruct Hcase as [He|Hg]; [left|right; rewrite <- Hb4; exact Hg].
  unfold is_empty in *. rewrite Ht3, Ht2, Ht1. exact He.
Qed.

(** X17: when [remove_points] returns for a registered container, the
    lattice it leaves is released or holds a tile: it is never left
    allocated without an occupant. *)
Theorem remove_points_leaves_no_hollow_lattice name g fl :
  container g !! name = Some fl →
  snd (remove_points name g) = Ok tt →
  is_empty (fst (remove_points name g)) = true →
  tiles (fst (remove_points name g)) = None.
Proof.
  intros Hreg. unfold remove_points. rewrite Hreg.
  set (g1 := set_container (delete name (container g)) g).
  destruct (is_empty g1) eqn:He; cbn [negb].
  - rewrite He. reflexivity.
  - destruct (remove_loop name (default [] (tiles g1))) as [l' [[]|e]];
      cbv beta iota zeta.
    + match goal with |- context [if ?c then _ else _] => destruct c eqn:He' end.
      * reflexivity.
      * cbn [fst snd]. intros _ Hempty. rewrite He' in Hempty. discriminate Hempty.
    + cbn [snd]. intros Heq. discriminate Heq.
Qed.

End AfterAddPoints.

Lemma mean_depth_is_of_the_last_batch_witness :
  mean_depth surveyed = Some (np_mean [20; 25; 30]) ∧ data surveyed = None.
Proof.
  apply (mean_depth_is_of_the_last_batch (SRGrid_init 0 0 1024)
           [("x", [0; 100; 900]); ("y", [0; 100; 900]); ("z", [20; 25; 30])]
           [20; 25; 30] "test1" (Some ["line1"]) (Some 26917%Z)
           (Some "waterline") surveyed).
  - reflexivity.
  - reflexivity.
  - unfold surveyed, smalldata, xyz.
    destruct (add_points _ "test1" (Some ["line1"]) (Some 26917%Z)
                         (Some "waterline") (SRGrid_init 0 0 1024))
      as [g' [[]|e]] eqn:Hrun; [reflexivity|].
    apply (f_equal snd) in Hrun. vm_compute in Hrun. discriminate Hrun.
Defined.

Lemma add_points_lattice_size_witness :
  ∃ l, tiles surveyed = Some l
       ∧ length l = length (tile_x_origin (base surveyed)).
Proof.
  apply (add_points_lattice_size (SRGrid_init 0 0 1024)
           (NumpyArray (Structured [("x", [0; 100; 900]); ("y", [0; 100; 900]);
                                    ("z", [20; 25; 30])]))
           "test1" (Some ["line1"]) (Some 26917%Z) (Some "waterline") surveyed).
  - unfold surveyed, smalldata, xyz.
    destruct (add_points _ "test1" (Some ["line1"]) (Some 26917%Z)
                         (Some "waterline") (SRGrid_init 0 0 1024))
      as [g' [[]|e]] eqn:Hrun; [reflexivity|].
    apply (f_equal snd) in Hrun. vm_compute in Hrun. discriminate Hrun.
  - left. reflexivity.
Defined.

Lemma remove_points_leaves_no_hollow_lattice_witness :
  tiles (fst (remove_points "test1" surveyed)) = None.
Proof.
  apply (remove_points_leaves_no_hollow_lattice "test1" surveyed ["line1"]).
  - vm_compute. reflexivity.
  - vm_compute. reflexivity.
  - vm_compute. reflexivity.
Defined.
(** ** Datasets *)

Lemma assoc_map_fst {V} (l : list (string * V)) (k : string) :
  k ∉ map fst l → assoc l k = None.
Proof.
  induction l as [|[k' v] l IH]; [reflexivity|]. cbn [map fst assoc].
  intros Hn. destruct (String.eqb_spec k' k) as [->|Hne].
  - exfalso. apply Hn. apply list_elem_of_here.
  - apply IH. intros Hin. apply Hn. apply list_elem_of_further. exact Hin.
Qed.

Section Datasets.
Context `{TileIface} `{!BaseGridOps} `{!Utilities} {S : Type} `{!SlotOps S}.
Implicit Type g : BathyGrid S.

(** The columns [_convert_dataset] fills. *)
Lemma _convert_dataset_columns vars d xs :
  _convert_dataset vars = Ok d →
  assoc vars "x" = Some xs →
  ∃ cols, d = NumpyArray (Structured cols)
          ∧ map fst cols = filter (fun v => has_field vars v = true) allowed_vars
          ∧ ∀ v c, v ∈ allowed_vars → assoc vars v = Some c →
                   length c = length xs → assoc cols v = Some c.
Proof.
  unfold _convert_dataset. intros Hconv Hx. rewrite Hx in Hconv.
  cbv zeta in Hconv.
  set (fill := fix fill (vs : list string) := _) in Hconv.
  assert (Hfill : ∀ vs cols, fill vs = Ok cols →
            map fst cols = vs
            ∧ ∀ v c, v ∈ vs → assoc vars v = Some c → length c = length xs →
                     assoc cols v = Some c).
  { induction vs as [|v vs IH]; intros cols Hf.
    - cbn in Hf. injection Hf as <-. split; [reflexivity|].
      intros v c Hin. apply elem_of_nil in Hin. destruct Hin.
    - cbn in Hf. fold fill in Hf.
      destruct (assoc vars v) as [c0|] eqn:Hv; [|discriminate Hf].
      destruct (fill vs) as [cs|e] eqn:Hcs.
      + destruct (IH cs eq_refl) as [Hnames Hvals].
        assert (Hcol : ∃ c1, cols = (v, c1) :: cs
                             ∧ (length c0 = length xs → c1 = c0)).
        { destruct (Nat.eqb_spec (length c0) (length xs)) as [Hlen|Hlen].
          - injection Hf as <-. exists c0. split; [reflexivity|auto].
          - destruct c0 as [|a [|b c0]]; try discriminate Hf.
            injection Hf as <-. eexists. split; [reflexivity|].
            intros Hl. contradiction. }
        destruct Hcol as (c1 & -> & Hc1).
        split; [cbn; rewrite Hnames; reflexivity|].
        intros v' c Hin Hv' Hlen. cbn [assoc].
        destruct (String.eqb_spec v v') as [<-|Hne].
        * rewrite Hv in Hv'. injection Hv' as <-. rewrite (Hc1 Hlen). reflexivity.
        * apply elem_of_cons in Hin as [->|Hin]; [congruence|].
          apply Hvals; assumption.
      + destruct (Nat.eqb (length c0) (length xs)); [discriminate Hf|].
        destruct c0 as [|a [|b c0]]; discriminate Hf. }
  destruct (fill _) as [cols|e] eqn:Hcols; [|discriminate Hconv].
  injection Hconv as <-.
  destruct (Hfill _ cols Hcols) as [Hnames Hvals].
  exists cols. refine (conj eq_refl (conj Hnames _)).
  intros v c Hin Hv Hlen. apply Hvals; [|exact Hv|exact Hlen].
  apply list_elem_of_filter. split; [|exact Hin].
  unfold has_field. rewrite Hv. reflexivity.
Qed.

(** X18: [_convert_dataset] keeps exactly the allowed variables the
    dataset has, in the order [x], [y], [z], [tvu], [thu] whatever the
    order of the dataset, each with its values when it is as long as
    [x]; every other variable is dropped. *)
Theorem _convert_dataset_keeps_allowed_vars vars d xs :
  _convert_dataset vars = Ok d →
  assoc vars "x" = Some xs →
  input_fields d = filter (fun v => has_field vars v = true) allowed_vars
  ∧ (∀ v c, v ∈ allowed_vars → assoc vars v = Some c → length c = length xs →
            get_field d v = Ok c)
  ∧ (∀ v, v ∉ allowed_vars → get_field d v = Raise NoFieldFault).
Proof.
  intros Hconv Hx.
  destruct (_convert_dataset_columns vars d xs Hconv Hx)
    as (cols & -> & Hnames & Hvals).
  refine (conj Hnames (conj _ _)).
  - intros v c Hin Hv Hlen. cbn [get_field].
    rewrite (Hvals v c Hin Hv Hlen). reflexivity.
  - intros v Hout. cbn [get_field].
    rewrite assoc_map_fst; [reflexivity|].
    rewrite Hnames. intros Hin. apply list_elem_of_filter in Hin as [_ Hin].
    apply Hout. exact Hin.
Qed.

(** Without a field [y] among the staged data, placing the points
    raises. *)
Lemma _add_points_to_tiles_without_y name g d e :
  data g = Some d → get_field d "y" = Raise e →
  is_ok (snd (_add_points_to_tiles name g)) = false.
Proof.
  intros Hd Hy. unfold _add_points_to_tiles. rewrite Hd, Hy.
  destruct (get_field d "x"); reflexivity.
Qed.

Lemma _update_tiles_without_y name g d e :
  data g = Some d → get_field d "y" = Raise e →
  is_ok (snd (_update_tiles name g)) = false.
Proof.
  intros Hd Hy. unfold _update_tiles. rewrite Hd.
  destruct (is_empty g).
  - apply (_add_points_to_tiles_without_y name (set_tiles _ g) d e Hd Hy).
  - destruct (can_grow (base g)).
    + destruct (np_mask_assign _ _ _) as [new_tiles|e']; [|reflexivity].
      apply (_add_points_to_tiles_without_y name (set_tiles _ g) d e Hd Hy).
    + apply (_add_points_to_tiles_without_y name g d e Hd Hy).
Qed.

(** X19: an xarray dataset that has [x] but no [y], neither as a data
    variable nor as a coordinate, passes [_validate_input_data], which
    looks for [x] only; [add_points] then cannot return, and the fault
    comes after the container has been entered in the registry. *)
Theorem dataset_without_y_fails_after_registration
        g data_vars coords dims name fl crs vr :
  cls g ≠ BathyGridC →
  has_field (ds_variables data_vars coords) "y" = false →
  snd (_validate_input_data
         (set_data (Some (XrDataset data_vars coords dims)) g)) = Ok tt →
  is_ok (snd (add_points (Some (XrDataset data_vars coords dims))
                         name fl crs vr g)) = false
  ∧ container (fst (add_points (Some (XrDataset data_vars coords dims))
                               name fl crs vr g))
      !! name = Some (registry_entry fl).
Proof.
  intros Hc Hy Hv. rewrite add_points_steps.
  change (compute (Some (XrDataset data_vars coords dims)))
    with (Some (XrDataset data_vars coords dims)).
  set (g0 := set_data (Some (XrDataset data_vars coords dims)) g) in *.
  pose (vars := ds_variables data_vars coords).
  change (has_field vars "y" = false) in Hy.
  assert (Hstaged : ∃ d, data (fst (_validate_input_data g0)) = Some d
                         ∧ get_field d "y" = Raise NoFieldFault).
  { revert Hv. unfold _validate_input_data.
    change (cls g0) with (cls g).
    change (data g0) with (Some (XrDataset data_vars coords dims)).
    destruct (cls g); [congruence| |].
    all: cbv beta iota zeta.
    all: change (ds_variables data_vars coords) with vars; clearbody vars.
    all: destruct (negb (has_field vars "x")); [intros Hv; cbn [snd] in Hv; discriminate Hv|].
    all: destruct (Nat.ltb 1 (length dims)); [intros Hv; cbn [snd] in Hv; discriminate Hv|].
    all: destruct (_convert_dataset vars) as [d|e] eqn:Hconv;
      [|intros Hv; cbn [snd] in Hv; discriminate Hv].
    all: intros _; exists d; split; [reflexivity|].
    all: assert (Hx : ∃ xs, assoc vars "x" = Some xs)
      by (unfold _convert_dataset in Hconv;
          destruct (assoc vars "x") as [xs|]; [eauto|discriminate Hconv]).
    all: destruct Hx as [xs Hx].
    all: destruct (_convert_dataset_columns vars d xs Hconv Hx)
      as (cols & -> & Hnames & _).
    all: cbn [get_field]; rewrite assoc_map_fst; [reflexivity|].
    all: rewrite Hnames.
    all: intros Hin; apply list_elem_of_filter in Hin as [Hhas _]; congruence. }
  destruct Hstaged as (d & Hd & Hnoy).
  destruct (_validate_input_data_frame g0) as (Hcls & _).
  destruct (_validate_input_data g0) as [g1 [[]|e]]; [|discriminate Hv].
  cbn [fst] in *.
  assert (Hc1 : cls g1 ≠ BathyGridC) by (rewrite Hcls; exact Hc).
  pose proof (_update_metadata_registers g1 name fl crs vr Hc1) as Hreg.
  pose proof (_update_metadata_data name fl crs vr g1) as Hd2.
  destruct (_update_metadata name fl crs vr g1) as [g2 [[]|e]]; cbn [fst] in *;
    [|split; [reflexivity|exact Hreg]].
  destruct (add_points_after_metadata name g2) as [_ Hcont].
  cbv zeta in Hcont. split; [|rewrite Hcont; exact Hreg].
  unfold bind, modify.
  destruct (_update_base_grid_frame g2) as [(Hd3 & _) _].
  destruct (_update_base_grid g2) as [g3 [[]|e]]; [|reflexivity].
  cbn [fst] in *.
  assert (Hd3' : data g3 = Some d) by congruence.
  pose proof (_update_tiles_without_y name g3 d _ Hd3' Hnoy) as Hfail.
  destruct (_update_tiles name g3) as [g4 [[]|e]]; [discriminate Hfail|reflexivity].
Qed.

End Datasets.

Import MoreExamples.

Lemma _convert_dataset_keeps_allowed_vars_witness :
  ∃ d, _convert_dataset full_dataset_vars = Ok d
       ∧ input_fields d = ["x"; "y"; "z"]
       ∧ get_field d "z" = Ok [20; 30]
       ∧ get_field d "beam" = Raise NoFieldFault.
Proof.
  destruct (_convert_dataset full_dataset_vars) as [d|e] eqn:Hconv;
    [|vm_compute in Hconv; discriminate Hconv].
  exists d. split; [reflexivity|].
  destruct (_convert_dataset_keeps_allowed_vars full_dataset_vars d [0; 100]
              Hconv eq_refl) as (Hnames & Hvals & Hout).
  split; [rewrite Hnames; vm_compute; reflexivity|]. split.
  - apply Hvals; [|reflexivity|reflexivity].
    unfold allowed_vars. do 2 apply list_elem_of_further. apply list_elem_of_here.
  - apply Hout. unfold allowed_vars. intros Hin.
    repeat (apply elem_of_cons in Hin as [Hin|Hin]; [discriminate Hin|]).
    apply elem_of_nil in Hin. exact Hin.
Defined.

Lemma dataset_without_y_fails_after_registration_witness :
  is_ok (snd (add_points no_y_dataset "test1" None (Some 26917%Z) None
                         (SRGrid_init 0 0 1024))) = false
  ∧ container (fst (add_points no_y_dataset "test1" None (Some 26917%Z) None
                               (SRGrid_init 0 0 1024)))
      !! "test1" = Some ["Unknown"].
Proof.
  apply (dataset_without_y_fails_after_registration (SRGrid_init 0 0 1024)
           [("x", [0; 100]); ("z", [20; 30])] [] ["sounding"] "test1" None
           (Some 26917%Z) None).
  - discriminate.
  - reflexivity.
  - vm_compute. reflexivity.
Defined.
(** ** Faults part-way *)

Section PartWay.
Context `{TileIface} `{!BaseGridOps} `{!Utilities} {S : Type} `{!SlotOps S}.
Implicit Type g : BathyGrid S.

(** X20: a second [remove_points] of the same container does nothing and
    returns, whatever the first one did: after a removal that raised
    part-way the container is no longer registered, so the points it
    left in the remaining tiles stay. *)
Theorem remove_points_cannot_be_retried name g :
  remove_points name (fst (remove_points name g))
  = (fst (remove_points name g), Ok tt).
Proof. apply remove_points_unregistered, remove_points_drops_entry. Qed.

(** Where the serial loop stops when a slot's gridding raises. *)
Lemma regular_loop_fault alg ce cnt (slots : list (option S)) res found
      slots' found' calls e :
  regular_loop alg ce cnt slots res found = (slots', found', calls, Raise e) →
  ∃ k t r, slots !! k = Some (Some t)
           ∧ snd (slot_grid alg r ce t) = Raise e
           ∧ slots' !! k = Some (Some (fst (slot_grid alg r ce t)))
           ∧ length slots' = length slots
           ∧ ∀ i, (k < i)%nat → slots' !! i = slots !! i.
Proof.
  revert cnt res found slots' found' calls.
  induction slots as [|[t|] slots IH]; intros cnt res found slots' found' calls;
    cbn [regular_loop].
  - intros Heq. discriminate Heq.
  - destruct (slot_grid alg res ce t) as [t' [r|e']] eqn:Hg.
    + destruct (regular_loop alg ce (Datatypes.S cnt) slots r _)
        as [[[rest' found1] calls1] o] eqn:Hloop.
      intros Heq. injection Heq as <- <- _ ->.
      destruct (IH _ _ _ _ _ _ Hloop) as (k & t0 & r0 & Hk & Hr & Hk' & Hlen & Hafter).
      exists (Datatypes.S k), t0, r0. cbn [lookup list_lookup length].
      refine (conj Hk (conj Hr (conj Hk' (conj (f_equal Datatypes.S Hlen) _)))).
      intros [|i] Hi; [lia|]. cbn. apply Hafter. lia.
    + intros Heq. injection Heq as <- _ _ <-.
      exists 0%nat, t, res. rewrite Hg. cbn.
      refine (conj eq_refl (conj eq_refl (conj eq_refl (conj eq_refl _)))).
      intros [|i] Hi; [lia|reflexivity].
  - destruct (regular_loop alg ce (Datatypes.S cnt) slots res found)
      as [[[rest' found1] calls1] o] eqn:Hloop.
    intros Heq. injection Heq as <- <- _ ->.
    destruct (IH _ _ _ _ _ _ Hloop) as (k & t0 & r0 & Hk & Hr & Hk' & Hlen & Hafter).
    exists (Datatypes.S k), t0, r0. cbn [lookup list_lookup length].
    refine (conj Hk (conj Hr (conj Hk' (conj (f_equal Datatypes.S Hlen) _)))).
    intros [|i] Hi; [lia|]. cbn. apply Hafter. lia.
Qed.

(** X21: when serial gridding raises, the fault is that of one occupied
    slot's own gridding; that slot is left as its gridding left it and
    every later slot is left untouched. *)
Theorem serial_gridding_stops_at_the_fault alg res ce g slots g' e :
  tiles g = Some slots →
  _grid_regular alg res ce g = (g', Raise e) →
  ∃ k t r l', slots !! k = Some (Some t)
              ∧ snd (slot_grid alg r ce t) = Raise e
              ∧ tiles g' = Some l'
              ∧ l' !! k = Some (Some (fst (slot_grid alg r ce t)))
              ∧ length l' = length slots
              ∧ ∀ i, (k < i)%nat → l' !! i = slots !! i.
Proof.
  intros Ht. unfold _grid_regular. cbv zeta.
  change (tiles (set_resolutions [] g)) with (tiles g). rewrite Ht.
  destruct (regular_loop alg ce 0 slots res []) as [[[slots' found] calls] o]
    eqn:Hloop.
  destruct o as [[]|e0]; intros Heq; [discriminate Heq|].
  injection Heq as <- <-.
  destruct (regular_loop_fault _ _ _ _ _ _ _ _ _ _ Hloop)
    as (k & t & r & Hk & Hr & Hk' & Hlen & Hafter).
  exists k, t, r, slots'.
  refine (conj Hk (conj Hr (conj eq_refl (conj Hk' (conj Hlen Hafter))))).
Qed.

End PartWay.

Import MoreExamples.

Lemma serial_gridding_stops_at_the_fault_witness :
  ∃ k t r l', unfilled_nested !! k = Some (Some t)
              ∧ snd (slot_grid "mean" r false t) = Raise EmptyGridFault
              ∧ tiles (fst (_grid_regular "mean" 8 false vr_with_unfilled)) = Some l'
              ∧ l' !! k = Some (Some (fst (slot_grid "mean" r false t)))
              ∧ length l' = length unfilled_nested
              ∧ ∀ i, (k < i)%nat → l' !! i = unfilled_nested !! i.
Proof.
  destruct (_grid_regular "mean" 8 false vr_with_unfilled) as [g' [calls|e]] eqn:Hrun;
    [apply (f_equal (fun p => is_ok (snd p))) in Hrun; vm_compute in Hrun;
     discriminate Hrun|].
  assert (He : e = EmptyGridFault).
  { apply (f_equal snd) in Hrun. vm_compute in Hrun. injection Hrun as <-.
    reflexivity. }
  subst e.
  exact (serial_gridding_stops_at_the_fault "mean" 8 false vr_with_unfilled
           unfilled_nested g' EmptyGridFault eq_refl Hrun).
Defined.
(** ** A grid that cannot grow *)

Section FixedGeometry.
Context `{TileIface} `{!BaseGridOps} `{!Utilities} {S : Type} `{!SlotOps S}.
Implicit Type g : BathyGrid S.

Lemma _validate_input_data_base g :
  base (fst (_validate_input_data g)) = base g.
Proof.
  unfold _validate_input_data.
  destruct (cls g); [reflexivity| |].
  all: destruct (data g) as [[[fs|v]|[fs|v]|vars coords dims|]|]; try reflexivity.
  all: try (destruct fs as [|f fs]; [reflexivity|]).
  all: repeat match goal with
         | |- context [if ?c then _ else _] => destruct c; try reflexivity
         | |- context [match _convert_dataset ?v with _ => _ end] =>
             destruct (_convert_dataset v); try reflexivity
         end.
Qed.

Lemma _update_metadata_base name fl crs vr g :
  base (fst (_update_metadata name fl crs vr g)) = base g.
Proof.
  unfold _update_metadata.
  destruct (cls g); [reflexivity| |].
  all: destruct fl as [[|f fl]|]; cbn [epsg vertical_reference set_container].
  all: repeat match goal with
         | |- context [if ?c then _ else _] => destruct c; cbn [negb andb]
         | |- context [match py_int ?v with _ => _ end] =>
             destruct (py_int v); cbn [negb andb]
         end.
  all: reflexivity.
Qed.

(** With tiles in place and no leave to grow, the geometry step does
    nothing. *)
Lemma _update_base_grid_fixed g :
  is_empty g = false → can_grow (base g) = false →
  _update_base_grid g = (g, Ok tt).
Proof.
  intros He Hg. unfold _update_base_grid. rewrite He, Hg.
  destruct (data g); reflexivity.
Qed.

Lemma _update_tiles_fixed name g :
  is_empty g = false → can_grow (base g) = false →
  _update_tiles name g = _add_points_to_tiles name g.
Proof.
  intros He Hg. unfold _update_tiles, _add_points_to_tiles. rewrite He, Hg.
  destruct (data g); reflexivity.
Qed.

Lemma _add_points_to_tiles_same_length name g :
  length (default [] (tiles (fst (_add_points_to_tiles name g))))
  = length (default [] (tiles g)).
Proof.
  destruct (tiles g) as [l|] eqn:Ht.
  - destruct (_add_points_to_tiles_length name g l Ht) as (l' & Hl' & Hlen).
    rewrite Hl'. exact Hlen.
  - unfold _add_points_to_tiles.
    destruct (data g) as [d|]; [|cbn [fst]; rewrite Ht; reflexivity].
    destruct (get_field d "x") as [xs|e]; [|cbn [fst]; rewrite Ht; reflexivity].
    destruct (get_field d "y") as [ys|e]; [|cbn [fst]; rewrite Ht; reflexivity].
    destruct (bin2d_with_indices _ _ _ _) as [binnum|e];
      rewrite ?Ht; cbn [fst]; rewrite ?Ht; reflexivity.
Qed.

(** X22: on a grid that holds tiles and cannot grow, [add_points] never
    changes the geometry nor the number of slots of the lattice,
    whatever it is given and whether it returns or raises. *)
Theorem fixed_grid_keeps_its_geometry g d name fl crs vr :
  is_empty g = false → can_grow (base g) = false →
  base (fst (add_points d name fl crs vr g)) = base g
  ∧ length (default [] (tiles (fst (add_points d name fl crs vr g))))
    = length (default [] (tiles g)).
Proof.
  intros He Hg. rewrite add_points_steps.
  set (g0 := set_data (compute d) g).
  pose proof (_validate_input_data_base g0) as Hb1.
  pose proof (_validate_input_data_tiles g0) as Ht1.
  destruct (_validate_input_data g0) as [g1 [[]|e]]; cbn [fst] in *;
    [|rewrite Hb1, Ht1; split; reflexivity].
  pose proof (_update_metadata_base name fl crs vr g1) as Hb2.
  destruct (_update_metadata_tiles name fl crs vr g1) as [Ht2 _].
  destruct (_update_metadata name fl crs vr g1) as [g2 [[]|e]]; cbn [fst] in *;
    [|rewrite Hb2, Ht2, Hb1, Ht1; split; reflexivity].
  assert (He2 : is_empty g2 = false)
    by (unfold is_empty in *; rewrite Ht2, Ht1; exact He).
  assert (Hg2 : can_grow (base g2) = false) by (rewrite Hb2, Hb1; exact Hg).
  unfold bind, modify.
  rewrite (_update_base_grid_fixed g2 He2 Hg2).
  rewrite (_update_tiles_fixed name g2 He2 Hg2).
  destruct (_add_points_to_tiles_metadata name g2) as [_ Hb3].
  pose proof (_add_points_to_tiles_same_length name g2) as Hl3.
  destruct (_add_points_to_tiles name g2) as [g3 [[]|e]]; cbn [fst] in *;
    [|rewrite Hb3, Hl3, Hb2, Ht2, Hb1, Ht1; split; reflexivity].
  destruct (_update_mean_depth_metadata g3) as [_ Hb4].
  pose proof (_update_mean_depth_tiles g3) as Ht4.
  destruct (_update_mean_depth g3) as [g4 [[]|e]]; cbn [fst] in *.
  - cbn [base tiles set_data].
    rewrite Hb4, Ht4, Hb3, Hl3, Hb2, Ht2, Hb1, Ht1. split; reflexivity.
  - rewrite Hb4, Ht4, Hb3, Hl3, Hb2, Ht2, Hb1, Ht1. split; reflexivity.
Qed.

End FixedGeometry.

Import MoreExamples.

Lemma fixed_grid_keeps_its_geometry_witness :
  base (fst (add_points fardata "test2" None (Some 26917%Z) None pinned))
  = base pinned
  ∧ length (default [] (tiles (fst (add_points fardata "test2" None
                                               (Some 26917%Z) None pinned))))
    = length (default [] (tiles pinned)).
Proof.
  apply (fixed_grid_keeps_its_geometry pinned fardata "test2" None
           (Some 26917%Z) None).
  - vm_compute. reflexivity.
  - reflexivity.
Defined.
